(** * Appointment lifecycle of the clinic scheduling backend

    A shallow embedding of the appointment handlers of
    [routes/appointments.js], [routes/patientBooking.js], the later
    revision of the portal routes ([unnamed/part_012]), the patient unlock
    route ([unnamed/part_009]) and the Mongoose schemas
    ([unnamed/part_007] for Appointment, [models/Patient.js] for Patient).

    Conventions of the model:
    - a JavaScript [Date] is its time value, milliseconds since the epoch,
      as [Z]; an absent or [null] date is [None];
    - strings are Stdlib [string]s; JavaScript [undefined] is [None];
    - the document store is a record of collections (lists); a handler
      takes the store and returns the HTTP status it answers with and the
      store after the request;
    - Mongoose's strict mode is written out: a document is read and written
      through the paths its schema declares ([patient_schema_view],
      [appointment_schema_view]). *)

From Stdlib Require Import ZArith List Bool Ascii String Lia.
From Stdlib Require Import Numbers.DecimalString.
Import ListNotations.
Open Scope Z_scope.

(** ** JavaScript string helpers *)

Module Js.

(** [String.prototype.split] with a one-character separator. *)
Fixpoint split_chars (sep : ascii) (l : list ascii) : list (list ascii) :=
  match l with
  | [] => [[]]
  | c :: r =>
      let rest := split_chars sep r in
      if Ascii.eqb c sep then [] :: rest
      else match rest with
           | h :: t => (c :: h) :: t
           | [] => [[c]]
           end
  end.

Definition split (sep : ascii) (s : string) : list string :=
  map string_of_list_ascii (split_chars sep (list_ascii_of_string s)).

(** Template interpolation of a value that may be [undefined]. *)
Definition str (o : option string) : string :=
  match o with Some s => s | None => "undefined"%string end.

Definition digit_value (c : ascii) : option Z :=
  let n := Z.of_nat (nat_of_ascii c) in
  if (48 <=? n) && (n <=? 57) then Some (n - 48) else None.

Fixpoint digits_prefix (l : list ascii) (acc : Z) (seen : bool) : option Z :=
  match l with
  | c :: r =>
      match digit_value c with
      | Some d => digits_prefix r (acc * 10 + d) true
      | None => if seen then Some acc else None
      end
  | [] => if seen then Some acc else None
  end.

Definition is_space (c : ascii) : bool :=
  Ascii.eqb c " "%char || Ascii.eqb c (ascii_of_nat 9) || Ascii.eqb c (ascii_of_nat 10).

Fixpoint drop_spaces (l : list ascii) : list ascii :=
  match l with
  | c :: r => if is_space c then drop_spaces r else l
  | [] => []
  end.

(** [String.prototype.trim] on the white space [is_space] knows. *)
Definition trim (s : string) : string :=
  string_of_list_ascii (rev (drop_spaces (rev (drop_spaces (list_ascii_of_string s))))).

(** [parseInt(s, 10)]: leading white space, an optional sign, then the
    longest run of decimal digits; [None] is [NaN]. *)
Definition parseInt (s : string) : option Z :=
  match drop_spaces (list_ascii_of_string s) with
  | c :: r =>
      if Ascii.eqb c "-"%char then option_map Z.opp (digits_prefix r 0 false)
      else if Ascii.eqb c "+"%char then digits_prefix r 0 false
      else digits_prefix (c :: r) 0 false
  | [] => None
  end.

(** Decimal rendering of an integral number, [NaN] for [None]. *)
Definition number_to_string (o : option Z) : string :=
  match o with
  | Some n => NilEmpty.string_of_int (Z.to_int n)
  | None => "NaN"%string
  end.

End Js.

(** ** The 12-hour time strings *)

Definition digit_between (lo hi : Z) (c : ascii) : bool :=
  match Js.digit_value c with
  | Some d => (lo <=? d) && (d <=? hi)
  | None => false
  end.

Definition is_char (c d : ascii) : bool := Ascii.eqb c d.

(** The schema validator of [appointmentTime] and the [newTime] validator
    of the reschedule route:
    [/^(0?[1-9]|1[0-2]):[0-5][0-9] (AM|PM)$/i]. *)
Definition valid_time12 (s : string) : bool :=
  let tail_ok (r : list ascii) :=
    match r with
    | [colon; m1; m2; sp; a; m] =>
        is_char colon ":"%char && digit_between 0 5 m1 && digit_between 0 9 m2
        && is_char sp " "%char
        && (is_char a "A"%char || is_char a "a"%char
            || is_char a "P"%char || is_char a "p"%char)
        && (is_char m "M"%char || is_char m "m"%char)
    | _ => false
    end in
  match list_ascii_of_string s with
  | h :: r =>
      (digit_between 1 9 h && tail_ok r)
      || match r with
         | h2 :: r' =>
             ((is_char h "0"%char && digit_between 1 9 h2)
              || (is_char h "1"%char && digit_between 0 2 h2)) && tail_ok r'
         | [] => false
         end
  | [] => false
  end.

(** [convertTo24Hour] of [routes/patientBooking.js] (the same text is in
    [unnamed/part_012]):
<<
  const [time, modifier] = time12h.split(' ');
  let [hours, minutes] = time.split(':');
  if (hours === '12') { hours = '00'; }
  if (modifier === 'PM') { hours = parseInt(hours, 10) + 12; }
  return `${hours}:${minutes}:00`;
>> *)
Definition convertTo24Hour (time12h : string) : string :=
  let parts := Js.split " "%char time12h in
  let time := nth_error parts 0 in
  let modifier := nth_error parts 1 in
  let hm := Js.split ":"%char (Js.str time) in
  let hours0 := nth_error hm 0 in
  let minutes := nth_error hm 1 in
  let hours1 :=
    match hours0 with
    | Some h => if String.eqb h "12" then Some "00"%string else Some h
    | None => None
    end in
  let hours2 :=
    match modifier with
    | Some md =>
        if String.eqb md "PM"
        then Js.number_to_string (option_map (fun n => n + 12) (Js.parseInt (Js.str hours1)))
        else Js.str hours1
    | None => Js.str hours1
    end in
  (hours2 ++ ":" ++ Js.str minutes ++ ":00")%string.


(** ** JavaScript dates *)

Module JsDate.

Definition ms_per_day : Z := 86400000.

(** Days from 1970-01-01 to the proleptic Gregorian date [y-m-d]. *)
Definition days_from_civil (y m d : Z) : Z :=
  let y' := if m <=? 2 then y - 1 else y in
  let era := y' / 400 in
  let yoe := y' - era * 400 in
  let mp := (m + 9) mod 12 in
  let doy := (153 * mp + 2) / 5 + d - 1 in
  let doe := yoe * 365 + yoe / 4 - yoe / 100 + doy in
  era * 146097 + doe - 719468.

(** The calendar date of a day number. *)
Definition civil_from_days (z0 : Z) : Z * Z * Z :=
  let z := z0 + 719468 in
  let era := z / 146097 in
  let doe := z - era * 146097 in
  let yoe := (doe - doe / 1460 + doe / 36524 - doe / 146096) / 365 in
  let doy := doe - (365 * yoe + yoe / 4 - yoe / 100) in
  let mp := (5 * doy + 2) / 153 in
  let d := doy - (153 * mp + 2) / 5 + 1 in
  let m := if mp <? 10 then mp + 3 else mp - 9 in
  let y := yoe + era * 400 in
  (if m <=? 2 then y + 1 else y, m, d).

(** [Date.UTC(year, monthIndex, day, h, mi, s)], month index normalised
    as MakeDay does. *)
Definition utc (y mi d h mn s : Z) : Z :=
  let ym := y + mi / 12 in
  let mn0 := mi mod 12 in
  (days_from_civil ym (mn0 + 1) 1 + d - 1) * ms_per_day
  + h * 3600000 + mn * 60000 + s * 1000.

Fixpoint zeros (k : nat) : string :=
  match k with O => EmptyString | S j => String "0"%char (zeros j) end.

(** [s.padStart(n, '0')] *)
Definition pad0 (n : nat) (s : string) : string := (zeros (n - String.length s) ++ s)%string.

Definition z2 (n : Z) : string := pad0 2 (Js.number_to_string (Some n)).
Definition z4 (n : Z) : string := pad0 4 (Js.number_to_string (Some n)).

(** [date.toISOString().split('T')[0]]: the UTC calendar date, for years
    0 to 9999. *)
Definition iso_date_part (t : Z) : string :=
  let '(y, m, d) := civil_from_days (t / ms_per_day) in
  (z4 y ++ "-" ++ z2 m ++ "-" ++ z2 d)%string.

(** [date.getDay()] in a time zone [tz] milliseconds east of UTC. *)
Definition getDay (tz t : Z) : Z := ((t + tz) / ms_per_day + 4) mod 7.

Definition dig (c : ascii) : option Z := Js.digit_value c.

Definition num2 (a b : ascii) : option Z :=
  match dig a, dig b with
  | Some x, Some y => Some (x * 10 + y)
  | _, _ => None
  end.

Definition num4 (a b c d : ascii) : option Z :=
  match num2 a b, num2 c d with
  | Some x, Some y => Some (x * 100 + y)
  | _, _ => None
  end.

Definition date_fields_ok (mo d : Z) : bool :=
  (1 <=? mo) && (mo <=? 12) && (1 <=? d) && (d <=? 31).

Definition time_fields_ok (h mn s : Z) : bool :=
  ((0 <=? h) && (h <=? 23) && (0 <=? mn) && (mn <=? 59) && (0 <=? s) && (s <=? 59))
  || ((h =? 24) && (mn =? 0) && (s =? 0)).

(** [new Date(s).getTime()] for the two shapes the handlers build: the
    date-only form [YYYY-MM-DD] (read as UTC) and the date-time form
    [YYYY-MM-DDTHH:mm:ss] without offset (read as local time, [tz]
    milliseconds east of UTC), both of the ECMAScript Date Time String
    Format. Any other string is [NaN] ([None]): V8 refuses a date-time
    string whose hour after [T] is not two digits. *)
Definition parse (tz : Z) (s : string) : option Z :=
  match list_ascii_of_string s with
  | [y1; y2; y3; y4; dash1; m1; m2; dash2; d1; d2] =>
      if is_char dash1 "-"%char && is_char dash2 "-"%char then
        match num4 y1 y2 y3 y4, num2 m1 m2, num2 d1 d2 with
        | Some y, Some mo, Some d =>
            if date_fields_ok mo d then Some (utc y (mo - 1) d 0 0 0) else None
        | _, _, _ => None
        end
      else None
  | [y1; y2; y3; y4; dash1; m1; m2; dash2; d1; d2; t; h1; h2; c1; n1; n2; c2; s1; s2] =>
      if is_char dash1 "-"%char && is_char dash2 "-"%char && is_char t "T"%char
         && is_char c1 ":"%char && is_char c2 ":"%char then
        match num4 y1 y2 y3 y4, num2 m1 m2, num2 d1 d2, num2 h1 h2, num2 n1 n2, num2 s1 s2 with
        | Some y, Some mo, Some d, Some h, Some mn, Some sc =>
            if date_fields_ok mo d && time_fields_ok h mn sc
            then Some (utc y (mo - 1) d h mn sc - tz) else None
        | _, _, _, _, _, _ => None
        end
      else None
  | _ => None
  end.

End JsDate.


(** ** Data model *)

(** [status] of the Appointment schema ([unnamed/part_007]). *)
Inductive appt_status :=
| Scheduled | Confirmed | Completed | Cancelled | NoShow | Rescheduled
| CancellationPending | ReschedulePending.

Definition status_eqb (x y : appt_status) : bool :=
  match x, y with
  | Scheduled, Scheduled | Confirmed, Confirmed | Completed, Completed
  | Cancelled, Cancelled | NoShow, NoShow | Rescheduled, Rescheduled
  | CancellationPending, CancellationPending
  | ReschedulePending, ReschedulePending => true
  | _, _ => false
  end.

Definition status_in (s : appt_status) (l : list appt_status) : bool :=
  existsb (status_eqb s) l.

(** [status] of an embedded cancellation or reschedule request. *)
Inductive request_status := ReqPending | ReqApproved | ReqRejected.

Definition request_status_eqb (x y : request_status) : bool :=
  match x, y with
  | ReqPending, ReqPending | ReqApproved, ReqApproved | ReqRejected, ReqRejected => true
  | _, _ => false
  end.

Inductive booking_source := BookedByStaff | PatientPortal.

(** [cancellationRequest]; [cr_previousStatus] is the key
    [previousStatus] that [unnamed/part_012] writes into the object,
    a path the schema does not declare. *)
Record cancellation_request := {
  cr_status : request_status;
  cr_requestedBy : option nat;
  cr_previousStatus : option appt_status
}.

(** [rescheduleRequest]. *)
Record reschedule_request := {
  rr_status : request_status;
  rr_requestedBy : option nat;
  rr_preferredDate : option Z;
  rr_preferredTime : option string
}.

(** The nested paths [cancellationRequest.status] and
    [rescheduleRequest.status] have [default: 'pending']: Mongoose gives
    every Appointment document, new or loaded, these two objects. *)
Definition default_cancellationRequest : cancellation_request :=
  {| cr_status := ReqPending; cr_requestedBy := None; cr_previousStatus := None |}.

Definition default_rescheduleRequest : reschedule_request :=
  {| rr_status := ReqPending; rr_requestedBy := None; rr_preferredDate := None;
     rr_preferredTime := None |}.

(** [rescheduledFrom]. *)
Record rescheduled_from := {
  originalDate : option Z;
  originalTime : option string
}.

(** The Appointment document, restricted to the paths the lifecycle reads
    or writes. [a_id] is the storage id [_id]; [primaryPhone] is
    [contactInfo.primaryPhone]. A String path that is not set is the empty
    string: the [required] validator refuses both. *)
Record appointment := {
  a_id : nat;
  appointmentId : string;
  patient : option nat;
  patientUserId : option nat;
  doctorType : string;
  doctorName : string;
  appointmentDate : option Z;
  appointmentTime : option string;
  serviceType : string;
  primaryPhone : string;
  patientName : string;
  contactNumber : string;
  status : appt_status;
  bookingSource : booking_source;
  cancellationRequest : option cancellation_request;
  rescheduleRequest : option reschedule_request;
  rescheduledFrom : option rescheduled_from
}.

Inductive patient_status := PNew | PActive | PInactive.

Definition patient_status_eqb (x y : patient_status) : bool :=
  match x, y with
  | PNew, PNew | PActive, PActive | PInactive, PInactive => true
  | _, _ => false
  end.

(** The Patient document: [patientId] is the clinic id ([OBG000001]),
    [p_email] is [contactInfo.email], [recordName] and [recordContact] are
    the name ([obGyneRecord.patientName] or
    [pediatricRecord.nameOfChildren]) and [contactNumber] of the record of
    the patient's type; [noShowCount] and [appointmentLocked] are the
    properties the routes assign. *)
Record patient_doc := {
  p_id : nat;
  patientId : string;
  patientType : string;
  p_status : patient_status;
  p_email : option string;
  recordName : string;
  recordContact : string;
  isActive : bool;
  noShowCount : option Z;
  appointmentLocked : option bool
}.

(** The PatientUser document (portal account); [pu_fullName] is
    [patientUser.fullName], [pu_phoneNumber] is [patientUser.phoneNumber]. *)
Record patient_user := {
  pu_id : nat;
  pu_email : string;
  pu_fullName : string;
  pu_phoneNumber : string;
  patientRecord : option nat
}.

(** The document store. [next_id] supplies fresh [_id]s. *)
Record db := {
  appointments : list appointment;
  patients : list patient_doc;
  patientUsers : list patient_user;
  next_id : nat
}.

(** The request context: the current time, the server's time zone (ms east
    of UTC) and the doctor day switches of the Settings document
    ([settings.<doctor>.hours[day].enabled], [None] when the doctor name
    matches neither configured doctor). *)
Record env := {
  now : Z;
  tz : Z;
  doctor_day_enabled : string -> Z -> option bool
}.

Inductive response :=
| Ok200 | Created201 | Bad400 (message : string) | Forbidden403 | NotFound404 | Error500.

(** *** Field updates *)

Definition set_status (s : appt_status) (a : appointment) : appointment :=
  {| a_id := a_id a; appointmentId := appointmentId a; patient := patient a;
     patientUserId := patientUserId a; doctorType := doctorType a; doctorName := doctorName a;
     appointmentDate := appointmentDate a; appointmentTime := appointmentTime a;
     serviceType := serviceType a; primaryPhone := primaryPhone a;
     patientName := patientName a; contactNumber := contactNumber a;
     status := s; bookingSource := bookingSource a;
     cancellationRequest := cancellationRequest a;
     rescheduleRequest := rescheduleRequest a; rescheduledFrom := rescheduledFrom a |}.

Definition set_slot (d : option Z) (t : option string) (a : appointment) : appointment :=
  {| a_id := a_id a; appointmentId := appointmentId a; patient := patient a;
     patientUserId := patientUserId a; doctorType := doctorType a; doctorName := doctorName a;
     appointmentDate := d; appointmentTime := t;
     serviceType := serviceType a; primaryPhone := primaryPhone a;
     patientName := patientName a; contactNumber := contactNumber a;
     status := status a; bookingSource := bookingSource a;
     cancellationRequest := cancellationRequest a;
     rescheduleRequest := rescheduleRequest a; rescheduledFrom := rescheduledFrom a |}.

Definition set_cancellationRequest (c : option cancellation_request) (a : appointment)
  : appointment :=
  {| a_id := a_id a; appointmentId := appointmentId a; patient := patient a;
     patientUserId := patientUserId a; doctorType := doctorType a; doctorName := doctorName a;
     appointmentDate := appointmentDate a; appointmentTime := appointmentTime a;
     serviceType := serviceType a; primaryPhone := primaryPhone a;
     patientName := patientName a; contactNumber := contactNumber a;
     status := status a; bookingSource := bookingSource a;
     cancellationRequest := c;
     rescheduleRequest := rescheduleRequest a; rescheduledFrom := rescheduledFrom a |}.

Definition set_rescheduleRequest (r : option reschedule_request) (a : appointment)
  : appointment :=
  {| a_id := a_id a; appointmentId := appointmentId a; patient := patient a;
     patientUserId := patientUserId a; doctorType := doctorType a; doctorName := doctorName a;
     appointmentDate := appointmentDate a; appointmentTime := appointmentTime a;
     serviceType := serviceType a; primaryPhone := primaryPhone a;
     patientName := patientName a; contactNumber := contactNumber a;
     status := status a; bookingSource := bookingSource a;
     cancellationRequest := cancellationRequest a;
     rescheduleRequest := r; rescheduledFrom := rescheduledFrom a |}.

Definition set_rescheduledFrom (f : option rescheduled_from) (a : appointment)
  : appointment :=
  {| a_id := a_id a; appointmentId := appointmentId a; patient := patient a;
     patientUserId := patientUserId a; doctorType := doctorType a; doctorName := doctorName a;
     appointmentDate := appointmentDate a; appointmentTime := appointmentTime a;
     serviceType := serviceType a; primaryPhone := primaryPhone a;
     patientName := patientName a; contactNumber := contactNumber a;
     status := status a; bookingSource := bookingSource a;
     cancellationRequest := cancellationRequest a;
     rescheduleRequest := rescheduleRequest a; rescheduledFrom := f |}.

Definition cr_with_status (s : request_status) (c : cancellation_request)
  : cancellation_request :=
  {| cr_status := s; cr_requestedBy := cr_requestedBy c;
     cr_previousStatus := cr_previousStatus c |}.

Definition rr_with_status (s : request_status) (r : reschedule_request)
  : reschedule_request :=
  {| rr_status := s; rr_requestedBy := rr_requestedBy r;
     rr_preferredDate := rr_preferredDate r; rr_preferredTime := rr_preferredTime r |}.

Definition set_p_status (s : patient_status) (p : patient_doc) : patient_doc :=
  {| p_id := p_id p; patientId := patientId p; patientType := patientType p;
     p_status := s; p_email := p_email p; recordName := recordName p;
     recordContact := recordContact p; isActive := isActive p;
     noShowCount := noShowCount p; appointmentLocked := appointmentLocked p |}.

Definition set_strikes (c : option Z) (l : option bool) (p : patient_doc) : patient_doc :=
  {| p_id := p_id p; patientId := patientId p; patientType := patientType p;
     p_status := p_status p; p_email := p_email p; recordName := recordName p;
     recordContact := recordContact p; isActive := isActive p;
     noShowCount := c; appointmentLocked := l |}.

Definition set_appointments (l : list appointment) (d : db) : db :=
  {| appointments := l; patients := patients d; patientUsers := patientUsers d;
     next_id := next_id d |}.

Definition set_patients (l : list patient_doc) (d : db) : db :=
  {| appointments := appointments d; patients := l; patientUsers := patientUsers d;
     next_id := next_id d |}.

Definition set_patientUsers (l : list patient_user) (d : db) : db :=
  {| appointments := appointments d; patients := patients d; patientUsers := l;
     next_id := next_id d |}.

Definition bump_id (d : db) : db :=
  {| appointments := appointments d; patients := patients d;
     patientUsers := patientUsers d; next_id := S (next_id d) |}.

(** ** The document store *)

Definition find_appointment (id : nat) (d : db) : option appointment :=
  find (fun a => Nat.eqb (a_id a) id) (appointments d).

(** [doc.save()] of an existing document replaces it; of a new one
    appends it. *)
Definition put_appointment (a : appointment) (d : db) : db :=
  if existsb (fun b => Nat.eqb (a_id b) (a_id a)) (appointments d)
  then set_appointments
         (map (fun b => if Nat.eqb (a_id b) (a_id a) then a else b) (appointments d)) d
  else set_appointments (appointments d ++ [a]) d.

Definition put_patient (p : patient_doc) (d : db) : db :=
  if existsb (fun q => Nat.eqb (p_id q) (p_id p)) (patients d)
  then set_patients (map (fun q => if Nat.eqb (p_id q) (p_id p) then p else q) (patients d)) d
  else set_patients (patients d ++ [p]) d.

Definition put_patient_user (u : patient_user) (d : db) : db :=
  if existsb (fun v => Nat.eqb (pu_id v) (pu_id u)) (patientUsers d)
  then set_patientUsers
         (map (fun v => if Nat.eqb (pu_id v) (pu_id u) then u else v) (patientUsers d)) d
  else set_patientUsers (patientUsers d ++ [u]) d.

Definition find_patient_user (id : nat) (d : db) : option patient_user :=
  find (fun u => Nat.eqb (pu_id u) id) (patientUsers d).

(** The Appointment schema ([unnamed/part_007]) declares [status],
    [reason], [requestedAt], [requestedBy], [reviewedAt], [reviewedBy] and
    [adminNotes] under [cancellationRequest], not [previousStatus]: strict
    mode drops it on assignment. *)
Definition appointment_schema_view (a : appointment) : appointment :=
  set_cancellationRequest
    (option_map (fun c => {| cr_status := cr_status c; cr_requestedBy := cr_requestedBy c;
                             cr_previousStatus := None |})
                (cancellationRequest a)) a.

Definition valid_doctor_name (n : string) : bool :=
  String.eqb n "Dr. Maria Sarah L. Manaloto" || String.eqb n "Dr. Shara Laine S. Vino".

(** The [serviceType] enum of the Appointment schema. *)
Definition service_types : list string :=
  ["PRENATAL_CHECKUP"; "POSTNATAL_CHECKUP"; "CHILDBIRTH_CONSULTATION";
   "DILATATION_CURETTAGE"; "FAMILY_PLANNING"; "PAP_SMEAR"; "WOMEN_VACCINATION";
   "PCOS_CONSULTATION"; "STI_CONSULTATION"; "INFERTILITY_CONSULTATION";
   "MENOPAUSE_CONSULTATION"; "NEWBORN_CONSULTATION"; "WELL_BABY_CHECKUP";
   "WELL_CHILD_CHECKUP"; "PEDIATRIC_EVALUATION"; "CHILD_VACCINATION"; "EAR_PIERCING";
   "PEDIATRIC_REFERRAL"]%string.

(** [required: true] on a String path: set and not empty. *)
Definition filled (s : string) : bool := negb (String.eqb s "").

(** Schema validation of [unnamed/part_007]: [appointmentId] required;
    [patient] required unless [bookingSource] is [patient_portal];
    [doctorType] required, in ['ob-gyne', 'pediatric']; [doctorName]
    required, in its enum; [appointmentDate] required; [appointmentTime]
    required and matched by the 12-hour pattern; [serviceType] required,
    in its enum; [contactInfo.primaryPhone], [patientName] and
    [contactNumber] required. The enums of [status], [bookingSource] and
    the request statuses hold by the types. *)
Definition appointment_validates (a : appointment) : bool :=
  filled (appointmentId a)
  && match bookingSource a with
     | PatientPortal => true
     | BookedByStaff => match patient a with Some _ => true | None => false end
     end
  && (String.eqb (doctorType a) "ob-gyne" || String.eqb (doctorType a) "pediatric")
  && valid_doctor_name (doctorName a)
  && match appointmentDate a with Some _ => true | None => false end
  && match appointmentTime a with Some t => valid_time12 t | None => false end
  && existsb (String.eqb (serviceType a)) service_types
  && filled (primaryPhone a) && filled (patientName a) && filled (contactNumber a).

(** The unique index on [appointmentId]: no other document holds the
    same value. *)
Definition appointmentId_free (a : appointment) (d : db) : bool :=
  forallb (fun b => Nat.eqb (a_id b) (a_id a) || negb (String.eqb (appointmentId b) (appointmentId a)))
          (appointments d).

(** The week days of the second [pre('save')] hook of [unnamed/part_007]
    (the schedule check). *)
Definition hardcoded_schedule_days (n : string) : option (list Z) :=
  if String.eqb n "Dr. Maria Sarah L. Manaloto" then Some [1; 3; 5]
  else if String.eqb n "Dr. Shara Laine S. Vino" then Some [1; 2; 4]
  else None.

Definition schedule_hook_ok (e : env) (a : appointment) : bool :=
  let day := JsDate.getDay (tz e) (match appointmentDate a with Some t => t | None => 0 end) in
  match hardcoded_schedule_days (doctorName a) with
  | Some days => existsb (Z.eqb day) days
  | None => true
  end.

(** [appointment.save()]: validation runs before the [pre('save')] hooks,
    so the first hook, which fills a missing [appointmentId], only ever
    sees a document that has one and does nothing; then the schedule hook;
    then the write, refused by the unique index on a duplicate
    [appointmentId]. Any failure is thrown and answered 500 by the
    handler's [catch]. *)
Definition save_appointment (e : env) (a : appointment) (d : db) : option db :=
  if appointment_validates a && schedule_hook_ok e a && appointmentId_free a d
  then Some (put_appointment (appointment_schema_view a) d)
  else None.

(** The strike counter of [PATCH /:id/status] on the loaded patient:
<<
  patient.noShowCount = (patient.noShowCount || 0) + 1;
  if (patient.noShowCount >= 3) { patient.appointmentLocked = true; }
>> *)
Definition record_no_show (p : patient_doc) : patient_doc :=
  let c := match noShowCount p with Some n => n | None => 0 end + 1 in
  set_strikes (Some c) (if 3 <=? c then Some true else appointmentLocked p) p.

Section PatientSchema.

(** Whether the Patient schema declares the paths [noShowCount] and
    [appointmentLocked]. [models/Patient.js] declares neither
    ([repo_patient_schema] below). *)
Variable strike_fields_declared : bool.

(** A Patient document as read from and written to the store through
    Mongoose's strict schema. *)
Definition patient_schema_view (p : patient_doc) : patient_doc :=
  if strike_fields_declared then p else set_strikes None None p.

Definition find_patient (id : nat) (d : db) : option patient_doc :=
  option_map patient_schema_view (find (fun p => Nat.eqb (p_id p) id) (patients d)).

Definition save_patient (p : patient_doc) (d : db) : db :=
  put_patient (patient_schema_view p) d.

(** [PATCH /:id/status] of [routes/appointments.js] (staff). The body's
    [status] is validated against the six listed values; the free-text
    fields ([cancellationReason], [staffNotes]) are not modelled. *)
Definition status_update_target_ok (s : appt_status) : bool :=
  match s with
  | CancellationPending | ReschedulePending => false
  | _ => true
  end.

Definition update_status (e : env) (d : db) (id : nat) (s : appt_status)
  : response * db :=
  if negb (status_update_target_ok s) then (Bad400 "Validation failed", d) else
  match find_appointment id d with
  | None => (NotFound404, d)
  | Some a =>
      let previousStatus := status a in
      let '(a1, d1) :=
        if status_eqb s Confirmed then
          let a1 := set_status Confirmed a in
          let d1 :=
            match patient a with
            | Some pid =>
                match find_patient pid d with
                | Some p => if patient_status_eqb (p_status p) PNew
                            then save_patient (set_p_status PActive p) d else d
                | None => d
                end
            | None => d
            end in
          let a1 :=
            if status_eqb previousStatus ReschedulePending then
              match rescheduleRequest a1 with
              | Some r => set_rescheduleRequest (Some (rr_with_status ReqRejected r)) a1
              | None => a1
              end
            else a1 in
          (a1, d1)
        else if status_eqb s Cancelled then
          let a1 := set_status Cancelled a in
          let a1 :=
            match bookingSource a, patientUserId a with
            | PatientPortal, Some _ =>
                set_cancellationRequest
                  (Some {| cr_status := ReqApproved; cr_requestedBy := None;
                           cr_previousStatus := None |}) a1
            | _, _ => a1
            end in
          (a1, d)
        else (set_status s a, d) in
      let d2 :=
        if status_eqb s NoShow && negb (status_eqb previousStatus NoShow) then
          match patient a with
          | Some pid =>
              match find_patient pid d1 with
              | Some p => save_patient (record_no_show p) d1
              | None => d1
              end
          | None => d1
          end
        else d1 in
      match save_appointment e a1 d2 with
      | Some d3 => (Ok200, d3)
      | None => (Error500, d2)
      end
  end.

(** [PATCH /:id/unlock-appointments] ([unnamed/part_009]). *)
Definition unlock_appointments (d : db) (pid : nat) : response * db :=
  match find_patient pid d with
  | None => (NotFound404, d)
  | Some p => (Ok200, save_patient (set_strikes (Some 0) (Some false) p) d)
  end.

End PatientSchema.

(** [models/Patient.js]: the schema has no [noShowCount],
    [appointmentLocked] or [lastNoShowAt] path. *)
Definition repo_patient_schema : bool := false.

(** ** Slot-availability queries *)

Definition date_is (o : option Z) (t : Z) : bool :=
  match o with Some u => u =? t | None => false end.

Definition time_is (o : option string) (t : string) : bool :=
  match o with Some u => String.eqb u t | None => false end.

(** [POST /] of [routes/appointments.js]:
    [{ doctorName, appointmentDate, appointmentTime,
       status: { $in: ["scheduled", "confirmed"] } }]. *)
Definition existing_filter_create (doc : string) (date : Z) (time : string)
  (b : appointment) : bool :=
  String.eqb (doctorName b) doc && date_is (appointmentDate b) date
  && time_is (appointmentTime b) time && status_in (status b) [Scheduled; Confirmed].

(** [PATCH /:id/reschedule] of [routes/appointments.js] and
    [POST /request-reschedule] of [unnamed/part_012]:
    [{ _id: { $ne: appointment._id }, doctorName, appointmentDate,
       appointmentTime,
       status: { $in: ["scheduled", "confirmed", "reschedule_pending"] } }]. *)
Definition existing_filter_reschedule (self : nat) (doc : string) (date : Z) (time : string)
  (b : appointment) : bool :=
  negb (Nat.eqb (a_id b) self) && String.eqb (doctorName b) doc
  && date_is (appointmentDate b) date && time_is (appointmentTime b) time
  && status_in (status b) [Scheduled; Confirmed; ReschedulePending].

(** [POST /book-appointment] of [routes/patientBooking.js]:
    [{ appointmentDate, appointmentTime, doctorName,
       status: { $nin: ['cancelled'] } }]. *)
Definition existing_filter_portal (doc : string) (date : Z) (time : string)
  (b : appointment) : bool :=
  date_is (appointmentDate b) date && time_is (appointmentTime b) time
  && String.eqb (doctorName b) doc && negb (status_eqb (status b) Cancelled).

(** [Appointment.findOne(filter)] found a document. *)
Definition found (f : appointment -> bool) (d : db) : bool :=
  match find f (appointments d) with Some _ => true | None => false end.

(** ** The 2-hour cutoff of the patient requests *)

(** [routes/patientBooking.js], request-cancellation and
    request-reschedule:
<<
  const appointmentDateTime = new Date(`${appointment.appointmentDate
      .toISOString().split('T')[0]}T${convertTo24Hour(appointment.appointmentTime)}`);
  const timeDifference = appointmentDateTime.getTime() - now.getTime();
  const hoursDifference = timeDifference / (1000 * 60 * 60);
  if (hoursDifference < 2) { ... reject ... }
>>
    [Some true] is a rejection, [Some false] lets the request through and
    [None] is the [TypeError] thrown on a missing date or time (answered
    500). On integral milliseconds [t / 3600000 < 2] is [t < 7200000]; a
    [NaN] time value makes the comparison false. *)
Definition cutoff_rejects (e : env) (a : appointment) : option bool :=
  match appointmentDate a, appointmentTime a with
  | Some dt, Some t =>
      let appointmentDateTime :=
        JsDate.parse (tz e) (JsDate.iso_date_part dt ++ "T" ++ convertTo24Hour t)%string in
      Some (match appointmentDateTime with
            | Some at0 => at0 - now e <? 7200000
            | None => false
            end)
  | _, _ => None
  end.

(** ** Patient requests and staff reviews *)

Definition owned_by (user : nat) (a : appointment) : bool :=
  match patientUserId a with Some u => Nat.eqb u user | None => false end.

Definition find_own (aid : string) (user : nat) (d : db) : option appointment :=
  find (fun a => String.eqb (appointmentId a) aid && owned_by user a) (appointments d).

Definition cancellation_pending_request (a : appointment) : bool :=
  match cancellationRequest a with
  | Some c => request_status_eqb (cr_status c) ReqPending
  | None => false
  end.

Definition reschedule_pending_request (a : appointment) : bool :=
  match rescheduleRequest a with
  | Some r => request_status_eqb (rr_status r) ReqPending
  | None => false
  end.

Definition save_or_500 (e : env) (a : appointment) (d : db) : response * db :=
  match save_appointment e a d with
  | Some d' => (Ok200, d')
  | None => (Error500, d)
  end.

(** [POST /request-cancellation/:appointmentId] of
    [routes/patientBooking.js]. *)
Definition request_cancellation (e : env) (d : db) (aid : string) (user : nat)
  : response * db :=
  match find_own aid user d with
  | None => (NotFound404, d)
  | Some a =>
      if status_eqb (status a) Cancelled then (Bad400 "Appointment is already cancelled", d)
      else if status_eqb (status a) Completed then (Bad400 "Cannot cancel a completed appointment", d)
      else if cancellation_pending_request a
      then (Bad400 "Cancellation request is already pending admin approval", d)
      else match cutoff_rejects e a with
           | None => (Error500, d)
           | Some true => (Bad400 "Appointments can only be cancelled at least 2 hours in advance", d)
           | Some false =>
               let a1 := set_cancellationRequest
                           (Some {| cr_status := ReqPending; cr_requestedBy := Some user;
                                    cr_previousStatus := None |}) a in
               save_or_500 e (set_status CancellationPending a1) d
           end
  end.

Definition blank (s : string) : bool :=
  match Js.drop_spaces (list_ascii_of_string s) with [] => true | _ => false end.

(** [POST /request-cancellation/:appointmentId] of [unnamed/part_012]:
    the status is set to [cancellation_pending] before the request object,
    whose [previousStatus: appointment.status], is built. *)
Definition request_cancellation_v2 (e : env) (d : db) (aid : string) (user : nat)
  (reason : option string) : response * db :=
  match reason with
  | None => (Bad400 "Cancellation reason is required", d)
  | Some r =>
    if blank r then (Bad400 "Cancellation reason is required", d) else
    match find_own aid user d with
    | None => (NotFound404, d)
    | Some a =>
        if status_eqb (status a) Cancelled then (Bad400 "Appointment is already cancelled", d)
        else if status_eqb (status a) CancellationPending
        then (Bad400 "Cancellation request is already pending", d)
        else if status_eqb (status a) Completed then (Bad400 "Cannot cancel a completed appointment", d)
        else match cutoff_rejects e a with
             | None => (Error500, d)
             | Some true => (Bad400 "Appointments can only be cancelled at least 2 hours in advance", d)
             | Some false =>
                 let a1 := set_status CancellationPending a in
                 let a2 := set_cancellationRequest
                             (Some {| cr_status := ReqPending; cr_requestedBy := Some user;
                                      cr_previousStatus := Some (status a1) |}) a1 in
                 save_or_500 e a2 d
             end
    end
  end.

(** [PATCH /:id/reject-cancellation] of [routes/appointments.js]:
    [appointment.status = cancellationRequest.previousStatus || "confirmed"]. *)
Definition reject_cancellation (e : env) (d : db) (id : nat) : response * db :=
  match find_appointment id d with
  | None => (NotFound404, d)
  | Some a =>
      if negb (status_eqb (status a) CancellationPending)
      then (Bad400 "Appointment is not pending cancellation approval", d)
      else match cancellationRequest a with
           | Some c =>
               match cr_requestedBy c with
               | Some _ =>
                   let previousStatus :=
                     match cr_previousStatus c with Some s => s | None => Confirmed end in
                   let a1 := set_cancellationRequest (Some (cr_with_status ReqRejected c))
                               (set_status previousStatus a) in
                   save_or_500 e a1 d
               | None => (Bad400 "This is not a patient-initiated cancellation request", d)
               end
           | None => (Bad400 "This is not a patient-initiated cancellation request", d)
           end
  end.

(** [POST /request-reschedule/:appointmentId] of [routes/patientBooking.js];
    [preferredDate] is the value of [new Date(preferredDate)]. *)
Definition request_reschedule (e : env) (d : db) (aid : string) (user : nat)
  (preferredDate : option Z) (preferredTime : option string) : response * db :=
  match find_own aid user d with
  | None => (NotFound404, d)
  | Some a =>
      if status_eqb (status a) Cancelled || status_eqb (status a) Completed
      then (Bad400 "Cannot reschedule a cancelled or completed appointment", d)
      else if reschedule_pending_request a
      then (Bad400 "Reschedule request is already pending admin approval", d)
      else match cutoff_rejects e a with
           | None => (Error500, d)
           | Some true => (Bad400 "Appointments can only be rescheduled at least 2 hours in advance", d)
           | Some false =>
               let pt := match preferredTime with
                         | Some t => if String.eqb t "" then None else Some t
                         | None => None
                         end in
               let a1 := set_rescheduleRequest
                           (Some {| rr_status := ReqPending; rr_requestedBy := Some user;
                                    rr_preferredDate := preferredDate;
                                    rr_preferredTime := pt |}) a in
               save_or_500 e (set_status ReschedulePending a1) d
           end
  end.

(** [const [year, month, day] = s.split('-')] and
    [new Date(Date.UTC(parseInt(year), parseInt(month) - 1, parseInt(day), 12, 0, 0))];
    Date.UTC maps a year from 0 to 99 to 1900 + year.
    [None] when a part is [NaN] (an Invalid Date, refused by the cast of
    the following query). *)
Definition utc_noon_of (s : string) : option Z :=
  let parts := Js.split "-"%char s in
  match Js.parseInt (Js.str (nth_error parts 0)),
        Js.parseInt (Js.str (nth_error parts 1)),
        Js.parseInt (Js.str (nth_error parts 2)) with
  | Some y, Some m, Some dd =>
      let yr := if (0 <=? y) && (y <=? 99) then 1900 + y else y in
      Some (JsDate.utc yr (m - 1) dd 12 0 0)
  | _, _, _ => None
  end.

(** [isISO8601()] of express-validator (validator.js, no [strict]
    option): the pattern
<<
  /^([\+-]?\d{4}(?!\d{2}\b))((-?)((0[1-9]|1[0-2])(\3([12]\d|0[1-9]|3[01]))?
   |W([0-4]\d|5[0-3])(-?[1-7])?|(00[1-9]|0[1-9]\d|[12]\d{2}|3([0-5]\d|6[1-6])))
   ([T\s]((([01]\d|2[0-3])((:?)[0-5]\d)?|24:?00)([\.,]\d+(?!:))?)?
   (\17[0-5]\d([\.,]\d+)?)?([zZ]|([\+-])([01]\d|2[0-3]):?([0-5]\d)?)?)?)?$/
>>
    run as a backtracking matcher: a pattern maps the input to every rest
    it can leave. The time part also returns group 17, the separator
    between hours and minutes ([None] when the group did not take part,
    and the backreference then matches the empty string). *)
Module Iso8601.

Definition M := list ascii -> list (list ascii).

Definition ret : M := fun l => [l].
Definition chr (p : ascii -> bool) : M :=
  fun l => match l with c :: r => if p c then [r] else [] | [] => [] end.
Definition seq (m1 m2 : M) : M := fun l => flat_map m2 (m1 l).
Definition alt (m1 m2 : M) : M := fun l => m1 l ++ m2 l.
Definition opt (m : M) : M := alt m ret.
Definition nolook (m : M) : M := fun l => match m l with [] => [l] | _ => [] end.

Fixpoint plus (p : ascii -> bool) (l : list ascii) : list (list ascii) :=
  match l with c :: r => if p c then r :: plus p r else [] | [] => [] end.

Definition d := chr (digit_between 0 9).
Definition rng (lo hi : Z) := chr (digit_between lo hi).
Definition ch (c : ascii) := chr (fun x => is_char x c).
Definition ws (c : ascii) : bool :=
  Js.is_space c || is_char c (ascii_of_nat 11) || is_char c (ascii_of_nat 12)
  || is_char c (ascii_of_nat 13).
Definition is_word (c : ascii) : bool :=
  digit_between 0 9 c || (("A" <=? c)%char && (c <=? "Z")%char)
  || (("a" <=? c)%char && (c <=? "z")%char) || is_char c "_"%char.

(** [(?!\d{2}\b)] *)
Definition not_two_digits_then_boundary : M :=
  nolook (fun l => match l with
                   | a :: b :: r =>
                       if digit_between 0 9 a && digit_between 0 9 b
                          && match r with [] => true | c :: _ => negb (is_word c) end
                       then [l] else []
                   | _ => []
                   end).

Definition year : M :=
  seq (opt (chr (fun c => is_char c "+"%char || is_char c "-"%char)))
      (seq d (seq d (seq d (seq d not_two_digits_then_boundary)))).

Definition month : M := alt (seq (ch "0"%char) (rng 1 9)) (seq (ch "1"%char) (rng 0 2)).
Definition day : M :=
  alt (seq (rng 1 2) d) (alt (seq (ch "0"%char) (rng 1 9)) (seq (ch "3"%char) (rng 0 1))).
Definition week : M := alt (seq (rng 0 4) d) (seq (ch "5"%char) (rng 0 3)).
Definition ordinal : M :=
  alt (seq (ch "0"%char) (seq (ch "0"%char) (rng 1 9)))
  (alt (seq (ch "0"%char) (seq (rng 1 9) d))
  (alt (seq (rng 1 2) (seq d d))
       (seq (ch "3"%char) (alt (seq (rng 0 5) d) (seq (ch "6"%char) (rng 1 6)))))).

(** Group 4, with the date separator [\3] = [sep]. *)
Definition date_part (sep : M) : M :=
  alt (seq month (opt (seq sep day)))
  (alt (seq (ch "W"%char) (seq week (opt (seq (opt (ch "-"%char)) (rng 1 7)))))
       ordinal).

Definition hh : M := alt (seq (rng 0 1) d) (seq (ch "2"%char) (rng 0 3)).
Definition fraction : M :=
  seq (chr (fun c => is_char c "."%char || is_char c ","%char)) (plus (digit_between 0 9)).

(** Group 14 with the value of group 17. *)
Definition hours_minutes (l : list ascii) : list (list ascii * option bool) :=
  flat_map (fun r => (r, None)
                     :: map (fun r' => (r', Some true)) (seq (ch ":"%char) (seq (rng 0 5) d) r)
                     ++ map (fun r' => (r', Some false)) (seq (rng 0 5) d r))
           (hh l)
  ++ map (fun r => (r, None))
         (seq (ch "2"%char) (seq (ch "4"%char) (seq (opt (ch ":"%char))
            (seq (ch "0"%char) (ch "0"%char)))) l).

(** Group 13, optional. *)
Definition clock (l : list ascii) : list (list ascii * option bool) :=
  flat_map (fun '(r, g) =>
              (r, g) :: map (fun r' => (r', g))
                            (flat_map (nolook (ch ":"%char)) (fraction r)))
           (hours_minutes l)
  ++ [(l, None)].

Definition backref17 (g : option bool) : M :=
  match g with Some true => ch ":"%char | _ => ret end.

Definition zone : M :=
  opt (alt (chr (fun c => is_char c "z"%char || is_char c "Z"%char))
           (seq (chr (fun c => is_char c "+"%char || is_char c "-"%char))
                (seq hh (seq (opt (ch ":"%char)) (opt (seq (rng 0 5) d)))))).

(** Group 12. *)
Definition time_part : M :=
  fun l =>
    flat_map (fun '(r, g) =>
                flat_map zone (opt (seq (backref17 g) (seq (rng 0 5) (seq d (opt fraction)))) r))
             (flat_map clock (chr (fun c => is_char c "T"%char || ws c) l)).

Definition pattern : M :=
  seq year (opt (seq (alt (seq (ch "-"%char) (date_part (ch "-"%char))) (date_part ret))
                     (opt time_part))).

End Iso8601.

Definition iso8601_ok (s : string) : bool :=
  existsb (fun r => match r with [] => true | _ => false end)
          (Iso8601.pattern (list_ascii_of_string s)).

(** [PATCH /:id/reschedule] of [routes/appointments.js] (staff). *)
Definition reschedule (e : env) (d : db) (id : nat) (newDate newTime : string)
  : response * db :=
  if negb (iso8601_ok newDate && valid_time12 newTime) then (Bad400 "Validation failed", d) else
  match find_appointment id d with
  | None => (NotFound404, d)
  | Some a =>
      match utc_noon_of newDate with
      | None => (Error500, d)
      | Some parsedDate =>
          let dayOfWeek := JsDate.getDay (tz e) parsedDate in
          match doctor_day_enabled e (doctorName a) dayOfWeek with
          | Some false => (Bad400 "Doctor is not available on that day", d)
          | _ =>
              if found (existing_filter_reschedule (a_id a) (doctorName a) parsedDate newTime) d
              then (Bad400 "New time slot already booked", d)
              else
                let a0 := set_rescheduledFrom
                            (Some {| originalDate := appointmentDate a;
                                     originalTime := appointmentTime a |}) a in
                let a1 :=
                  match bookingSource a, patientUserId a with
                  | PatientPortal, Some _ =>
                      if status_eqb (status a) ReschedulePending then
                        let a2 := set_status Confirmed
                                    (set_slot (Some parsedDate) (Some newTime) a0) in
                        match rescheduleRequest a2 with
                        | Some r => set_rescheduleRequest (Some (rr_with_status ReqApproved r)) a2
                        | None => a2
                        end
                      else
                        set_status ReschedulePending
                          (set_slot (Some parsedDate) (Some newTime)
                             (set_rescheduleRequest
                                (Some {| rr_status := ReqPending; rr_requestedBy := None;
                                         rr_preferredDate := Some parsedDate;
                                         rr_preferredTime := Some newTime |}) a0))
                  | _, _ => set_status Confirmed (set_slot (Some parsedDate) (Some newTime) a0)
                  end in
                save_or_500 e a1 d
          end
      end
  end.

(** How a portal route names an appointment: by storage id [_id] or by
    the human-readable [appointmentId]. *)
Inductive appointment_key := ByStorageId (id : nat) | ByAppointmentId (aid : string).

Definition find_own_key (k : appointment_key) (user : nat) (d : db) : option appointment :=
  match k with
  | ByStorageId id => find (fun a => Nat.eqb (a_id a) id && owned_by user a) (appointments d)
  | ByAppointmentId aid => find_own aid user d
  end.

Definition js_truthy (o : option string) : bool :=
  match o with Some s => negb (String.eqb s "") | None => false end.

(** [POST /request-reschedule/:appointmentId] of [unnamed/part_012];
    [dateToUse] and [timeToUse] are [newDate || preferredDate] and
    [newTime || preferredTime]. No cutoff and no pending-request check. *)
Definition request_reschedule_v2 (e : env) (d : db) (k : appointment_key) (user : nat)
  (dateToUse timeToUse : option string) : response * db :=
  match find_own_key k user d with
  | None => (NotFound404, d)
  | Some a =>
      if status_eqb (status a) Cancelled || status_eqb (status a) Completed
      then (Bad400 "Cannot reschedule a cancelled or completed appointment", d)
      else
        let checked :=
          if js_truthy dateToUse && js_truthy timeToUse then
            match utc_noon_of (Js.str dateToUse) with
            | None => inl Error500
            | Some pd =>
                if found (existing_filter_reschedule (a_id a) (doctorName a) pd (Js.str timeToUse)) d
                then inl (Bad400 "The requested time slot is already booked")
                else inr (Some pd)
            end
          else inr None in
        match checked with
        | inl r => (r, d)
        | inr parsedDate =>
            let a1 := set_rescheduleRequest
                        (Some {| rr_status := ReqPending; rr_requestedBy := Some user;
                                 rr_preferredDate := parsedDate;
                                 rr_preferredTime := timeToUse |}) a in
            save_or_500 e (set_status ReschedulePending a1) d
        end
  end.

(** [POST /accept-reschedule/:appointmentId] of [unnamed/part_012]:
<<
  appointment.appointmentDate = appointment.rescheduleRequest.preferredDate;
  appointment.appointmentTime = appointment.rescheduleRequest.preferredTime;
  appointment.status = 'confirmed';
  appointment.rescheduleRequest.status = 'approved';
>> *)
Definition accept_reschedule (e : env) (d : db) (id : nat) (user : nat) : response * db :=
  match find_own_key (ByStorageId id) user d with
  | None => (NotFound404, d)
  | Some a =>
      match rescheduleRequest a with
      | Some r =>
          if request_status_eqb (rr_status r) ReqPending then
            let a1 := set_slot (rr_preferredDate r) (rr_preferredTime r) a in
            let a2 := set_rescheduleRequest (Some (rr_with_status ReqApproved r))
                        (set_status Confirmed a1) in
            save_or_500 e a2 d
          else (Bad400 "No pending reschedule request found for this appointment", d)
      | None => (Bad400 "No pending reschedule request found for this appointment", d)
      end
  end.

(** ** Portal booking *)

Inductive patient_type := SelfBooking | DependentBooking.

Definition pending_filter (user : nat) (t : Z) (b : appointment) : bool :=
  owned_by user b
  && status_in (status b) [Scheduled; Confirmed; CancellationPending; ReschedulePending]
  && match appointmentDate b with Some u => t <=? u | None => false end.

(** The [doctorSchedules] map of the booking routes: [doctorType] and
    [defaultServiceType] of each doctor. In [unnamed/part_012] its keys
    are the doctor names of the Settings document, taken to be the two
    names of the Appointment schema. *)
Definition booking_doctor_info (doc : string) : option (string * string) :=
  if String.eqb doc "Dr. Maria Sarah L. Manaloto" then Some ("ob-gyne", "PRENATAL_CHECKUP")%string
  else if String.eqb doc "Dr. Shara Laine S. Vino" then Some ("pediatric", "WELL_CHILD_CHECKUP")%string
  else None.

(** The booking's [patientName]: [patientUser.fullName] for the patient
    herself, [dependentInfo.name] for a dependent. *)
Definition booking_patient_name (pu : patient_user) (ptype : patient_type)
  (dependentName : option string) : string :=
  match ptype with
  | SelfBooking => pu_fullName pu
  | DependentBooking => Js.str dependentName
  end.

(** [new Appointment({...})] of both booking routes: [appointmentId] is
    [APT] and [countDocuments() + 1] on six digits (the count is taken
    before the patient record is created, which leaves the appointments
    as they are); [contactNumber] and [contactInfo.primaryPhone] are
    [patientUser.phoneNumber]. *)
Definition new_portal_appointment (d : db) (pid user : nat) (info : string * string)
  (doc : string) (date : Z) (time : string) (name phone : string) : appointment :=
  {| a_id := next_id d;
     appointmentId :=
       ("APT" ++ JsDate.pad0 6 (Js.number_to_string
                                  (Some (Z.of_nat (List.length (appointments d)) + 1))))%string;
     patient := Some pid; patientUserId := Some user; doctorType := fst info;
     doctorName := doc; appointmentDate := Some date; appointmentTime := Some time;
     serviceType := snd info; primaryPhone := phone; patientName := name;
     contactNumber := phone; status := Scheduled; bookingSource := PatientPortal;
     cancellationRequest := Some default_cancellationRequest;
     rescheduleRequest := Some default_rescheduleRequest; rescheduledFrom := None |}.

(** *** New Patient records *)

(** Validation of a new Patient ([models/Patient.js]): [patientId]
    required, [patientType] required in its enum, and the required name of
    the record of that type ([trim] applied). *)
Definition patient_validates (p : patient_doc) : bool :=
  filled (patientId p)
  && (String.eqb (patientType p) "pediatric" || String.eqb (patientType p) "ob-gyne")
  && filled (recordName p).

(** The unique index on [patientId]. *)
Definition patientId_free (p : patient_doc) (d : db) : bool :=
  forallb (fun q => Nat.eqb (p_id q) (p_id p) || negb (String.eqb (patientId q) (patientId p)))
          (patients d).

Definition id_prefix (t : string) : string :=
  if String.eqb t "pediatric" then "PED" else "OBG".

(** [findOne({ patientType, patientId: { $regex: `^${prefix}` } })
       .sort({ patientId: -1 })]: the greatest such [patientId], in the
    byte order of the strings. *)
Definition last_patientId (t : string) (d : db) : option string :=
  fold_left (fun acc q =>
               if String.eqb (patientType q) t && String.prefix (id_prefix t) (patientId q)
               then match acc with
                    | Some m => if String.ltb m (patientId q) then Some (patientId q) else acc
                    | None => Some (patientId q)
                    end
               else acc) (patients d) None.

(** The probing loop of the [pre('validate')] hook: at most 100
    candidates [prefix + String(nextNumber).padStart(6, '0')], the first
    that no Patient holds. *)
Fixpoint probe_patientId (fuel : nat) (t : string) (nextNumber : option Z) (d : db)
  : option string :=
  match fuel with
  | O => None
  | S f =>
      let candidateId := (id_prefix t ++ JsDate.pad0 6 (Js.number_to_string nextNumber))%string in
      if existsb (fun q => String.eqb (patientId q) candidateId) (patients d)
      then probe_patientId f t (option_map (Z.add 1) nextNumber) d
      else Some candidateId
  end.

(** The [pre('validate')] hook of [models/Patient.js] on a record with no
    [patientId]; [None] is the thrown "Failed to generate unique patient
    ID". *)
Definition generate_patientId (t : string) (d : db) : option string :=
  let nextNumber :=
    match last_patientId t d with
    | Some id =>
        option_map (fun n => n + 1)
          (Js.parseInt (String.substring 3 (String.length id - 3) id))
    | None => Some 1
    end in
  probe_patientId 100 t nextNumber d.

(** The account link [patientUser.patientRecord = patientRecord._id;
    patientUser.save()]. *)
Definition link_account (pu : patient_user) (pid : nat) : patient_user :=
  {| pu_id := pu_id pu; pu_email := pu_email pu; pu_fullName := pu_fullName pu;
     pu_phoneNumber := pu_phoneNumber pu; patientRecord := Some pid |}.

(** The Patient record both booking routes build: [patientType] is the
    doctor's type, [contactInfo.email] the account's (stored lower-case by
    registration) and the record of that type holds the booking's patient
    name and the account's phone number; [status: 'New'], [isActive]
    by default [true]. *)
Definition new_patient_record (d : db) (pu : patient_user) (t pid name : string)
  : patient_doc :=
  {| p_id := next_id d; patientId := pid; patientType := t; p_status := PNew;
     p_email := Some (pu_email pu); recordName := Js.trim name;
     recordContact := Js.trim (pu_phoneNumber pu); isActive := true;
     noShowCount := None; appointmentLocked := None |}.

(** [!dependentInfo || !dependentInfo.name || !dependentInfo.relationship]
    for a dependent booking. *)
Definition dependent_missing (ptype : patient_type) (dependentName : option string) : bool :=
  match ptype with
  | DependentBooking => negb (js_truthy dependentName)
  | SelfBooking => false
  end.

Section PortalBooking.

Variable strike_fields_declared : bool.

Definition find_patient_by_email (email : string) (d : db) : option patient_doc :=
  option_map (patient_schema_view strike_fields_declared)
    (find (fun p => match p_email p with Some m => String.eqb m email | None => false end)
          (patients d)).

(** [new Patient(patientData).save()]: validation, then the unique index;
    [None] is the thrown error. *)
Definition create_patient (p : patient_doc) (d : db) : option db :=
  if patient_validates p && patientId_free p d
  then Some (save_patient strike_fields_declared p d) else None.

(** [Patient.findOne({ 'contactInfo.email': patientUser.email })] of
    [routes/patientBooking.js], and when there is none the creation of a
    record whose [patientId] the hook generates, then the account link.
    [None] is a failed creation, answered 500 with nothing stored. *)
Definition find_or_create_patient (pu : patient_user) (t name : string) (d : db)
  : option (patient_doc * db) :=
  match find_patient_by_email (pu_email pu) d with
  | Some p => Some (p, d)
  | None =>
      match generate_patientId t d with
      | None => None
      | Some pid =>
          let p := new_patient_record d pu t pid name in
          match create_patient p (bump_id d) with
          | None => None
          | Some d1 => Some (p, put_patient_user (link_account pu (p_id p)) d1)
          end
      end
  end.

(** [POST /book-appointment] of [routes/patientBooking.js]; [date] is the
    value of [new Date(appointmentDate)] and [dependentName] is
    [dependentInfo.name] of a body whose [dependentInfo] has a
    [relationship]. The [serviceType] and [patientType] validators are
    taken to pass. *)
Definition book_appointment (e : env) (d : db) (user : nat) (doc : string) (date : Z)
  (time : string) (ptype : patient_type) (dependentName : option string) : response * db :=
  if String.eqb doc "" || String.eqb time "" then (Bad400 "Validation failed", d) else
  match find_patient_user user d with
  | None => (NotFound404, d)
  | Some pu =>
      if found (existing_filter_portal doc date time) d
      then (Bad400 "This time slot is no longer available", d)
      else if dependent_missing ptype dependentName
      then (Bad400 "Dependent information is required for dependent appointments", d)
      else
          let name := booking_patient_name pu ptype dependentName in
          match booking_doctor_info doc with
          | None => (Bad400 "Invalid doctor selected", d)
          | Some info =>
              match find_or_create_patient pu (fst info) name d with
              | None => (Error500, d)
              | Some (p, d1) =>
                  if found (pending_filter user (now e)) d1
                  then (Bad400 "You already have a pending appointment", d1)
                  else
                    let a := new_portal_appointment d1 (p_id p) user info doc date time name
                               (pu_phoneNumber pu) in
                    match save_appointment e a (bump_id d1) with
                    | Some d2 => (Created201, d2)
                    | None => (Error500, d1)
                    end
              end
          end
  end.

(** [POST /book-appointment] of [unnamed/part_012]: only a [confirmed]
    appointment blocks the slot; an existing [Inactive] patient record is
    saved back as [New] before the lock check. *)
Definition confirmed_filter (doc : string) (date : Z) (time : string) (b : appointment) : bool :=
  date_is (appointmentDate b) date && time_is (appointmentTime b) time
  && String.eqb (doctorName b) doc && status_eqb (status b) Confirmed.

(** The record creation of [unnamed/part_012]: [patientId] is
    [prefix + String(count + 1).padStart(6, '0')] with [count] the
    Patients of that type, so the hook does not run. *)
Definition counted_patientId (t : string) (d : db) : string :=
  (id_prefix t ++ JsDate.pad0 6 (Js.number_to_string
     (Some (Z.of_nat (List.length (filter (fun q => String.eqb (patientType q) t) (patients d)))
            + 1))))%string.

Definition create_linked_patient_v2 (pu : patient_user) (t name : string) (d : db)
  : option (patient_doc * db) :=
  let p := new_patient_record d pu t (counted_patientId t d) name in
  match create_patient p (bump_id d) with
  | None => None
  | Some d1 => Some (p, put_patient_user (link_account pu (p_id p)) d1)
  end.

Definition book_appointment_v2 (e : env) (d : db) (user : nat) (doc : string) (date : Z)
  (time : string) (ptype : patient_type) (dependentName : option string) : response * db :=
  if String.eqb doc "" || String.eqb time "" then (Bad400 "Validation failed", d) else
  match find_patient_user user d with
  | None => (NotFound404, d)
  | Some pu =>
      if found (confirmed_filter doc date time) d
      then (Bad400 "This time slot has already been confirmed for another patient", d)
      else if dependent_missing ptype dependentName
      then (Bad400 "Dependent information is required for dependent appointments", d)
      else
        let name := booking_patient_name pu ptype dependentName in
        match booking_doctor_info doc with
        | None => (Bad400 "Invalid doctor selected", d)
        | Some info =>
            let found_or_created :=
              match find_patient_by_email (pu_email pu) d with
              | Some p =>
                  if patient_status_eqb (p_status p) PInactive
                  then Some (set_p_status PNew p,
                             save_patient strike_fields_declared (set_p_status PNew p) d)
                  else Some (p, d)
              | None => create_linked_patient_v2 pu (fst info) name d
              end in
            match found_or_created with
            | None => (Error500, d)
            | Some (p, d1) =>
                match appointmentLocked p with
                | Some true => (Forbidden403, d1)
                | _ =>
                    let a := new_portal_appointment d1 (p_id p) user info doc date time name
                               (pu_phoneNumber pu) in
                    match save_appointment e a (bump_id d1) with
                    | Some d2 => (Created201, d2)
                    | None => (Error500, d1)
                    end
                end
            end
        end
  end.

End PortalBooking.

(** ** Staff booking *)

(** The body of [POST /] of [routes/appointments.js] that the route
    reads; [body_primaryPhone] is [contactInfo.primaryPhone]. The optional
    fields ([endTime], [estimatedWaitTime], [reasonForVisit], ...) are
    absent. *)
Record create_body := {
  body_patientId : option string;
  body_doctorType : option string;
  body_doctorName : option string;
  body_appointmentDate : option string;
  body_appointmentTime : option string;
  body_serviceType : option string;
  body_primaryPhone : option string
}.

(** The string a validator sees: [undefined] is the empty string. *)
Definition field_text (o : option string) : string :=
  match o with Some s => s | None => "" end.

Definition default_service_of (t : string) : string :=
  if String.eqb t "ob-gyne" then "PRENATAL_CHECKUP" else "WELL_CHILD_CHECKUP".

(** [POST /] of [routes/appointments.js]. [new Date(appointmentDate)] is
    read by [JsDate.parse]; a date string of another shape is taken as an
    Invalid Date, whose cast in the slot query throws. The new document
    gets no [appointmentId]. *)
Definition create_appointment (e : env) (d : db) (b : create_body) : response * db :=
  if negb (js_truthy (body_patientId b) && js_truthy (body_doctorType b)
           && js_truthy (body_doctorName b)
           && iso8601_ok (field_text (body_appointmentDate b))
           && valid_time12 (field_text (body_appointmentTime b))
           && js_truthy (body_serviceType b))
  then (Bad400 "Validation failed", d) else
  let doctorType0 := field_text (body_doctorType b) in
  let doctorName0 := field_text (body_doctorName b) in
  let appointmentTime0 := field_text (body_appointmentTime b) in
  match find (fun p => String.eqb (patientId p) (field_text (body_patientId b)) && isActive p)
             (patients d) with
  | None => (NotFound404, d)
  | Some p =>
      if (String.eqb doctorType0 "pediatric" && negb (String.eqb (patientType p) "pediatric"))
         || (String.eqb doctorType0 "ob-gyne" && negb (String.eqb (patientType p) "ob-gyne"))
      then (Bad400 "Doctor type does not match patient type", d) else
      let derivedPatientName := recordName p in
      let derivedContactNumber := recordContact p in
      let safeServiceType :=
        if js_truthy (body_serviceType b) then field_text (body_serviceType b)
        else default_service_of (patientType p) in
      let normalizedServiceType :=
        if String.eqb safeServiceType "REGULAR_CHECKUP" then default_service_of (patientType p)
        else safeServiceType in
      match JsDate.parse (tz e) (field_text (body_appointmentDate b)) with
      | None => (Error500, d)
      | Some date =>
          if found (existing_filter_create doctorName0 date appointmentTime0) d
          then (Bad400 "Time slot already booked", d) else
          let patientUserId0 :=
            match p_email p with
            | Some m =>
                if filled m
                then option_map pu_id (find (fun u => String.eqb (pu_email u) m) (patientUsers d))
                else None
            | None => None
            end in
          let a :=
            {| a_id := next_id d; appointmentId := ""; patient := Some (p_id p);
               patientUserId := patientUserId0; doctorType := doctorType0;
               doctorName := doctorName0; appointmentDate := Some date;
               appointmentTime := Some appointmentTime0; serviceType := normalizedServiceType;
               primaryPhone := if js_truthy (body_primaryPhone b)
                               then field_text (body_primaryPhone b) else derivedContactNumber;
               patientName := derivedPatientName;
               contactNumber := if filled derivedContactNumber then derivedContactNumber
                                else field_text (body_primaryPhone b);
               status := Scheduled; bookingSource := BookedByStaff;
               cancellationRequest := Some default_cancellationRequest;
               rescheduleRequest := Some default_rescheduleRequest; rescheduledFrom := None |} in
          match save_appointment e a (bump_id d) with
          | Some d' => (Created201, d')
          | None => (Error500, d)
          end
      end
  end.

(** ** Concrete stores *)

Module Fixtures.

Definition manaloto : string := "Dr. Maria Sarah L. Manaloto".

(** 2024-06-10 (a Monday) and 2024-06-12 (a Wednesday), 00:00 UTC, the
    value [new Date('2024-06-10')] stores. *)
Definition jun10 : Z := 1717977600000.
Definition jun12 : Z := 1718150400000.
Definition hour : Z := 3600000.

Definition env_at (t : Z) : env :=
  {| now := t; tz := 0; doctor_day_enabled := fun _ _ => None |}.

Definition ana_phone : string := "09171234567".

(** An Appointment of Dr. Manaloto as the schema stores it: every required
    path set, and the two request objects at their defaults. *)
Definition appt (id : nat) (aid : string) (pat user : option nat) (src : booking_source)
  (st : appt_status) (date : Z) (time : string) : appointment :=
  {| a_id := id; appointmentId := aid; patient := pat; patientUserId := user;
     doctorType := "ob-gyne"; doctorName := manaloto; appointmentDate := Some date;
     appointmentTime := Some time; serviceType := "PRENATAL_CHECKUP";
     primaryPhone := ana_phone; patientName := "Ana Cruz"; contactNumber := ana_phone;
     status := st; bookingSource := src;
     cancellationRequest := Some default_cancellationRequest;
     rescheduleRequest := Some default_rescheduleRequest; rescheduledFrom := None |}.

Definition store (l : list appointment) (ps : list patient_doc) (us : list patient_user) : db :=
  {| appointments := l; patients := ps; patientUsers := us; next_id := 100 |}.

Definition patient5 : patient_doc :=
  {| p_id := 5; patientId := "OBG000001"; patientType := "ob-gyne"; p_status := PActive;
     p_email := Some "ana@example.com"%string; recordName := "Ana Cruz";
     recordContact := ana_phone; isActive := true;
     noShowCount := None; appointmentLocked := None |}.

(** A patient registered by the staff, with no e-mail address. *)
Definition patient6 : patient_doc :=
  {| p_id := 6; patientId := "OBG000002"; patientType := "ob-gyne"; p_status := PActive;
     p_email := None; recordName := "Carla Diaz"; recordContact := "09191234567";
     isActive := true; noShowCount := None; appointmentLocked := None |}.

Definition user7 : patient_user :=
  {| pu_id := 7; pu_email := "ana@example.com"; pu_fullName := "Ana Cruz";
     pu_phoneNumber := ana_phone; patientRecord := None |}.

Definition user8 : patient_user :=
  {| pu_id := 8; pu_email := "ben@example.com"; pu_fullName := "Bea Reyes";
     pu_phoneNumber := "09181234567"; patientRecord := None |}.

(** C1: a scheduled portal appointment of account 7 at (Dr. Manaloto,
    2024-06-10, "9:00 AM"); account 8 has no appointment. *)
Definition one_at_slot : db :=
  store [appt 1 "APT000001" (Some 5%nat) (Some 7%nat) PatientPortal Scheduled jun10 "9:00 AM"]
        [patient5] [user7; user8].

(** A completed staff appointment occupying the slot. *)
Definition completed_at_slot : db :=
  store [appt 1 "APT000001" (Some 6%nat) None BookedByStaff Completed jun10 "9:00 AM"]
        [patient6] [user7].

(** Two scheduled appointments of patient 5. *)
Definition two_of_patient5 : db :=
  store [appt 1 "APT000001" (Some 5%nat) None BookedByStaff Scheduled jun10 "9:00 AM";
         appt 2 "APT000002" (Some 5%nat) None BookedByStaff Scheduled jun12 "9:00 AM"]
        [patient5] [].

(** A portal appointment of account 7. *)
Definition portal_at (st : appt_status) (date : Z) (time : string) : db :=
  store [appt 1 "APT000001" (Some 5%nat) (Some 7%nat) PatientPortal st date time] [patient5] [user7].

(** The same appointment after a cancellation request and a reschedule
    request of the patient were both reviewed and rejected. *)
Definition reviewed (a : appointment) : appointment :=
  set_cancellationRequest (Some (cr_with_status ReqRejected default_cancellationRequest))
    (set_rescheduleRequest (Some (rr_with_status ReqRejected default_rescheduleRequest)) a).

Definition portal_reviewed (st : appt_status) (date : Z) (time : string) : db :=
  store [reviewed (appt 1 "APT000001" (Some 5%nat) (Some 7%nat) PatientPortal st date time)]
        [patient5] [user7].

(** Account 7 with a future portal booking and no Patient record with its
    e-mail address. *)
Definition account_without_record : db :=
  store [appt 1 "APT000001" None (Some 7%nat) PatientPortal Scheduled jun12 "10:00 AM"] [] [user7].

(** Patient 5 with two strikes recorded (a schema with the strike paths). *)
Definition patient5_two_strikes : patient_doc := set_strikes (Some 2) (Some false) patient5.

Definition one_of_patient5_two_strikes : db :=
  store [appt 1 "APT000001" (Some 5%nat) None BookedByStaff Scheduled jun10 "9:00 AM"]
        [patient5_two_strikes] [].

(** A patient reschedule request stored with no proposed slot. *)
Definition no_slot_request : reschedule_request :=
  {| rr_status := ReqPending; rr_requestedBy := Some 7%nat;
     rr_preferredDate := None; rr_preferredTime := None |}.

Definition pending_without_slot_appt : appointment :=
  set_rescheduleRequest (Some no_slot_request)
    (appt 1 "APT000001" (Some 5%nat) (Some 7%nat) PatientPortal ReschedulePending jun12 "10:00 AM").

Definition pending_without_slot : db :=
  store [pending_without_slot_appt] [patient5] [user7].

(** Account 7 whose Patient record is [Inactive] and locked. *)
Definition locked_inactive : db :=
  store [] [set_p_status PInactive (set_strikes (Some 3) (Some true) patient5)] [user7].

End Fixtures.

(** ** The lock invariant *)

Definition locked_flag (p : patient_doc) : bool :=
  match appointmentLocked p with Some b => b | None => false end.

Definition strike_count (p : patient_doc) : Z :=
  match noShowCount p with Some n => n | None => 0 end.

(** [appointmentLocked] is set exactly when [noShowCount >= 3] (absent
    fields read as [false] and [0], as the routes read them). *)
Definition lock_matches_strikes (p : patient_doc) : bool :=
  Bool.eqb (locked_flag p) (3 <=? strike_count p).

(** Every stored patient, read through the schema, satisfies it. *)
Definition store_lock_inv (sd : bool) (d : db) : bool :=
  forallb (fun p => lock_matches_strikes (patient_schema_view sd p)) (patients d).

(** ** Time slots *)

Module Slots.

Fixpoint all_digits (l : list ascii) (acc : Z) : option Z :=
  match l with
  | [] => Some acc
  | c :: r => match Js.digit_value c with
              | Some k => all_digits r (acc * 10 + k)
              | None => None
              end
  end.

(** [Number(s)] on the strings of decimal integers: white space around an
    optional sign and a run of digits; the empty (or blank) string is [0].
    The other numeric syntaxes (fractions, exponents, [0x...],
    [Infinity]) are read as [NaN] ([None]); the ["HH:MM"] literals of the
    schedules are decimal digits. *)
Definition Number (s : string) : option Z :=
  match rev (Js.drop_spaces (rev (Js.drop_spaces (list_ascii_of_string s)))) with
  | [] => Some 0
  | c :: r =>
      if Ascii.eqb c "-"%char then
        match r with [] => None | _ => option_map Z.opp (all_digits r 0) end
      else if Ascii.eqb c "+"%char then
        match r with [] => None | _ => all_digits r 0 end
      else all_digits (c :: r) 0
  end.

(** [const [h, m] = s.split(':').map(Number); h * 60 + m]; a missing part
    is [undefined] and the sum is [NaN]. *)
Definition hm_minutes (s : string) : option Z :=
  match map Number (Js.split ":"%char s) with
  | Some h :: Some m :: _ => Some (h * 60 + m)
  | _ => None
  end.

(** The label of the slot starting [minutes] after midnight:
<<
    const hour = Math.floor(minutes / 60);
    const min = minutes % 60;
    let displayHour = hour;
    const ampm = hour >= 12 ? 'PM' : 'AM';
    if (hour > 12) displayHour = hour - 12;
    if (hour === 0) displayHour = 12;
    `${displayHour}:${min.toString().padStart(2, '0')} ${ampm}`
>> *)
Definition time_label (minutes : Z) : string :=
  let hour := minutes / 60 in
  let min := Z.rem minutes 60 in
  let ampm := if 12 <=? hour then "PM"%string else "AM"%string in
  let displayHour := if 12 <? hour then hour - 12 else hour in
  let displayHour := if hour =? 0 then 12 else displayHour in
  (Js.number_to_string (Some displayHour) ++ ":" ++ JsDate.z2 min ++ " " ++ ampm)%string.

(** [for (let minutes = startMinutes; minutes < endMinutes;
          minutes += intervalMinutes) slots.push(...)], run for at most
    [fuel] rounds. *)
Fixpoint slot_loop (fuel : nat) (minutes endMinutes interval : Z) : list string :=
  match fuel with
  | O => []
  | S f =>
      if minutes <? endMinutes
      then time_label minutes :: slot_loop f (minutes + interval) endMinutes interval
      else []
  end.

(** [generateTimeSlots] of [routes/patientBooking.js] (the same text is in
    [unnamed/part_012]). A [NaN] bound makes the loop test false at once.
    For a positive interval (the callers pass 30) the loop makes at most
    [endMinutes - startMinutes] rounds, which is the fuel given. *)
Definition generateTimeSlots (startTime endTime : string) (intervalMinutes : Z) : list string :=
  match hm_minutes startTime, hm_minutes endTime with
  | Some s, Some e => slot_loop (Z.to_nat (e - s)) s e intervalMinutes
  | _, _ => []
  end.

End Slots.

(** ** Available slots ([GET /available-slots] of [routes/patientBooking.js]) *)

Record doctor_info := {
  di_name : string;
  di_specialty : string;
  di_schedule : list (string * (string * string))
}.

(** The [doctorSchedules] object literal of the route. *)
Definition doctorSchedules (doctorId : string) : option doctor_info :=
  if String.eqb doctorId "doc_1" then
    Some {| di_name := "Dr. Maria Sarah L. Manaloto"; di_specialty := "ob-gyne";
            di_schedule := [("Monday", ("08:00", "12:00"));
                            ("Wednesday", ("09:00", "14:00"));
                            ("Friday", ("13:00", "17:00"))]%string |}
  else if String.eqb doctorId "doc_2" then
    Some {| di_name := "Dr. Shara Laine S. Vino"; di_specialty := "pediatric";
            di_schedule := [("Monday", ("13:00", "17:00"));
                            ("Tuesday", ("13:00", "17:00"));
                            ("Thursday", ("08:00", "12:00"))]%string |}
  else None.

(** Keys that an object literal inherits from [Object.prototype]:
    [doctorSchedules[k]] is then a function (or the prototype), truthy,
    and [doctor.schedule[dayOfWeek]] throws a [TypeError]. *)
Definition object_prototype_keys : list string :=
  ["constructor"; "__proto__"; "__defineGetter__"; "__defineSetter__";
   "__lookupGetter__"; "__lookupSetter__"; "hasOwnProperty"; "isPrototypeOf";
   "propertyIsEnumerable"; "toString"; "toLocaleString"; "valueOf"]%string.

Definition dayNames : list string :=
  ["Sunday"; "Monday"; "Tuesday"; "Wednesday"; "Thursday"; "Friday"; "Saturday"]%string.

Fixpoint assoc {B} (k : string) (l : list (string * B)) : option B :=
  match l with
  | [] => None
  | (k', v) :: r => if String.eqb k k' then Some v else assoc k r
  end.

Definition digits_at (l : list ascii) : option Z :=
  fold_left (fun acc c => match acc, Js.digit_value c with
                          | Some a, Some k => Some (a * 10 + k)
                          | _, _ => None
                          end) l (Some 0).

(** [new Date(s).getTime()] on the UTC date-time form
    [YYYY-MM-DDTHH:mm:ss.sssZ]; [None] ([NaN]) for any other string. *)
Definition parse_iso_utc (s : string) : option Z :=
  match list_ascii_of_string s with
  | [y1; y2; y3; y4; dash1; m1; m2; dash2; d1; d2; t; h1; h2; c1; n1; n2; c2; s1; s2;
     dot; f1; f2; f3; zz] =>
      if is_char dash1 "-"%char && is_char dash2 "-"%char && is_char t "T"%char
         && is_char c1 ":"%char && is_char c2 ":"%char && is_char dot "."%char
         && is_char zz "Z"%char then
        match JsDate.num4 y1 y2 y3 y4, JsDate.num2 m1 m2, JsDate.num2 d1 d2,
              JsDate.num2 h1 h2, JsDate.num2 n1 n2, JsDate.num2 s1 s2, digits_at [f1; f2; f3] with
        | Some y, Some mo, Some d, Some h, Some mn, Some sc, Some ms =>
            if JsDate.date_fields_ok mo d && JsDate.time_fields_ok h mn sc
            then Some (JsDate.utc y (mo - 1) d h mn sc + ms) else None
        | _, _, _, _, _, _, _ => None
        end
      else None
  | _ => None
  end.

(** [{ appointmentDate: { $gte: lo, $lt: hi }, doctorName, status: { $nin: ['cancelled'] } }] *)
Definition day_filter (lo hi : Z) (doc : string) (b : appointment) : bool :=
  match appointmentDate b with Some u => (lo <=? u) && (u <? hi) | None => false end
  && String.eqb (doctorName b) doc && negb (status_eqb (status b) Cancelled).

Inductive slots_response :=
| SlotsBad400 (message : string)
| SlotsOff (day : option string)      (** 200 with [availableSlots: []] *)
| SlotsOk (slots : list string)       (** 200 with [slots] *)
| Slots500.

Definition available_slots (e : env) (d : db) (date doctorId : option string) : slots_response :=
  match date, doctorId with
  | Some ds, Some di =>
      if String.eqb ds "" || String.eqb di "" then SlotsBad400 "Date and doctor ID are required"
      else if existsb (String.eqb di) object_prototype_keys then Slots500
      else match doctorSchedules di with
      | None => SlotsBad400 "Doctor not found"
      | Some doctor =>
          let dayOfWeek :=
            match JsDate.parse (tz e) (ds ++ "T12:00:00")%string with
            | Some t => nth_error dayNames (Z.to_nat (JsDate.getDay (tz e) t))
            | None => None
            end in
          match match dayOfWeek with
                | Some n => assoc n (di_schedule doctor)
                | None => None
                end with
          | None => SlotsOff dayOfWeek
          | Some (start, end_) =>
              let timeSlots := Slots.generateTimeSlots start end_ 30 in
              match parse_iso_utc (ds ++ "T00:00:00.000Z")%string,
                    parse_iso_utc (ds ++ "T23:59:59.999Z")%string with
              | Some lo, Some hi =>
                  let bookedTimes :=
                    map appointmentTime (filter (day_filter lo hi (di_name doctor)) (appointments d)) in
                  SlotsOk (filter (fun slot => negb (existsb (fun o => time_is o slot) bookedTimes))
                                  timeSlots)
              | _, _ => Slots500
              end
          end
      end
  | _, _ => SlotsBad400 "Date and doctor ID are required"
  end.

(** ** Further staff and patient reviews *)

(** [PATCH /:id/approve-cancellation] of [routes/appointments.js]. *)
Definition approve_cancellation (e : env) (d : db) (id : nat) : response * db :=
  match find_appointment id d with
  | None => (NotFound404, d)
  | Some a =>
      if negb (status_eqb (status a) CancellationPending)
      then (Bad400 "Appointment is not pending cancellation approval", d)
      else match cancellationRequest a with
           | Some c =>
               match cr_requestedBy c with
               | Some _ =>
                   save_or_500 e (set_cancellationRequest (Some (cr_with_status ReqApproved c))
                                    (set_status Cancelled a)) d
               | None => (Bad400 "This is not a patient-initiated cancellation request", d)
               end
           | None => (Bad400 "This is not a patient-initiated cancellation request", d)
           end
  end.

(** [POST /cancel-reschedule/:appointmentId] of [unnamed/part_012]:
    [_id: appointmentId, patientUserId: req.patient.id]. *)
Definition cancel_reschedule (e : env) (d : db) (id : nat) (user : nat) : response * db :=
  match find_own_key (ByStorageId id) user d with
  | None => (NotFound404, d)
  | Some a =>
      match rescheduleRequest a with
      | Some r =>
          if request_status_eqb (rr_status r) ReqPending then
            let a1 := set_rescheduleRequest (Some (rr_with_status ReqRejected r)) a in
            let a2 := match rescheduledFrom a1 with
                      | Some f => set_slot (originalDate f) (originalTime f) a1
                      | None => a1
                      end in
            save_or_500 e (set_status Scheduled a2) d
          else (Bad400 "No pending reschedule request found for this appointment", d)
      | None => (Bad400 "No pending reschedule request found for this appointment", d)
      end
  end.

(** ** Inputs of the further examples *)

Module SlotFixtures.

Definition doc1_info : doctor_info :=
  {| di_name := "Dr. Maria Sarah L. Manaloto"; di_specialty := "ob-gyne";
     di_schedule := [("Monday", ("08:00", "12:00"));
                     ("Wednesday", ("09:00", "14:00"));
                     ("Friday", ("13:00", "17:00"))]%string |}.

(** A server four hours west of UTC. *)
Definition env_west (t : Z) : env :=
  {| now := t; tz := -14400000; doctor_day_enabled := fun _ _ => None |}.

(** A server eight hours east of UTC. *)
Definition env_east (t : Z) : env :=
  {| now := t; tz := 28800000; doctor_day_enabled := fun _ _ => None |}.

End SlotFixtures.

(** Request sequences on the portal, each step run on the store the
    previous one left, as long as it answered 200 or 201. *)
Module Flows.

Import Fixtures.

Definition and_then (r : response * db) (f : db -> response * db) : response * db :=
  match fst r with
  | Ok200 | Created201 => f (snd r)
  | _ => r
  end.

(** Patient 5 with the portal account 7 of the same e-mail address, and
    account 8 of another one. *)
Definition fresh_account : db := store [] [patient5] [user7; user8].

Definition book_at (user : nat) (time : string) (d : db) : response * db :=
  book_appointment repo_patient_schema (env_at 0) d user manaloto jun10 time SelfBooking None.

(** Account 7 books Dr. Manaloto on 2024-06-10: appointment 100,
    ["APT000001"]. *)
Definition booked_at (time : string) : response * db := book_at 7 time fresh_account.

(** The booked appointment after a reschedule request of the patient that
    the staff answered by confirming, and a cancellation request that the
    staff rejected: both request objects are no longer pending. *)
Definition reviewed_at (time : string) : response * db :=
  and_then (booked_at time) (fun d =>
  and_then (request_reschedule_v2 (env_at 0) d (ByAppointmentId "APT000001") 7 None None)
    (fun d =>
  and_then (update_status repo_patient_schema (env_at 0) d 100 Confirmed) (fun d =>
  and_then (request_cancellation_v2 (env_at 0) d "APT000001" 7 (Some "sick"%string))
    (fun d =>
  reject_cancellation (env_at 0) d 100)))).

(** The booked appointment, then a cancellation request the staff reject. *)
Definition cancel_rejected : response * db :=
  and_then (booked_at "10:00 AM") (fun d =>
  and_then (request_cancellation_v2 (env_at 0) d "APT000001" 7 (Some "sick"%string))
    (fun d =>
  reject_cancellation (env_at 0) d 100)).




End Flows.

(** * Properties *)

(** ** The helpers on small inputs *)

Example convertTo24Hour_ex1 : convertTo24Hour "10:30 AM" = "10:30:00"%string.
Proof. reflexivity. Qed.
Example convertTo24Hour_ex2 : convertTo24Hour "12:30 PM" = "12:30:00"%string.
Proof. reflexivity. Qed.
Example convertTo24Hour_ex3 : convertTo24Hour "9:00 AM" = "9:00:00"%string.
Proof. reflexivity. Qed.
Example convertTo24Hour_ex4 : convertTo24Hour "3:00 PM" = "15:00:00"%string.
Proof. reflexivity. Qed.
Example valid_time12_ex : valid_time12 "9:00 AM" = true /\ valid_time12 "09:00 am" = true
  /\ valid_time12 "13:00 PM" = false.
Proof. repeat split; reflexivity. Qed.
Example iso_date_part_ex : JsDate.iso_date_part 1718020800000 = "2024-06-10"%string.
Proof. reflexivity. Qed.
Example parse_ex1 : JsDate.parse 0 "2024-06-10" = Some 1717977600000.
Proof. reflexivity. Qed.
Example parse_ex2 : JsDate.parse 0 "2024-06-10T09:00:00" = Some 1718010000000.
Proof. reflexivity. Qed.
Example parse_ex3 : JsDate.parse 0 "2024-06-10T9:00:00" = None.
Proof. reflexivity. Qed.
Example getDay_ex : JsDate.getDay 0 1717977600000 = 1.
Proof. reflexivity. Qed.

(** ** C1: confirming a second appointment at a confirmed slot *)

Import Fixtures.

(** The confirm branch of [PATCH /:id/status] answers 404, 200 or 500;
    it has no conflict answer. *)
Lemma update_status_confirm_no_conflict_answer :
  forall sd e d id m, fst (update_status sd e d id Confirmed) <> Bad400 m.
Proof.
  intros sd e d id m. unfold update_status. simpl.
  destruct (find_appointment id d) as [a|]; [|discriminate].
  destruct (match patient a with
            | Some pid => _ | None => d end);
  destruct (status_eqb (status a) ReschedulePending);
  try destruct (rescheduleRequest _);
  destruct (status a); simpl;
  unfold save_appointment; destruct (_ && _ && _); discriminate.
Qed.

(** C1 (code_bug). The confirm branch never answers a conflict error.
    A reachable instance: appointment 1 is a [scheduled] portal booking at
    (Dr. Manaloto, 2024-06-10, "9:00 AM"); user 8 books the same slot
    through the booking route of [unnamed/part_012], which blocks only on a
    [confirmed] appointment (201, appointment 101). Staff then confirm
    appointment 1 (200) and appointment 101 (200): both end [confirmed] at the
    same slot. *)
Theorem confirm_second_at_confirmed_slot_succeeds :
  (forall sd e d id m, fst (update_status sd e d id Confirmed) <> Bad400 m) /\
  (let '(r0, d1) := book_appointment_v2 repo_patient_schema (env_at 0) one_at_slot 8
                     manaloto jun10 "9:00 AM" SelfBooking None in
  let '(r1, d2) := update_status repo_patient_schema (env_at 0) d1 1 Confirmed in
  let '(r2, d3) := update_status repo_patient_schema (env_at 0) d2 101 Confirmed in
  r0 = Created201 /\ r1 = Ok200 /\ r2 = Ok200 /\
  map (fun a => (a_id a, doctorName a, appointmentDate a, appointmentTime a, status a))
      (appointments d3)
  = [(1%nat, manaloto, Some jun10, Some "9:00 AM"%string, Confirmed);
     (101%nat, manaloto, Some jun10, Some "9:00 AM"%string, Confirmed)]).
Proof.
  split; [exact update_status_confirm_no_conflict_answer|].
  vm_compute. repeat split.
Qed.

(** ** C2: the slot checks *)

Lemma status_eqb_spec : forall x y, status_eqb x y = true <-> x = y.
Proof. intros [] []; simpl; split; congruence. Qed.

Lemma status_in_spec : forall s l, status_in s l = true <-> In s l.
Proof.
  intros s l. unfold status_in. rewrite existsb_exists. split.
  - intros [x [Hx He]]. apply status_eqb_spec in He. subst. exact Hx.
  - intros H. exists s. split; [exact H | apply status_eqb_spec; reflexivity].
Qed.

Lemma found_spec : forall f d,
  found f d = true <-> exists b, In b (appointments d) /\ f b = true.
Proof.
  intros f d. unfold found. split.
  - destruct (find f (appointments d)) as [b|] eqn:E; [|discriminate].
    intros _. exists b. apply find_some. exact E.
  - intros [b [Hin Hb]].
    destruct (find f (appointments d)) as [c|] eqn:E; [reflexivity|].
    pose proof (find_none f (appointments d) E b Hin) as Hn. congruence.
Qed.

Lemma date_is_spec : forall o t, date_is o t = true <-> o = Some t.
Proof.
  intros [u|] t; simpl; [rewrite Z.eqb_eq; split; congruence | split; discriminate].
Qed.

Lemma time_is_spec : forall o t, time_is o t = true <-> o = Some t.
Proof.
  intros [u|] t; simpl; [rewrite String.eqb_eq; split; congruence | split; discriminate].
Qed.

Ltac bool_to_prop :=
  repeat match goal with
  | H : (_ && _)%bool = true |- _ => apply andb_true_iff in H; destruct H
  | H : negb _ = true |- _ => apply negb_true_iff in H
  | H : String.eqb _ _ = true |- _ => apply String.eqb_eq in H
  | H : date_is _ _ = true |- _ => apply date_is_spec in H
  | H : time_is _ _ = true |- _ => apply time_is_spec in H
  | H : status_in _ _ = true |- _ => apply status_in_spec in H
  | H : Nat.eqb _ _ = false |- _ => apply Nat.eqb_neq in H
  end.

Lemma status_eqb_false : forall x y, status_eqb x y = false <-> x <> y.
Proof. intros x y. rewrite <- status_eqb_spec. destruct (status_eqb x y); intuition congruence. Qed.


(** ** C3: the strike counter *)

Lemma find_put_patient : forall p d,
  find (fun q => Nat.eqb (p_id q) (p_id p)) (patients (put_patient p d)) = Some p.
Proof.
  intros p d. unfold put_patient.
  destruct (existsb (fun q => Nat.eqb (p_id q) (p_id p)) (patients d)) eqn:E; simpl.
  - induction (patients d) as [|q l IH]; simpl in *; [discriminate|].
    destruct (Nat.eqb (p_id q) (p_id p)) eqn:Eq; simpl.
    + rewrite Nat.eqb_refl. reflexivity.
    + rewrite Eq. apply IH. exact E.
  - induction (patients d) as [|q l IH]; simpl in *.
    + rewrite Nat.eqb_refl. reflexivity.
    + apply orb_false_iff in E as [E1 E2]. rewrite E1. apply IH. exact E2.
Qed.

Lemma save_appointment_patients : forall e a d d',
  save_appointment e a d = Some d' -> patients d' = patients d.
Proof.
  intros e a d d'. unfold save_appointment, put_appointment.
  destruct (_ && _); [|discriminate].
  destruct (existsb _ _); intros H; inversion H; reflexivity.
Qed.

(** With a schema that declares the strike fields, a staff no-show request
    on an appointment not yet [no-show] stores the patient's count plus
    one. *)
Lemma no_show_increments_when_declared : forall e d id a pid p d',
  find_appointment id d = Some a -> patient a = Some pid -> status a <> NoShow ->
  find_patient true pid d = Some p ->
  update_status true e d id NoShow = (Ok200, d') ->
  find_patient true pid d' =
    Some (record_no_show p) /\
  noShowCount (record_no_show p) = Some (match noShowCount p with Some n => n | None => 0 end + 1).
Proof.
  intros e d id a pid p d' Hf Hp Hs Hpat Hu.
  split; [|reflexivity].
  unfold update_status in Hu. rewrite Hf in Hu. simpl in Hu.
  assert (Hb : status_eqb (status a) NoShow = false) by (apply status_eqb_false; exact Hs).
  rewrite Hb, Hp, Hpat in Hu. simpl in Hu.
  destruct (save_appointment e (set_status NoShow a)
              (save_patient true (record_no_show p) d)) as [d3|] eqn:Es;
    [|discriminate].
  inversion Hu; subst d3.
  unfold find_patient. rewrite (save_appointment_patients _ _ _ _ Es).
  unfold find_patient in Hpat.
  destruct (find (fun q => Nat.eqb (p_id q) pid) (patients d)) as [q|] eqn:Eq;
    [|discriminate].
  apply find_some in Eq as [_ Eid]. apply Nat.eqb_eq in Eid.
  simpl in Hpat. inversion Hpat; subst p.
  subst pid. unfold save_patient. simpl.
  pose proof (find_put_patient (record_no_show q) d) as H. simpl in H.
  rewrite H. reflexivity.
Qed.

(** A no-show request on an appointment already [no-show] leaves the
    patients untouched. *)
Lemma repeated_no_show_keeps_patients : forall sd e d id a d' r,
  find_appointment id d = Some a -> status a = NoShow ->
  update_status sd e d id NoShow = (r, d') -> patients d' = patients d.
Proof.
  intros sd e d id a d' r Hf Hs Hu.
  unfold update_status in Hu. rewrite Hf in Hu. simpl in Hu. rewrite Hs in Hu. simpl in Hu.
  destruct (save_appointment e (set_status NoShow a) d) as [d3|] eqn:Es;
    inversion Hu; subst; [eapply save_appointment_patients; exact Es | reflexivity].
Qed.

(** C3 (code_bug). Patient 5 has two [scheduled] appointments; staff mark
    both [no-show], two transitions into [no-show]. With the Patient
    schema of [models/Patient.js], which declares no [noShowCount] path,
    the stored count is still absent afterwards (the routes read it as 0),
    not the initial value plus 2. *)
Theorem two_no_shows_leave_count_unset :
  let d1 := snd (update_status repo_patient_schema (env_at 0) two_of_patient5 1 NoShow) in
  let d2 := snd (update_status repo_patient_schema (env_at 0) d1 2 NoShow) in
  map status (appointments two_of_patient5) = [Scheduled; Scheduled] /\
  map status (appointments d2) = [NoShow; NoShow] /\
  map noShowCount (patients two_of_patient5) = [None] /\
  map noShowCount (patients d2) = [None].
Proof. vm_compute. repeat split. Qed.

(** ** C4: the lock follows the strike count *)

Lemma view_keeps_lock_inv : forall sd p,
  lock_matches_strikes p = true -> lock_matches_strikes (patient_schema_view sd p) = true.
Proof. intros [] p H; simpl; [exact H | reflexivity]. Qed.

Lemma view_idem : forall sd p,
  patient_schema_view sd (patient_schema_view sd p) = patient_schema_view sd p.
Proof. intros [] p; reflexivity. Qed.

Lemma record_no_show_keeps_lock_inv : forall p,
  lock_matches_strikes p = true -> lock_matches_strikes (record_no_show p) = true.
Proof.
  intros p. unfold lock_matches_strikes, record_no_show, locked_flag, strike_count. simpl.
  destruct (noShowCount p) as [n|]; destruct (appointmentLocked p) as [[]|];
  intros H; apply Bool.eqb_prop in H; simpl in H;
  match goal with
  | |- context [3 <=? ?c] => destruct (3 <=? c) eqn:E
  end; simpl; try reflexivity;
  try (symmetry in H; apply Z.leb_le in H; apply Z.leb_gt in E; lia);
  try (apply Z.leb_gt in E; discriminate).
Qed.

Lemma put_patient_keeps_lock_inv : forall sd p d,
  store_lock_inv sd d = true -> lock_matches_strikes (patient_schema_view sd p) = true ->
  store_lock_inv sd (put_patient p d) = true.
Proof.
  intros sd p d Hd Hp. unfold store_lock_inv, put_patient in *.
  destruct (existsb _ _); simpl.
  - rewrite forallb_forall in *. intros x Hx. apply in_map_iff in Hx as [y [<- Hy]].
    destruct (Nat.eqb (p_id y) (p_id p)); [exact Hp | apply Hd; exact Hy].
  - rewrite forallb_app. rewrite Hd. simpl. rewrite Hp. reflexivity.
Qed.

Lemma save_patient_keeps_lock_inv : forall sd p d,
  store_lock_inv sd d = true -> lock_matches_strikes p = true ->
  store_lock_inv sd (save_patient sd p d) = true.
Proof.
  intros sd p d Hd Hp. unfold save_patient. apply put_patient_keeps_lock_inv; [exact Hd|].
  rewrite view_idem. apply view_keeps_lock_inv. exact Hp.
Qed.

Lemma find_patient_lock_inv : forall sd pid d p,
  store_lock_inv sd d = true -> find_patient sd pid d = Some p -> lock_matches_strikes p = true.
Proof.
  intros sd pid d p Hd Hf. unfold find_patient in Hf.
  destruct (find _ (patients d)) as [q|] eqn:E; [|discriminate].
  simpl in Hf. inversion Hf; subst p. apply find_some in E as [Hin _].
  unfold store_lock_inv in Hd. rewrite forallb_forall in Hd. apply Hd. exact Hin.
Qed.

Lemma save_appointment_keeps_lock_inv : forall sd e a d d',
  store_lock_inv sd d = true -> save_appointment e a d = Some d' -> store_lock_inv sd d' = true.
Proof.
  intros sd e a d d' Hd Hs. unfold store_lock_inv.
  rewrite (save_appointment_patients _ _ _ _ Hs). exact Hd.
Qed.

Lemma set_p_status_lock_inv : forall s p,
  lock_matches_strikes p = true -> lock_matches_strikes (set_p_status s p) = true.
Proof. intros s p H. exact H. Qed.

Lemma put_patient_user_lock_inv : forall sd u d,
  store_lock_inv sd d = true -> store_lock_inv sd (put_patient_user u d) = true.
Proof. intros sd u d H. unfold put_patient_user. destruct (existsb _ _); exact H. Qed.

Lemma bump_id_lock_inv : forall sd d,
  store_lock_inv sd d = true -> store_lock_inv sd (bump_id d) = true.
Proof. intros sd d H. exact H. Qed.

Ltac lock_inv_step :=
  match goal with
  | H : save_appointment _ _ _ = Some _ |- _ =>
      eapply save_appointment_keeps_lock_inv; [|exact H]; clear H
  | |- store_lock_inv _ (save_patient _ _ _) = true =>
      apply save_patient_keeps_lock_inv
  | |- store_lock_inv _ (put_patient_user _ _) = true => apply put_patient_user_lock_inv
  | |- store_lock_inv _ (bump_id _) = true => apply bump_id_lock_inv
  | |- lock_matches_strikes (record_no_show _) = true => apply record_no_show_keeps_lock_inv
  | |- lock_matches_strikes (set_p_status _ _) = true => apply set_p_status_lock_inv
  | H : find_patient _ _ _ = Some ?p |- lock_matches_strikes ?p = true =>
      eapply find_patient_lock_inv; [|exact H]
  end.

Lemma activate_keeps_lock_inv : forall sd a d,
  store_lock_inv sd d = true ->
  store_lock_inv sd
    (match patient a with
     | Some pid =>
         match find_patient sd pid d with
         | Some p => if patient_status_eqb (p_status p) PNew
                     then save_patient sd (set_p_status PActive p) d else d
         | None => d
         end
     | None => d
     end) = true.
Proof.
  intros sd a d Hd. destruct (patient a) as [pid|]; [|exact Hd].
  destruct (find_patient sd pid d) as [p|] eqn:Hp; [|exact Hd].
  destruct (patient_status_eqb _ _); [|exact Hd].
  apply save_patient_keeps_lock_inv; [exact Hd|].
  apply set_p_status_lock_inv. eapply find_patient_lock_inv; [exact Hd|exact Hp].
Qed.

Lemma update_status_keeps_lock_inv : forall sd e d id s,
  store_lock_inv sd d = true -> store_lock_inv sd (snd (update_status sd e d id s)) = true.
Proof.
  intros sd e d id s Hd. unfold update_status.
  destruct (negb (status_update_target_ok s)); [exact Hd|].
  destruct (find_appointment id d) as [a|]; [|exact Hd].
  match goal with
  | |- context [let '(_, _) := ?pr in _] => destruct pr as [a1 d1] eqn:E1
  end.
  assert (H1 : store_lock_inv sd d1 = true).
  { destruct (status_eqb s Confirmed); [|destruct (status_eqb s Cancelled)];
    inversion E1; subst d1; [apply activate_keeps_lock_inv|..]; exact Hd. }
  assert (H2 : store_lock_inv sd
    (if status_eqb s NoShow && negb (status_eqb (status a) NoShow) then
       match patient a with
       | Some pid =>
           match find_patient sd pid d1 with
           | Some p => save_patient sd (record_no_show p) d1
           | None => d1
           end
       | None => d1
       end
     else d1) = true).
  { destruct (_ && _); [|exact H1].
    destruct (patient a) as [pid|]; [|exact H1].
    destruct (find_patient sd pid d1) as [p|] eqn:Hp; [|exact H1].
    apply save_patient_keeps_lock_inv; [exact H1|].
    apply record_no_show_keeps_lock_inv. eapply find_patient_lock_inv; [exact H1|exact Hp]. }
  destruct (save_appointment _ _ _) as [d3|] eqn:Es; simpl; [|exact H2].
  eapply save_appointment_keeps_lock_inv; [exact H2|exact Es].
Qed.

Lemma unlock_keeps_lock_inv : forall sd d pid,
  store_lock_inv sd d = true -> store_lock_inv sd (snd (unlock_appointments sd d pid)) = true.
Proof.
  intros sd d pid Hd. unfold unlock_appointments.
  destruct (find_patient sd pid d) as [p|]; simpl; [|exact Hd].
  apply save_patient_keeps_lock_inv; [exact Hd | reflexivity].
Qed.

Lemma find_patient_by_email_lock_inv : forall sd m d p,
  store_lock_inv sd d = true -> find_patient_by_email sd m d = Some p ->
  lock_matches_strikes p = true.
Proof.
  intros sd m d p Hd Hf. unfold find_patient_by_email in Hf.
  destruct (find _ (patients d)) as [q|] eqn:E; [|discriminate].
  simpl in Hf. inversion Hf; subst p. apply find_some in E as [Hin _].
  unfold store_lock_inv in Hd. rewrite forallb_forall in Hd. apply Hd. exact Hin.
Qed.

Lemma create_patient_keeps_lock_inv : forall sd p d d1,
  store_lock_inv sd d = true -> lock_matches_strikes p = true ->
  create_patient sd p d = Some d1 -> store_lock_inv sd d1 = true.
Proof.
  intros sd p d d1 Hd Hp Hc. unfold create_patient in Hc.
  destruct (_ && _); [|discriminate]. inversion Hc; subst d1.
  apply save_patient_keeps_lock_inv; assumption.
Qed.

Lemma find_or_create_keeps_lock_inv : forall sd pu t name d p d1,
  store_lock_inv sd d = true -> find_or_create_patient sd pu t name d = Some (p, d1) ->
  store_lock_inv sd d1 = true /\ lock_matches_strikes p = true.
Proof.
  intros sd pu t name d p d1 Hd Hf. unfold find_or_create_patient in Hf.
  destruct (find_patient_by_email sd (pu_email pu) d) as [q|] eqn:Hq.
  - inversion Hf; subst. split; [exact Hd|].
    eapply find_patient_by_email_lock_inv; [exact Hd|exact Hq].
  - destruct (generate_patientId t d) as [pid|]; [|discriminate].
    destruct (create_patient sd _ (bump_id d)) as [d2|] eqn:Hc; [|discriminate].
    inversion Hf; subst. split; [|reflexivity].
    apply put_patient_user_lock_inv.
    eapply create_patient_keeps_lock_inv; [apply bump_id_lock_inv; exact Hd| |exact Hc].
    reflexivity.
Qed.

Lemma create_linked_patient_v2_keeps_lock_inv : forall sd pu t name d p d1,
  store_lock_inv sd d = true -> create_linked_patient_v2 sd pu t name d = Some (p, d1) ->
  store_lock_inv sd d1 = true /\ lock_matches_strikes p = true.
Proof.
  intros sd pu t name d p d1 Hd Hf. unfold create_linked_patient_v2 in Hf.
  destruct (create_patient sd _ (bump_id d)) as [d2|] eqn:Hc; [|discriminate].
  inversion Hf; subst. split; [|reflexivity].
  apply put_patient_user_lock_inv.
  eapply create_patient_keeps_lock_inv; [apply bump_id_lock_inv; exact Hd| |exact Hc].
  reflexivity.
Qed.

Lemma book_appointment_keeps_lock_inv : forall sd e d user doc date time pt dn,
  store_lock_inv sd d = true ->
  store_lock_inv sd (snd (book_appointment sd e d user doc date time pt dn)) = true.
Proof.
  intros sd e d user doc date time pt dn Hd. unfold book_appointment.
  destruct (_ || _); [exact Hd|].
  destruct (find_patient_user user d) as [pu|]; [|exact Hd].
  destruct (found _ d); [exact Hd|].
  destruct (dependent_missing pt dn); [exact Hd|].
  destruct (booking_doctor_info doc) as [info|]; [|exact Hd].
  destruct (find_or_create_patient sd pu _ _ d) as [[p d1]|] eqn:Hf; [|exact Hd].
  destruct (find_or_create_keeps_lock_inv _ _ _ _ _ _ _ Hd Hf) as [H1 _].
  destruct (found _ d1); [exact H1|].
  destruct (save_appointment _ _ _) as [d2|] eqn:Es; simpl; [|exact H1].
  eapply save_appointment_keeps_lock_inv; [apply bump_id_lock_inv; exact H1|exact Es].
Qed.

Lemma v2_found_or_created_keeps_lock_inv : forall sd pu t name d p d1,
  store_lock_inv sd d = true ->
  match find_patient_by_email sd (pu_email pu) d with
  | Some p =>
      if patient_status_eqb (p_status p) PInactive
      then Some (set_p_status PNew p, save_patient sd (set_p_status PNew p) d)
      else Some (p, d)
  | None => create_linked_patient_v2 sd pu t name d
  end = Some (p, d1) ->
  store_lock_inv sd d1 = true /\ lock_matches_strikes p = true.
Proof.
  intros sd pu t name d p d1 Hd Hf.
  destruct (find_patient_by_email sd (pu_email pu) d) as [q|] eqn:Hq.
  - pose proof (find_patient_by_email_lock_inv _ _ _ _ Hd Hq) as Hl.
    destruct (patient_status_eqb _ _); inversion Hf; subst; split; try exact Hd; try exact Hl.
    apply save_patient_keeps_lock_inv; [exact Hd|exact Hl].
  - eapply create_linked_patient_v2_keeps_lock_inv; [exact Hd|exact Hf].
Qed.

Lemma book_appointment_v2_keeps_lock_inv : forall sd e d user doc date time pt dn,
  store_lock_inv sd d = true ->
  store_lock_inv sd (snd (book_appointment_v2 sd e d user doc date time pt dn)) = true.
Proof.
  intros sd e d user doc date time pt dn Hd. unfold book_appointment_v2. cbv zeta.
  destruct (_ || _); [exact Hd|].
  destruct (find_patient_user user d) as [pu|]; [|exact Hd].
  destruct (found _ d); [exact Hd|].
  destruct (dependent_missing pt dn); [exact Hd|].
  destruct (booking_doctor_info doc) as [info|]; [|exact Hd].
  match goal with
  | |- context [match ?m with Some _ => _ | None => _ end] =>
      destruct m as [[p d1]|] eqn:Hf; [|exact Hd]
  end.
  destruct (v2_found_or_created_keeps_lock_inv _ _ _ _ _ _ _ Hd Hf) as [H1 _].
  destruct (appointmentLocked p) as [[]|]; try exact H1;
  destruct (save_appointment _ _ _) as [d2|] eqn:Es; simpl; try exact H1;
  (eapply save_appointment_keeps_lock_inv; [apply bump_id_lock_inv; exact H1|exact Es]).
Qed.

(** C4: [appointmentLocked] is set exactly when [noShowCount >= 3] on every
    stored patient (absent fields read as [false] and [0]); the staff status
    update, the unlock and both portal bookings preserve this; the strike
    counter locks whenever it reaches 3; the unlock saves [noShowCount = 0]
    and [appointmentLocked = false] in one write. *)
Theorem lock_iff_three_strikes : forall sd e d,
  store_lock_inv sd d = true ->
  (forall id s, store_lock_inv sd (snd (update_status sd e d id s)) = true) /\
  (forall pid, store_lock_inv sd (snd (unlock_appointments sd d pid)) = true) /\
  (forall user doc date time pt dn,
     store_lock_inv sd (snd (book_appointment sd e d user doc date time pt dn)) = true /\
     store_lock_inv sd (snd (book_appointment_v2 sd e d user doc date time pt dn)) = true) /\
  (forall p, 3 <= strike_count (record_no_show p) ->
     appointmentLocked (record_no_show p) = Some true) /\
  (forall pid p, find_patient sd pid d = Some p ->
     snd (unlock_appointments sd d pid) = save_patient sd (set_strikes (Some 0) (Some false) p) d).
Proof.
  intros sd e d Hd. split; [|split; [|split; [|split]]].
  - intros id s. apply update_status_keeps_lock_inv; exact Hd.
  - intros pid. apply unlock_keeps_lock_inv; exact Hd.
  - intros. split; [apply book_appointment_keeps_lock_inv | apply book_appointment_v2_keeps_lock_inv];
      exact Hd.
  - intros p. unfold record_no_show, strike_count. simpl.
    destruct (3 <=? _) eqn:E; [reflexivity|]. apply Z.leb_gt in E. lia.
  - intros pid p Hp. unfold unlock_appointments. rewrite Hp. reflexivity.
Qed.

Lemma lock_iff_three_strikes_witness :
  store_lock_inv true one_of_patient5_two_strikes = true /\
  store_lock_inv true
    (snd (update_status true (env_at jun10) one_of_patient5_two_strikes 1 NoShow)) = true.
Proof.
  split; [vm_compute; reflexivity|].
  apply (lock_iff_three_strikes true (env_at jun10) one_of_patient5_two_strikes);
    vm_compute; reflexivity.
Defined.

(** The third strike locks: patient 5 at two strikes, marked no-show once
    more, is stored with [noShowCount = 3] and [appointmentLocked = true]. *)
Lemma third_strike_locks :
  find_patient true 5 (snd (update_status true (env_at jun10) one_of_patient5_two_strikes 1 NoShow))
  = Some (set_strikes (Some 3) (Some true) patient5).
Proof. vm_compute. reflexivity. Qed.

(** ** The 2-hour cutoff *)

Import Flows.

(** The cutoff on a two-digit hour: at exactly 120 minutes before 10:00 the
    requests go through, one second later they are refused. The
    cancellation request of [unnamed/part_012] is tried on the fresh
    booking; the two requests of [routes/patientBooking.js] on the booking
    whose request objects were reviewed (on a fresh booking the defaults
    of the schema make them answer "already pending"). *)
Lemma cutoff_boundary_ten_am :
  fst (request_cancellation_v2 (env_at (jun10 + 8 * hour)) (snd (booked_at "10:00 AM"))
         "APT000001" 7 (Some "sick"%string)) = Ok200 /\
  fst (request_cancellation_v2 (env_at (jun10 + 8 * hour + 1000)) (snd (booked_at "10:00 AM"))
         "APT000001" 7 (Some "sick"%string))
  = Bad400 "Appointments can only be cancelled at least 2 hours in advance" /\
  fst (request_cancellation (env_at (jun10 + 8 * hour)) (snd (reviewed_at "10:00 AM"))
         "APT000001" 7) = Ok200 /\
  fst (request_cancellation (env_at (jun10 + 8 * hour + 1000)) (snd (reviewed_at "10:00 AM"))
         "APT000001" 7)
  = Bad400 "Appointments can only be cancelled at least 2 hours in advance" /\
  fst (request_reschedule (env_at (jun10 + 8 * hour)) (snd (reviewed_at "10:00 AM"))
         "APT000001" 7 None None) = Ok200 /\
  fst (request_reschedule (env_at (jun10 + 8 * hour + 1000)) (snd (reviewed_at "10:00 AM"))
         "APT000001" 7 None None)
  = Bad400 "Appointments can only be rescheduled at least 2 hours in advance".
Proof. vm_compute. repeat split. Qed.

(** [convertTo24Hour "9:00 AM"] is ["9:00:00"]: the combined string has a
    one-digit hour, which is not a date-time string format, and the
    instant is [NaN]. *)
Lemma nine_am_instant_is_nan :
  JsDate.parse 0 ("2024-06-10T" ++ convertTo24Hour "9:00 AM")%string = None.
Proof. vm_compute. reflexivity. Qed.

(** C5: account 7 books 2024-06-10 at "9:00 AM" (stored at midnight UTC;
    server in UTC). At 08:30Z, 30 minutes before the start, the
    cancellation request of [unnamed/part_012] and the reschedule request
    of [unnamed/part_012] on the fresh booking are accepted, and so are the
    cancellation and reschedule requests of [routes/patientBooking.js] once
    the booking's request objects were reviewed: the appointment instant is
    [NaN] and [NaN < 2] is false. The reschedule request of
    [unnamed/part_012] has no cutoff at all: it is accepted one minute
    before a 10:00 AM start. On the fresh booking, the cancellation request
    of [routes/patientBooking.js] is refused with a message that is not the
    cutoff's: the schema default makes the request object pending. *)
Theorem cutoff_skipped_for_one_digit_hours :
  let at830 := env_at (jun10 + 8 * hour + 30 * 60000) in
  fst (booked_at "9:00 AM") = Created201 /\
  fst (reviewed_at "9:00 AM") = Ok200 /\
  fst (request_cancellation_v2 at830 (snd (booked_at "9:00 AM")) "APT000001" 7
         (Some "sick"%string)) = Ok200 /\
  fst (request_reschedule_v2 at830 (snd (booked_at "9:00 AM")) (ByAppointmentId "APT000001") 7
         (Some "2024-06-12"%string) (Some "11:00 AM"%string)) = Ok200 /\
  fst (request_cancellation at830 (snd (reviewed_at "9:00 AM")) "APT000001" 7) = Ok200 /\
  fst (request_reschedule at830 (snd (reviewed_at "9:00 AM")) "APT000001" 7
         (Some jun12) (Some "11:00 AM"%string)) = Ok200 /\
  fst (request_reschedule_v2 (env_at (jun10 + 10 * hour - 60000)) (snd (booked_at "10:00 AM"))
         (ByAppointmentId "APT000001") 7 (Some "2024-06-12"%string) (Some "11:00 AM"%string))
  = Ok200 /\
  fst (request_cancellation at830 (snd (booked_at "9:00 AM")) "APT000001" 7)
  = Bad400 "Cancellation request is already pending admin approval".
Proof. vm_compute. repeat split. Qed.

(** ** Rejected portal bookings *)

(** C8: the portal booking of [routes/patientBooking.js] refused for an
    existing pending appointment has already created a Patient record and
    linked the account to it; the booking of [unnamed/part_012] refused for
    the lock has already saved the [Inactive] record back as [New]. *)
Theorem rejected_bookings_mutate_store :
  book_appointment repo_patient_schema (env_at jun10) account_without_record 7 manaloto jun12
    "11:00 AM" SelfBooking None
  = (Bad400 "You already have a pending appointment",
     {| appointments := appointments account_without_record;
        patients := [{| p_id := 100; patientId := "OBG000001"; patientType := "ob-gyne";
                        p_status := PNew; p_email := Some "ana@example.com"%string;
                        recordName := "Ana Cruz"; recordContact := ana_phone; isActive := true;
                        noShowCount := None; appointmentLocked := None |}];
        patientUsers := [link_account user7 100];
        next_id := 101 |}) /\
  book_appointment_v2 true (env_at jun10) locked_inactive 7 manaloto jun12 "11:00 AM"
    SelfBooking None
  = (Forbidden403,
     store [] [set_p_status PNew (set_strikes (Some 3) (Some true) patient5)] [user7]).
Proof. vm_compute. split; reflexivity. Qed.

(** ** Reschedule round trip *)

Lemma find_map_replace : forall (f : appointment -> bool) a l,
  (forall b, f b = true -> a_id b = a_id a) ->
  find f (map (fun b => if Nat.eqb (a_id b) (a_id a) then a else b) l)
  = if existsb (fun b => Nat.eqb (a_id b) (a_id a)) l then (if f a then Some a else None) else None.
Proof.
  intros f a l Hf. induction l as [|b l IH]; [reflexivity|]. simpl.
  destruct (Nat.eqb (a_id b) (a_id a)) eqn:E; simpl.
  - destruct (f a) eqn:Fa; [reflexivity|]. rewrite IH.
    destruct (existsb _ l); reflexivity.
  - destruct (f b) eqn:Fb.
    + apply Hf in Fb. rewrite Fb, Nat.eqb_refl in E. discriminate.
    + exact IH.
Qed.

Lemma find_app_none : forall (f : appointment -> bool) a l,
  (forall b, f b = true -> a_id b = a_id a) ->
  existsb (fun b => Nat.eqb (a_id b) (a_id a)) l = false ->
  find f (l ++ [a]) = if f a then Some a else None.
Proof.
  intros f a l Hf. induction l as [|b l IH]; simpl; [destruct (f a); reflexivity|].
  intros H. apply Bool.orb_false_iff in H as [H1 H2].
  destruct (f b) eqn:Fb; [apply Hf in Fb; rewrite Fb, Nat.eqb_refl in H1; discriminate|].
  apply IH; exact H2.
Qed.

(** Looking a document up by its id after [save()] finds the saved one. *)
Lemma find_put_appointment : forall (f : appointment -> bool) a d,
  (forall b, f b = true -> a_id b = a_id a) ->
  find f (appointments (put_appointment a d)) = if f a then Some a else None.
Proof.
  intros f a d Hf. unfold put_appointment.
  destruct (existsb _ (appointments d)) eqn:E; simpl.
  - rewrite find_map_replace by exact Hf. rewrite E. reflexivity.
  - apply find_app_none; assumption.
Qed.

Lemma find_appointment_id : forall id d a, find_appointment id d = Some a -> a_id a = id.
Proof.
  intros id d a H. apply find_some in H as [_ H]. apply Nat.eqb_eq. exact H.
Qed.

Lemma id_owner_filter : forall id user b,
  (Nat.eqb (a_id b) id && owned_by user b) = true -> a_id b = id.
Proof.
  intros id user b H. apply andb_prop in H as [H _]. apply Nat.eqb_eq. exact H.
Qed.

(** Saving a document of the same [_id] leaves the unique-index check of
    [appointmentId] as it was. *)
Lemma appointmentId_free_put : forall a b d,
  a_id b = a_id a -> appointmentId_free a (put_appointment b d) = appointmentId_free a d.
Proof.
  intros a b d Hb. unfold appointmentId_free, put_appointment.
  destruct (existsb _ _); simpl.
  - induction (appointments d) as [|x l IH]; [reflexivity|]. simpl. rewrite IH.
    destruct (Nat.eqb (a_id x) (a_id b)) eqn:E; [|reflexivity].
    apply Nat.eqb_eq in E. rewrite E, Hb, Nat.eqb_refl. reflexivity.
  - rewrite forallb_app. simpl. rewrite Hb, Nat.eqb_refl. simpl.
    rewrite Bool.andb_true_r. reflexivity.
Qed.

(** C9: a staff reschedule of a portal appointment (not already
    [reschedule_pending]) that succeeds, followed by the patient's
    acceptance, leaves the appointment [confirmed] at the proposed date
    (the UTC noon of [newDate]) and time, with [rescheduledFrom] holding
    the date and time it had before the proposal. *)
Theorem reschedule_then_accept_round_trip : forall e d id a u newDate newTime d1,
  find_appointment id d = Some a ->
  bookingSource a = PatientPortal -> patientUserId a = Some u ->
  status a <> ReschedulePending ->
  reschedule e d id newDate newTime = (Ok200, d1) ->
  exists pd, utc_noon_of newDate = Some pd /\
  exists d2 a2, accept_reschedule e d1 id u = (Ok200, d2) /\
    find_appointment id d2 = Some a2 /\
    status a2 = Confirmed /\ appointmentDate a2 = Some pd /\ appointmentTime a2 = Some newTime /\
    rescheduledFrom a2 = Some {| originalDate := appointmentDate a;
                                 originalTime := appointmentTime a |}.
Proof.
  intros e d id a u newDate newTime d1 Hf Hsrc Hu Hst H.
  pose proof (find_appointment_id _ _ _ Hf) as Hid.
  unfold reschedule in H.
  destruct (negb _); [discriminate|]. rewrite Hf in H.
  destruct (utc_noon_of newDate) as [pd|]; [|discriminate].
  exists pd. split; [reflexivity|].
  rewrite Hsrc, Hu in H.
  destruct (status_eqb (status a) ReschedulePending) eqn:Es;
    [apply status_eqb_spec in Es; contradiction|].
  assert (Hrest : forall a1,
    a1 = set_status ReschedulePending
           (set_slot (Some pd) (Some newTime)
              (set_rescheduleRequest
                 (Some {| rr_status := ReqPending; rr_requestedBy := None;
                          rr_preferredDate := Some pd; rr_preferredTime := Some newTime |})
                 (set_rescheduledFrom
                    (Some {| originalDate := appointmentDate a;
                             originalTime := appointmentTime a |}) a))) ->
    save_or_500 e a1 d = (Ok200, d1) ->
    exists d2 a2, accept_reschedule e d1 id u = (Ok200, d2) /\
      find_appointment id d2 = Some a2 /\
      status a2 = Confirmed /\ appointmentDate a2 = Some pd /\
      appointmentTime a2 = Some newTime /\
      rescheduledFrom a2 = Some {| originalDate := appointmentDate a;
                                   originalTime := appointmentTime a |}).
  { intros a1 Ha1 Hs. unfold save_or_500, save_appointment in Hs.
    destruct (appointment_validates a1 && schedule_hook_ok e a1 && appointmentId_free a1 d)
      eqn:Hok; [|discriminate].
    injection Hs as <-.
    unfold accept_reschedule, find_own_key.
    rewrite find_put_appointment
      by (intros b Hb; apply id_owner_filter in Hb; rewrite Hb, Ha1; symmetry; exact Hid).
    subst a1. unfold owned_by. cbn. rewrite Hid, Hu, Nat.eqb_refl, Nat.eqb_refl. cbn.
    unfold save_or_500, save_appointment.
    rewrite appointmentId_free_put by reflexivity.
    match goal with
    | |- context [if appointment_validates ?a2 && schedule_hook_ok e ?a2
                     && appointmentId_free ?a2 d then _ else _] =>
        replace (appointment_validates a2 && schedule_hook_ok e a2 && appointmentId_free a2 d)
          with true by (rewrite <- Hok; reflexivity)
    end.
    eexists. eexists. split; [reflexivity|].
    unfold find_appointment.
    rewrite find_put_appointment by (intros b Hb; apply Nat.eqb_eq in Hb; rewrite Hb; exact (eq_sym Hid)).
    cbn. rewrite Hid, Nat.eqb_refl. split; [reflexivity|].
    repeat split. }
  destruct (doctor_day_enabled e (doctorName a) _) as [[]|];
    [| discriminate |];
    (destruct (found _ d); [discriminate|]);
    exact (Hrest _ eq_refl H).
Qed.

Lemma reschedule_then_accept_round_trip_witness :
  exists pd, utc_noon_of "2024-06-12" = Some pd /\
  exists d2 a2,
    accept_reschedule (env_at jun10)
      (snd (reschedule (env_at jun10) (portal_at Confirmed jun10 "9:00 AM") 1 "2024-06-12" "11:00 AM"))
      1 7 = (Ok200, d2) /\
    find_appointment 1 d2 = Some a2 /\
    status a2 = Confirmed /\ appointmentDate a2 = Some pd /\
    appointmentTime a2 = Some "11:00 AM"%string /\
    rescheduledFrom a2 = Some {| originalDate := Some jun10;
                                 originalTime := Some "9:00 AM"%string |}.
Proof.
  apply (reschedule_then_accept_round_trip (env_at jun10) (portal_at Confirmed jun10 "9:00 AM") 1
           (appt 1 "APT000001" (Some 5%nat) (Some 7%nat) PatientPortal Confirmed jun10 "9:00 AM")
           7 "2024-06-12" "11:00 AM"
           (snd (reschedule (env_at jun10) (portal_at Confirmed jun10 "9:00 AM") 1
                   "2024-06-12" "11:00 AM")));
    [vm_compute; reflexivity | reflexivity | reflexivity | discriminate | vm_compute; reflexivity].
Defined.

(** ** Accepting a reschedule request without a proposed slot *)

(** C10: accepting a pending reschedule request whose preferred date and
    time are both absent assigns them, the required-field validation of
    [save()] throws, and the route answers 500 with the store unchanged. *)
Theorem accept_without_slot_fails : forall e d id user a r,
  find_own_key (ByStorageId id) user d = Some a ->
  rescheduleRequest a = Some r -> rr_status r = ReqPending ->
  rr_preferredDate r = None -> rr_preferredTime r = None ->
  accept_reschedule e d id user = (Error500, d).
Proof.
  intros e d id user a r Hf Hr Hs Hd Ht.
  unfold accept_reschedule. rewrite Hf, Hr, Hs. simpl.
  unfold save_or_500, save_appointment, appointment_validates. cbn.
  rewrite Hd. rewrite Bool.andb_false_r. reflexivity.
Qed.

(** The request of [unnamed/part_012] with no new date or time stores
    exactly such a request. *)
Lemma request_without_slot_stores_no_slot :
  request_reschedule_v2 (env_at jun10) (portal_at Scheduled jun12 "10:00 AM") (ByStorageId 1) 7
    None None
  = (Ok200, pending_without_slot).
Proof. vm_compute. reflexivity. Qed.

Lemma accept_without_slot_fails_witness :
  accept_reschedule (env_at jun10) pending_without_slot 1 7 = (Error500, pending_without_slot).
Proof.
  apply (accept_without_slot_fails (env_at jun10) pending_without_slot 1 7
           pending_without_slot_appt no_slot_request);
    vm_compute; reflexivity.
Defined.

(** ** Time slots *)

(** A boolean check over the minutes [lo .. lo + n - 1] gives the property
    on that range. *)
Lemma forall_range : forall (P : Z -> bool) lo n,
  forallb P (map (fun k => lo + Z.of_nat k) (seq 0 n)) = true ->
  forall m, lo <= m < lo + Z.of_nat n -> P m = true.
Proof.
  intros P lo n H m Hm. rewrite forallb_forall in H.
  replace m with (lo + Z.of_nat (Z.to_nat (m - lo))) by lia.
  apply H. apply (in_map (fun k : nat => lo + Z.of_nat k)). apply in_seq. lia.
Qed.

Lemma slot_loop_in : forall fuel m e i t,
  0 < i -> In t (Slots.slot_loop fuel m e i) ->
  exists k, m <= k < e /\ t = Slots.time_label k.
Proof.
  induction fuel as [|f IH]; intros m e i t Hi H; simpl in H; [contradiction|].
  destruct (m <? e) eqn:E; [|contradiction]. apply Z.ltb_lt in E.
  destruct H as [<-|H].
  - exists m. split; [lia|reflexivity].
  - destruct (IH _ _ _ _ Hi H) as [k [Hk ->]]. exists k. split; [lia|reflexivity].
Qed.

Lemma generateTimeSlots_in : forall st en i s e t,
  0 < i -> Slots.hm_minutes st = Some s -> Slots.hm_minutes en = Some e ->
  In t (Slots.generateTimeSlots st en i) -> exists k, s <= k < e /\ t = Slots.time_label k.
Proof.
  intros st en i s e t Hi Hs He H. unfold Slots.generateTimeSlots in H.
  rewrite Hs, He in H. eapply slot_loop_in; eassumption.
Qed.

Lemma time_labels_valid :
  forall m, 0 <= m < 1440 -> valid_time12 (Slots.time_label m) = true.
Proof.
  intros m Hm. apply (forall_range (fun k => valid_time12 (Slots.time_label k)) 0 1440);
    [vm_compute; reflexivity | lia].
Qed.

Lemma label_fields_24h : forall m, 0 <= m < 1440 ->
  map Js.parseInt (Js.split ":"%char (convertTo24Hour (Slots.time_label m)))
  = [Some (m / 60); Some (m mod 60); Some 0].
Proof.
  intros m Hm.
  pose (P := fun k =>
    match map Js.parseInt (Js.split ":"%char (convertTo24Hour (Slots.time_label k))) with
    | [Some h; Some mm; Some z] => (h =? k / 60) && (mm =? k mod 60) && (z =? 0)
    | _ => false
    end).
  assert (H : P m = true) by (apply (forall_range P 0 1440); [vm_compute; reflexivity | lia]).
  unfold P in H.
  destruct (map Js.parseInt _) as [|[h|] [|[mm|] [|[z|] [|]]]]; try discriminate.
  apply andb_true_iff in H as [H H3]. apply andb_true_iff in H as [H1 H2].
  apply Z.eqb_eq in H1, H2, H3. subst. reflexivity.
Qed.

(** Extra X1: for every minute of the day, [convertTo24Hour] of the label
    [generateTimeSlots] prints for it, split at [:] and read back with
    [parseInt], gives the hour, the minute and 0: the two formats agree. *)
Theorem convertTo24Hour_label_fields : forall m, 0 <= m < 1440 ->
  map Js.parseInt (Js.split ":"%char (convertTo24Hour (Slots.time_label m)))
  = [Some (m / 60); Some (m mod 60); Some 0].
Proof. exact label_fields_24h. Qed.

Lemma convertTo24Hour_label_fields_witness :
  map Js.parseInt (Js.split ":"%char (convertTo24Hour (Slots.time_label 930)))
  = [Some 15; Some 30; Some 0].
Proof. apply (convertTo24Hour_label_fields 930). lia. Defined.

Lemma time_label_inj : forall m k, 0 <= m < 1440 -> 0 <= k < 1440 ->
  Slots.time_label m = Slots.time_label k -> m = k.
Proof.
  intros m k Hm Hk H.
  pose proof (label_fields_24h m Hm) as Em.
  pose proof (label_fields_24h k Hk) as Ek.
  rewrite H in Em. rewrite Em in Ek. injection Ek as E1 E2.
  rewrite (Z.div_mod m 60), (Z.div_mod k 60) by lia. lia.
Qed.

Lemma slot_loop_length : forall fuel m e i, 0 < i -> e - m <= Z.of_nat fuel ->
  List.length (Slots.slot_loop fuel m e i) = Z.to_nat ((e - m + i - 1) / i).
Proof.
  induction fuel as [|f IH]; intros m e i Hi Hf; simpl.
  all: try rewrite Nat2Z.inj_succ in Hf.
  - assert ((e - m + i - 1) / i < 1) by (apply Z.div_lt_upper_bound; lia). lia.
  - destruct (m <? e) eqn:E.
    + apply Z.ltb_lt in E. simpl. rewrite IH by lia.
      replace (e - m + i - 1) with ((e - (m + i) + i - 1) + 1 * i) by lia.
      rewrite Z.div_add by lia.
      assert (0 <= (e - (m + i) + i - 1) / i) by (apply Z.div_pos; lia). lia.
    + apply Z.ltb_ge in E.
      assert ((e - m + i - 1) / i < 1) by (apply Z.div_lt_upper_bound; lia). simpl. lia.
Qed.

Lemma slot_loop_nodup : forall fuel m e i, 0 < i -> 0 <= m -> e <= 1440 ->
  NoDup (Slots.slot_loop fuel m e i).
Proof.
  induction fuel as [|f IH]; intros m e i Hi Hm He; simpl; [constructor|].
  destruct (m <? e) eqn:E; [|constructor]. apply Z.ltb_lt in E.
  constructor; [|apply IH; lia].
  intros Hin. apply slot_loop_in in Hin as [k [Hk Hl]]; [|exact Hi].
  apply time_label_inj in Hl; lia.
Qed.

(** Extra X2: with a positive interval and bounds within one day, every
    slot [generateTimeSlots] produces matches the [appointmentTime]
    pattern of the Appointment schema and of the booking routes. *)
Theorem generated_slots_match_time_pattern : forall startTime endTime i s e t,
  0 < i -> Slots.hm_minutes startTime = Some s -> Slots.hm_minutes endTime = Some e ->
  0 <= s -> e <= 1440 ->
  In t (Slots.generateTimeSlots startTime endTime i) -> valid_time12 t = true.
Proof.
  intros st en i s e t Hi Hs He H0 H1 Hin.
  destruct (generateTimeSlots_in _ _ _ _ _ _ Hi Hs He Hin) as [k [Hk ->]].
  apply time_labels_valid. lia.
Qed.

Lemma generated_slots_match_time_pattern_witness :
  valid_time12 "8:00 AM" = true.
Proof.
  apply (generated_slots_match_time_pattern "08:00" "12:00" 30 480 720);
    [lia | reflexivity | reflexivity | lia | lia | vm_compute; tauto].
Defined.

(** Extra X3: with a positive interval [i], [generateTimeSlots] produces
    [ceil((end - start) / i)] slots (none when [end <= start]). *)
Theorem generateTimeSlots_length : forall startTime endTime i s e,
  0 < i -> Slots.hm_minutes startTime = Some s -> Slots.hm_minutes endTime = Some e ->
  List.length (Slots.generateTimeSlots startTime endTime i) = Z.to_nat ((e - s + i - 1) / i).
Proof.
  intros st en i s e Hi Hs He. unfold Slots.generateTimeSlots. rewrite Hs, He.
  apply slot_loop_length; lia.
Qed.

Lemma generateTimeSlots_length_witness :
  List.length (Slots.generateTimeSlots "09:00" "14:00" 30) = 10%nat.
Proof.
  apply (generateTimeSlots_length "09:00" "14:00" 30 540 840); [lia | reflexivity | reflexivity].
Defined.

(** Extra X4: with a positive interval and bounds within one day, the
    slots are pairwise distinct. *)
Theorem generateTimeSlots_nodup : forall startTime endTime i s e,
  0 < i -> Slots.hm_minutes startTime = Some s -> Slots.hm_minutes endTime = Some e ->
  0 <= s -> e <= 1440 -> NoDup (Slots.generateTimeSlots startTime endTime i).
Proof.
  intros st en i s e Hi Hs He H0 H1. unfold Slots.generateTimeSlots. rewrite Hs, He.
  apply slot_loop_nodup; lia.
Qed.

Lemma generateTimeSlots_nodup_witness :
  NoDup (Slots.generateTimeSlots "13:00" "17:00" 30).
Proof.
  apply (generateTimeSlots_nodup "13:00" "17:00" 30 780 1020);
    [lia | reflexivity | reflexivity | lia | lia].
Defined.

(** ** The instant of a stored date and a slot *)

Lemma list_ascii_app : forall s1 s2,
  list_ascii_of_string (s1 ++ s2) = list_ascii_of_string s1 ++ list_ascii_of_string s2.
Proof. induction s1 as [|c s1 IH]; intros s2; simpl; [reflexivity | rewrite IH; reflexivity]. Qed.

Lemma length_list_ascii : forall s, List.length (list_ascii_of_string s) = String.length s.
Proof. induction s as [|c s IH]; simpl; [reflexivity | rewrite IH; reflexivity]. Qed.

Lemma parse_other_length : forall tz s,
  List.length (list_ascii_of_string s) <> 10%nat -> List.length (list_ascii_of_string s) <> 19%nat ->
  JsDate.parse tz s = None.
Proof.
  intros tz s H10 H19. unfold JsDate.parse.
  destruct (list_ascii_of_string s) as [|c l]; [reflexivity|].
  do 19 (destruct l as [|? l]; [first [reflexivity | exfalso; simpl in *; lia]|]).
  reflexivity.
Qed.

Ltac peel_list H l n :=
  do n (destruct l as [|? l]; [simpl in H; discriminate|]).

(** A date-only string [YYYY-MM-DD] followed by [T], a two-digit hour,
    [:], two-digit minutes and [:00] is read as that local time of the
    day. *)
Lemma parse_date_then_time : forall tz ds t0 tm a b c k h mn,
  JsDate.parse tz ds = Some t0 -> String.length ds = 10%nat ->
  list_ascii_of_string tm = [a; b; ":"; c; k; ":"; "0"; "0"]%char ->
  JsDate.num2 a b = Some h -> JsDate.num2 c k = Some mn ->
  JsDate.time_fields_ok h mn 0 = true ->
  JsDate.parse tz (ds ++ "T" ++ tm) = Some (t0 + h * 3600000 + mn * 60000 - tz).
Proof.
  intros tz ds t0 tm a b c k h mn Hp Hl Ht Hh Hm Hok.
  rewrite <- length_list_ascii in Hl.
  unfold JsDate.parse in *. rewrite !list_ascii_app, Ht. simpl list_ascii_of_string.
  destruct (list_ascii_of_string ds) as [|y1 l]; [discriminate|].
  do 9 (destruct l as [|? l]; [discriminate|]).
  destruct l as [|? l]; [|discriminate]. simpl app.
  destruct (is_char _ _ && is_char _ _) eqn:Hd; [|discriminate].
  destruct (JsDate.num4 _ _ _ _) as [y|]; [|discriminate].
  destruct (JsDate.num2 _ _) as [mo|]; [|discriminate].
  destruct (JsDate.num2 _ _) as [dd|]; [|discriminate].
  destruct (JsDate.date_fields_ok mo dd) eqn:Hf; [|discriminate].
  injection Hp as <-.
  rewrite Hd. simpl is_char. cbn -[JsDate.num4 JsDate.num2 JsDate.utc JsDate.date_fields_ok
                                   JsDate.time_fields_ok].
  rewrite Hh, Hm. cbn -[JsDate.utc JsDate.date_fields_ok JsDate.time_fields_ok].
  replace (JsDate.num2 "0" "0") with (Some 0) by reflexivity.
  rewrite Hok. f_equal. unfold JsDate.utc. ring.
Qed.

Lemma label_24h_length : forall m, 60 <= m < 600 ->
  String.length (convertTo24Hour (Slots.time_label m)) = 7%nat.
Proof.
  intros m Hm. apply Nat.eqb_eq.
  apply (forall_range (fun k => Nat.eqb (String.length (convertTo24Hour (Slots.time_label k))) 7)
           60 540); [vm_compute; reflexivity | lia].
Qed.

Lemma label_24h_shape : forall m, 0 <= m < 60 \/ 600 <= m < 1440 ->
  exists a b c k, list_ascii_of_string (convertTo24Hour (Slots.time_label m))
                  = [a; b; ":"; c; k; ":"; "0"; "0"]%char /\
                  JsDate.num2 a b = Some (m / 60) /\ JsDate.num2 c k = Some (m mod 60).
Proof.
  intros m Hm.
  pose (P := fun k0 =>
    match list_ascii_of_string (convertTo24Hour (Slots.time_label k0)) with
    | [a; b; c1; c; k'; c2; z1; z2] =>
        Ascii.eqb c1 ":" && Ascii.eqb c2 ":" && Ascii.eqb z1 "0" && Ascii.eqb z2 "0"
        && match JsDate.num2 a b with Some x => x =? k0 / 60 | None => false end
        && match JsDate.num2 c k' with Some x => x =? k0 mod 60 | None => false end
    | _ => false
    end).
  assert (H : P m = true).
  { destruct Hm as [Hm|Hm];
      [apply (forall_range P 0 60) | apply (forall_range P 600 840)];
      try (vm_compute; reflexivity); lia. }
  unfold P in H.
  destruct (list_ascii_of_string _) as [|a [|b [|c1 [|c [|k [|c2 [|z1 [|z2 [|]]]]]]]]];
    try discriminate.
  repeat match goal with
         | H : (_ && _)%bool = true |- _ => apply andb_true_iff in H; destruct H
         | H : Ascii.eqb _ _ = true |- _ => apply Ascii.eqb_eq in H; subst
         end.
  exists a, b, c, k. split; [reflexivity|].
  destruct (JsDate.num2 a b) as [x|]; [|discriminate].
  destruct (JsDate.num2 c k) as [w|]; [|discriminate].
  repeat match goal with H : (_ =? _) = true |- _ => apply Z.eqb_eq in H end.
  subst. split; reflexivity.
Qed.

(** Extra X5: for slots from 1:00 AM to 9:59 AM, [convertTo24Hour] gives a
    one-digit hour and the instant the 2-hour cutoff builds from a
    [YYYY-MM-DD] date part is [NaN]. *)
Theorem cutoff_instant_nan_before_ten : forall tz ds m,
  String.length ds = 10%nat -> 60 <= m < 600 ->
  JsDate.parse tz (ds ++ "T" ++ convertTo24Hour (Slots.time_label m)) = None.
Proof.
  intros tz ds m Hl Hm. apply parse_other_length;
    rewrite !list_ascii_app, !length_app, !length_list_ascii, Hl, label_24h_length by exact Hm;
    simpl; lia.
Qed.

Lemma cutoff_instant_nan_before_ten_witness :
  JsDate.parse 0 ("2024-06-10T" ++ convertTo24Hour "9:30 AM") = None.
Proof.
  apply (cutoff_instant_nan_before_ten 0 "2024-06-10" 570); [reflexivity | lia].
Defined.

(** Extra X6: for slots in the midnight hour and from 10:00 AM on, the
    instant the 2-hour cutoff builds is the local time of the slot on the
    stored UTC date: midnight of the date plus the slot's minutes, minus
    the server's offset [tz]. *)
Theorem cutoff_instant_from_ten : forall tz ds t0 m,
  JsDate.parse tz ds = Some t0 -> String.length ds = 10%nat ->
  0 <= m < 60 \/ 600 <= m < 1440 ->
  JsDate.parse tz (ds ++ "T" ++ convertTo24Hour (Slots.time_label m)) = Some (t0 + m * 60000 - tz).
Proof.
  intros tz ds t0 m Hp Hl Hm.
  destruct (label_24h_shape m Hm) as [a [b [c [k [Hs [Hh Hmn]]]]]].
  rewrite (parse_date_then_time tz ds t0 _ a b c k (m / 60) (m mod 60) Hp Hl Hs Hh Hmn).
  - f_equal. rewrite (Z.div_mod m 60) at 3 by lia. ring.
  - unfold JsDate.time_fields_ok.
    assert (0 <= m / 60 < 24) by (split; [apply Z.div_pos | apply Z.div_lt_upper_bound]; lia).
    assert (0 <= m mod 60 < 60) by (apply Z.mod_pos_bound; lia).
    apply orb_true_iff; left. repeat (apply andb_true_iff; split); apply Z.leb_le; lia.
Qed.

Lemma cutoff_instant_from_ten_witness :
  JsDate.parse (8 * 3600000) ("2024-06-10T" ++ convertTo24Hour "10:30 AM")
  = Some (1717977600000 + 630 * 60000 - 8 * 3600000).
Proof.
  apply (cutoff_instant_from_ten (8 * 3600000) "2024-06-10" 1717977600000 630);
    [vm_compute; reflexivity | reflexivity | lia].
Defined.

(** ** Available slots *)

Lemma parse_date_midnight : forall tz ds t0,
  JsDate.parse tz ds = Some t0 -> String.length ds = 10%nat ->
  exists k, t0 = k * JsDate.ms_per_day.
Proof.
  intros tz ds t0 Hp Hl. rewrite <- length_list_ascii in Hl. unfold JsDate.parse in Hp.
  destruct (list_ascii_of_string ds) as [|y1 l]; [discriminate|].
  do 9 (destruct l as [|? l]; [discriminate|]).
  destruct l as [|? l]; [|discriminate].
  destruct (is_char _ _ && is_char _ _); [|discriminate].
  destruct (JsDate.num4 _ _ _ _) as [y|]; [|discriminate].
  destruct (JsDate.num2 _ _) as [mo|]; [|discriminate].
  destruct (JsDate.num2 _ _) as [dd|]; [|discriminate].
  destruct (JsDate.date_fields_ok mo dd); [|discriminate].
  injection Hp as <-. unfold JsDate.utc.
  exists (JsDate.days_from_civil (y + (mo - 1) / 12) ((mo - 1) mod 12 + 1) 1 + dd - 1).
  ring.
Qed.

Lemma parse_iso_day_bounds : forall tz ds t0,
  JsDate.parse tz ds = Some t0 -> String.length ds = 10%nat ->
  parse_iso_utc (ds ++ "T00:00:00.000Z") = Some t0 /\
  parse_iso_utc (ds ++ "T23:59:59.999Z") = Some (t0 + 86399999).
Proof.
  intros tz ds t0 Hp Hl. rewrite <- length_list_ascii in Hl.
  unfold JsDate.parse in Hp. unfold parse_iso_utc. rewrite !list_ascii_app.
  destruct (list_ascii_of_string ds) as [|y1 l]; [discriminate|].
  do 9 (destruct l as [|? l]; [discriminate|]).
  destruct l as [|? l]; [|discriminate]. simpl app.
  destruct (is_char _ _ && is_char _ _) eqn:Hd; [|discriminate].
  destruct (JsDate.num4 _ _ _ _) as [y|]; [|discriminate].
  destruct (JsDate.num2 _ _) as [mo|]; [|discriminate].
  destruct (JsDate.num2 _ _) as [dd|]; [|discriminate].
  destruct (JsDate.date_fields_ok mo dd) eqn:Hf; [|discriminate].
  injection Hp as <-.
  rewrite !Hd. cbn -[JsDate.num4 JsDate.num2 JsDate.utc JsDate.date_fields_ok
                      JsDate.time_fields_ok digits_at].
  split; (match goal with
          | |- context [JsDate.num2 ?a ?b] =>
              let x := eval vm_compute in (JsDate.num2 a b) in
              change (JsDate.num2 a b) with x
          end); cbn -[JsDate.utc JsDate.date_fields_ok JsDate.time_fields_ok]; rewrite ?Hf;
    repeat match goal with
           | |- context [JsDate.num2 ?a ?b] =>
               let x := eval vm_compute in (JsDate.num2 a b) in
               change (JsDate.num2 a b) with x
           end; cbn -[JsDate.utc JsDate.date_fields_ok]; rewrite ?Hf; simpl;
    f_equal; unfold JsDate.utc; ring.
Qed.

Lemma parse_noon_of_date : forall tz ds t0,
  JsDate.parse tz ds = Some t0 -> String.length ds = 10%nat ->
  JsDate.parse tz (ds ++ "T12:00:00") = Some (t0 + 12 * 3600000 + 0 * 60000 - tz).
Proof.
  intros tz ds t0 Hp Hl.
  change (ds ++ "T12:00:00")%string with (ds ++ "T" ++ "12:00:00")%string.
  apply (parse_date_then_time tz ds t0 "12:00:00" "1" "2" "0" "0"); auto.
Qed.

Lemma noon_weekday : forall tz ds t0,
  JsDate.parse tz ds = Some t0 -> String.length ds = 10%nat ->
  JsDate.getDay tz (t0 + 12 * 3600000 + 0 * 60000 - tz) = JsDate.getDay 0 t0.
Proof.
  intros tz ds t0 Hp Hl. destruct (parse_date_midnight tz ds t0 Hp Hl) as [k ->].
  unfold JsDate.getDay.
  replace (k * JsDate.ms_per_day + 12 * 3600000 + 0 * 60000 - tz + tz)
    with (k * JsDate.ms_per_day + 43200000) by ring.
  rewrite Z.add_0_r, Z.div_add_l, Z.div_mul by (unfold JsDate.ms_per_day; lia).
  replace (43200000 / JsDate.ms_per_day) with 0 by reflexivity. rewrite Z.add_0_r.
  reflexivity.
Qed.

Lemma booked_times_exclude : forall lo hi doc l t b,
  negb (existsb (fun o => time_is o t)
          (map appointmentTime (filter (day_filter lo hi doc) l))) = true ->
  In b l -> day_filter lo hi doc b = true -> appointmentTime b <> Some t.
Proof.
  intros lo hi doc l t b Hn Hb Hf Ht. apply negb_true_iff in Hn.
  assert (existsb (fun o => time_is o t)
            (map appointmentTime (filter (day_filter lo hi doc) l)) = true) as Hc.
  { apply existsb_exists. exists (appointmentTime b). split.
    - apply in_map, filter_In. auto.
    - apply time_is_spec. exact Ht. }
  congruence.
Qed.

Lemma available_slots_ok_inv : forall e d ds di sl t0 doctor,
  available_slots e d (Some ds) (Some di) = SlotsOk sl ->
  JsDate.parse (tz e) ds = Some t0 -> String.length ds = 10%nat ->
  doctorSchedules di = Some doctor ->
  exists day st en,
    nth_error dayNames (Z.to_nat (JsDate.getDay 0 t0)) = Some day /\
    assoc day (di_schedule doctor) = Some (st, en) /\
    sl = filter (fun slot => negb (existsb (fun o => time_is o slot)
            (map appointmentTime
               (filter (day_filter t0 (t0 + 86399999) (di_name doctor)) (appointments d)))))
           (Slots.generateTimeSlots st en 30).
Proof.
  intros e d ds di sl t0 doctor H Hp Hl Hdoc. unfold available_slots in H.
  destruct (String.eqb ds "" || String.eqb di "")%bool; [discriminate|].
  destruct (existsb (String.eqb di) object_prototype_keys); [discriminate|].
  rewrite Hdoc, (parse_noon_of_date _ _ _ Hp Hl), (noon_weekday _ _ _ Hp Hl) in H.
  destruct (parse_iso_day_bounds _ _ _ Hp Hl) as [Hlo Hhi]. rewrite Hlo, Hhi in H.
  destruct (nth_error dayNames (Z.to_nat (JsDate.getDay 0 t0))) as [day|] eqn:Hday;
    [|discriminate].
  destruct (assoc day (di_schedule doctor)) as [[st en]|] eqn:Hs; [|discriminate].
  injection H as <-. exists day, st, en. auto.
Qed.

Lemma getDay_of_midnight : forall tz k,
  0 <= tz < JsDate.ms_per_day -> JsDate.getDay tz (k * JsDate.ms_per_day) = JsDate.getDay 0 (k * JsDate.ms_per_day).
Proof.
  intros tz k H. unfold JsDate.getDay. rewrite Z.add_0_r.
  rewrite (Z.add_comm (k * _) tz), Z.div_add, Z.div_mul by (unfold JsDate.ms_per_day; lia).
  rewrite (Z.div_small tz) by lia. reflexivity.
Qed.

Lemma getDay_of_midnight_west : forall tz k,
  - JsDate.ms_per_day <= tz < 0 ->
  JsDate.getDay tz (k * JsDate.ms_per_day) = (JsDate.getDay 0 (k * JsDate.ms_per_day) + 6) mod 7.
Proof.
  intros tz k H. unfold JsDate.getDay. rewrite Z.add_0_r.
  rewrite (Z.add_comm (k * _) tz), Z.div_add, Z.div_mul by (unfold JsDate.ms_per_day; lia).
  replace (tz / JsDate.ms_per_day) with (-1)
    by (apply Z.div_unique with (r := tz + JsDate.ms_per_day); unfold JsDate.ms_per_day in *; lia).
  rewrite Zplus_mod_idemp_l.
  replace (k + 4 + 6) with (-1 + k + 4 + 1 * 7) by ring. rewrite Z.mod_add by lia.
  reflexivity.
Qed.

Lemma getDay_range : forall tz t, 0 <= JsDate.getDay tz t < 7.
Proof. intros. unfold JsDate.getDay. apply Z.mod_pos_bound. lia. Qed.

(** The listed week days of each doctor, read as [getDay] numbers. *)
Lemma schedule_days_listed : forall di doctor w day se,
  doctorSchedules di = Some doctor -> 0 <= w < 7 ->
  nth_error dayNames (Z.to_nat w) = Some day ->
  assoc day (di_schedule doctor) = Some se ->
  (di = "doc_1"%string /\ di_name doctor = "Dr. Maria Sarah L. Manaloto"%string /\ In w [1; 3; 5])
  \/ (di = "doc_2"%string /\ di_name doctor = "Dr. Shara Laine S. Vino"%string /\ In w [1; 2; 4]).
Proof.
  intros di doctor w day se Hdoc Hw Hday Hs. unfold doctorSchedules in Hdoc.
  destruct (String.eqb di "doc_1") eqn:E1; [|destruct (String.eqb di "doc_2") eqn:E2];
    try discriminate; injection Hdoc as <-; apply String.eqb_eq in E1 || apply String.eqb_eq in E2;
    [left | right]; (split; [assumption|]); (split; [reflexivity|]);
    (assert (w = 0 \/ w = 1 \/ w = 2 \/ w = 3 \/ w = 4 \/ w = 5 \/ w = 6) as Hc by lia;
     repeat destruct Hc as [-> | Hc]; [..| subst w];
     cbn in Hday; injection Hday as <-; cbn in Hs; try discriminate; simpl; tauto).
Qed.

Lemma offered_slot_generated_and_free : forall e d ds di sl t t0 doctor,
  available_slots e d (Some ds) (Some di) = SlotsOk sl -> In t sl ->
  JsDate.parse (tz e) ds = Some t0 -> String.length ds = 10%nat ->
  doctorSchedules di = Some doctor ->
  (exists day st en,
     nth_error dayNames (Z.to_nat (JsDate.getDay 0 t0)) = Some day /\
     assoc day (di_schedule doctor) = Some (st, en) /\
     In t (Slots.generateTimeSlots st en 30)) /\
  (forall b, In b (appointments d) -> doctorName b = di_name doctor ->
     status b <> Cancelled ->
     (exists u, appointmentDate b = Some u /\ t0 <= u < t0 + 86399999) ->
     appointmentTime b <> Some t).
Proof.
  intros e d ds di sl t t0 doctor H Ht Hp Hl Hdoc.
  destruct (available_slots_ok_inv e d ds di sl t0 doctor H Hp Hl Hdoc)
    as [day [st [en [Hday [Hs ->]]]]].
  apply filter_In in Ht as [Hgen Hfree]. split.
  - exists day, st, en. auto.
  - intros b Hb Hn Hst [u [Hu Hr]].
    apply (booked_times_exclude _ _ _ _ _ _ Hfree Hb).
    unfold day_filter. rewrite Hu, Hn, String.eqb_refl.
    apply status_eqb_false in Hst. rewrite Hst.
    replace (t0 <=? u) with true by (symmetry; apply Z.leb_le; lia).
    replace (u <? t0 + 86399999) with true by (symmetry; apply Z.ltb_lt; lia).
    reflexivity.
Qed.

(** Extra X7: a slot that [GET /available-slots] offers for a date
    [YYYY-MM-DD] and a doctor is a slot of that doctor's hours on the UTC
    week day of the date (whatever the server's time zone), and no
    appointment of that doctor that is not cancelled and is stored in the
    date's UTC day (from midnight to 23:59:59.998) has that time. *)
Theorem available_slots_offered_free : forall e d ds di sl t t0 doctor,
  available_slots e d (Some ds) (Some di) = SlotsOk sl -> In t sl ->
  JsDate.parse (tz e) ds = Some t0 -> String.length ds = 10%nat ->
  doctorSchedules di = Some doctor ->
  (exists day st en,
     nth_error dayNames (Z.to_nat (JsDate.getDay 0 t0)) = Some day /\
     assoc day (di_schedule doctor) = Some (st, en) /\
     In t (Slots.generateTimeSlots st en 30)) /\
  (forall b, In b (appointments d) -> doctorName b = di_name doctor ->
     status b <> Cancelled ->
     (exists u, appointmentDate b = Some u /\ t0 <= u < t0 + 86399999) ->
     appointmentTime b <> Some t).
Proof. exact offered_slot_generated_and_free. Qed.

Lemma available_slots_offered_free_witness :
  (exists day st en,
     nth_error dayNames (Z.to_nat (JsDate.getDay 0 jun10)) = Some day /\
     assoc day (di_schedule SlotFixtures.doc1_info) = Some (st, en) /\
     In "8:30 AM"%string (Slots.generateTimeSlots st en 30)) /\
  (forall b, In b (appointments (portal_at Scheduled jun10 "9:00 AM")) ->
     doctorName b = di_name SlotFixtures.doc1_info -> status b <> Cancelled ->
     (exists u, appointmentDate b = Some u /\ jun10 <= u < jun10 + 86399999) ->
     appointmentTime b <> Some "8:30 AM"%string).
Proof.
  apply (available_slots_offered_free (env_at jun10) (portal_at Scheduled jun10 "9:00 AM")
           "2024-06-10" "doc_1"
           ["8:00 AM"; "8:30 AM"; "9:30 AM"; "10:00 AM"; "10:30 AM"; "11:00 AM"; "11:30 AM"]%string
           "8:30 AM" jun10 SlotFixtures.doc1_info);
    [vm_compute; reflexivity | simpl; tauto | reflexivity | reflexivity | reflexivity].
Defined.

(** Extra X8: a slot that [GET /available-slots] offers is free for both
    booking routes: the patient portal's check and the staff [POST /]
    check find no appointment of that doctor at the date's midnight UTC
    (what [new Date(date)] stores) and that time. *)
Theorem offered_slot_passes_booking_checks : forall e d ds di sl t t0 doctor,
  available_slots e d (Some ds) (Some di) = SlotsOk sl -> In t sl ->
  JsDate.parse (tz e) ds = Some t0 -> String.length ds = 10%nat ->
  doctorSchedules di = Some doctor ->
  found (existing_filter_portal (di_name doctor) t0 t) d = false /\
  found (existing_filter_create (di_name doctor) t0 t) d = false.
Proof.
  intros e d ds di sl t t0 doctor H Ht Hp Hl Hdoc.
  destruct (offered_slot_generated_and_free e d ds di sl t t0 doctor H Ht Hp Hl Hdoc)
    as [_ Hfree].
  split; apply not_true_is_false; intros Hf; apply found_spec in Hf as [b [Hb Hf]].
  - unfold existing_filter_portal in Hf. bool_to_prop.
    apply (Hfree b Hb); auto.
    + apply status_eqb_false. exact H1.
    + exists t0. split; [assumption | lia].
  - unfold existing_filter_create in Hf. bool_to_prop.
    apply (Hfree b Hb); auto.
    + simpl in H1. intros Hc. rewrite Hc in H1. intuition discriminate.
    + exists t0. split; [assumption | lia].
Qed.

Lemma offered_slot_passes_booking_checks_witness :
  found (existing_filter_portal manaloto jun10 "8:30 AM") (portal_at Scheduled jun10 "9:00 AM")
  = false /\
  found (existing_filter_create manaloto jun10 "8:30 AM") (portal_at Scheduled jun10 "9:00 AM")
  = false.
Proof.
  apply (offered_slot_passes_booking_checks (env_at jun10) (portal_at Scheduled jun10 "9:00 AM")
           "2024-06-10" "doc_1"
           ["8:00 AM"; "8:30 AM"; "9:30 AM"; "10:00 AM"; "10:30 AM"; "11:00 AM"; "11:30 AM"]%string
           "8:30 AM" jun10 SlotFixtures.doc1_info);
    [vm_compute; reflexivity | simpl; tauto | reflexivity | reflexivity | reflexivity].
Defined.

(** Extra X9: on a server at UTC or east of it (offset in [0, 24h)), an
    appointment of the doctor stored at the midnight UTC of a date for
    which [GET /available-slots] answers with slots passes the
    [pre('save')] week-day hook of the Appointment schema. *)
Theorem offered_day_passes_schedule_hook : forall e d ds di sl t0 doctor a,
  available_slots e d (Some ds) (Some di) = SlotsOk sl ->
  JsDate.parse (tz e) ds = Some t0 -> String.length ds = 10%nat ->
  doctorSchedules di = Some doctor ->
  0 <= tz e < JsDate.ms_per_day ->
  doctorName a = di_name doctor -> appointmentDate a = Some t0 ->
  schedule_hook_ok e a = true.
Proof.
  intros e d ds di sl t0 doctor a H Hp Hl Hdoc Htz Hn Hd.
  destruct (available_slots_ok_inv e d ds di sl t0 doctor H Hp Hl Hdoc)
    as [day [st [en [Hday [Hs _]]]]].
  destruct (parse_date_midnight _ _ _ Hp Hl) as [k Hk].
  unfold schedule_hook_ok. rewrite Hd, Hn, Hk, getDay_of_midnight by exact Htz. rewrite <- Hk.
  destruct (schedule_days_listed di doctor _ day (st, en) Hdoc (getDay_range 0 t0) Hday Hs)
    as [[_ [-> Hw]] | [_ [-> Hw]]]; cbn -[JsDate.getDay];
    destruct Hw as [Hw | [Hw | [Hw | []]]]; rewrite <- Hw; reflexivity.
Qed.

Lemma offered_day_passes_schedule_hook_witness :
  schedule_hook_ok (SlotFixtures.env_east jun10)
    (appt 2 "APT000002" None None BookedByStaff Scheduled jun10 "8:30 AM") = true.
Proof.
  apply (offered_day_passes_schedule_hook (SlotFixtures.env_east jun10)
           (portal_at Scheduled jun10 "9:00 AM") "2024-06-10" "doc_1"
           ["8:00 AM"; "8:30 AM"; "9:30 AM"; "10:00 AM"; "10:30 AM"; "11:00 AM"; "11:30 AM"]%string
           jun10 SlotFixtures.doc1_info);
    [vm_compute; reflexivity | reflexivity | reflexivity | reflexivity
    | unfold JsDate.ms_per_day; simpl; lia | reflexivity | reflexivity].
Defined.

Lemma book_created_saved : forall sd e d user doc date time pt dn,
  fst (book_appointment sd e d user doc date time pt dn) = Created201 ->
  exists d1 pid info name phone,
    (String.eqb doc "" || String.eqb time "")%bool = false /\
    found (existing_filter_portal doc date time) d = false /\
    booking_doctor_info doc = Some info /\
    save_appointment e (new_portal_appointment d1 pid user info doc date time name phone)
      (bump_id d1)
    = Some (snd (book_appointment sd e d user doc date time pt dn)).
Proof.
  intros sd e d user doc date time pt dn. unfold book_appointment.
  destruct (_ || _)%bool eqn:Eb; [discriminate|].
  destruct (find_patient_user user d) as [pu|]; [|discriminate].
  destruct (found _ d) eqn:Ef; [discriminate|].
  destruct (dependent_missing pt dn); [discriminate|].
  destruct (booking_doctor_info doc) as [info|] eqn:Ei; [|discriminate].
  destruct (find_or_create_patient sd pu _ _ d) as [[p d1]|]; [|discriminate].
  destruct (found _ d1); [discriminate|].
  destruct (save_appointment _ _ _) as [d2|] eqn:Es; [|discriminate]. intros _.
  exists d1, (p_id p), info. do 2 eexists. repeat split; try assumption. exact Es.
Qed.

(** Extra X10: on a server west of UTC (offset in [-24h, 0)), no slot
    that [GET /available-slots] offers for Dr. Manaloto ([doc_1]) can be
    booked through the portal: the [pre('save')] hook reads the stored
    midnight UTC as the previous local week day, which is never one of
    hers, so [POST /book-appointment] never answers 201 for that date. *)
Theorem west_server_rejects_offered_manaloto_days : forall sd e d d' ds sl t0 user t pt dn,
  available_slots e d (Some ds) (Some "doc_1"%string) = SlotsOk sl ->
  JsDate.parse (tz e) ds = Some t0 -> String.length ds = 10%nat ->
  - JsDate.ms_per_day <= tz e < 0 ->
  fst (book_appointment sd e d' user "Dr. Maria Sarah L. Manaloto" t0 t pt dn) <> Created201.
Proof.
  intros sd e d d' ds sl t0 user t pt dn H Hp Hl Htz Hc.
  destruct (book_created_saved _ _ _ _ _ _ _ _ _ Hc)
    as [d1 [pid [info [name [phone [_ [_ [Hi Hs]]]]]]]].
  unfold save_appointment in Hs.
  destruct (available_slots_ok_inv e d ds "doc_1" sl t0 SlotFixtures.doc1_info H Hp Hl
              eq_refl) as [day [st [en [Hday [Hsch _]]]]].
  destruct (schedule_days_listed "doc_1" SlotFixtures.doc1_info _ day (st, en) eq_refl
              (getDay_range 0 t0) Hday Hsch) as [[_ [_ Hw]] | [Hx _]]; [|discriminate].
  destruct (parse_date_midnight _ _ _ Hp Hl) as [k Hk].
  unfold schedule_hook_ok in Hs. cbn [new_portal_appointment doctorName appointmentDate] in Hs.
  rewrite Hk, getDay_of_midnight_west in Hs by exact Htz. rewrite <- Hk in Hs.
  destruct Hw as [Hw | [Hw | [Hw | []]]]; rewrite <- Hw in Hs; cbn in Hs;
    rewrite andb_false_r in Hs; discriminate.
Qed.

Lemma west_server_rejects_offered_manaloto_days_witness :
  fst (book_appointment repo_patient_schema (SlotFixtures.env_west jun10)
         (portal_at Scheduled jun10 "9:00 AM") 7 "Dr. Maria Sarah L. Manaloto" jun10 "8:30 AM"
         SelfBooking None) <> Created201.
Proof.
  apply (west_server_rejects_offered_manaloto_days repo_patient_schema (SlotFixtures.env_west jun10)
           (portal_at Scheduled jun10 "9:00 AM") (portal_at Scheduled jun10 "9:00 AM")
           "2024-06-10"
           ["8:00 AM"; "8:30 AM"; "9:30 AM"; "10:00 AM"; "10:30 AM"; "11:00 AM"; "11:30 AM"]%string
           jun10);
    [vm_compute; reflexivity | reflexivity | reflexivity | unfold JsDate.ms_per_day; simpl; lia].
Defined.

(** Extra X11: for a date [YYYY-MM-DD] and a known doctor id,
    [GET /available-slots] never answers 400 or 500: it lists slots
    exactly when the date's UTC week day is one of the days the
    Appointment schema's [pre('save')] hook allows for that doctor, and
    otherwise answers with no slots and the day's name. *)
Theorem available_slots_day_outcome : forall e d ds di t0 doctor,
  JsDate.parse (tz e) ds = Some t0 -> String.length ds = 10%nat ->
  doctorSchedules di = Some doctor ->
  exists days, hardcoded_schedule_days (di_name doctor) = Some days /\
  ((existsb (Z.eqb (JsDate.getDay 0 t0)) days = true /\
    exists sl, available_slots e d (Some ds) (Some di) = SlotsOk sl) \/
   (existsb (Z.eqb (JsDate.getDay 0 t0)) days = false /\
    available_slots e d (Some ds) (Some di)
    = SlotsOff (nth_error dayNames (Z.to_nat (JsDate.getDay 0 t0))))).
Proof.
  intros e d ds di t0 doctor Hp Hl Hdoc.
  assert (Hds : String.eqb ds "" = false).
  { apply String.eqb_neq. intros ->. discriminate Hl. }
  destruct (parse_iso_day_bounds _ _ _ Hp Hl) as [Hlo Hhi].
  pose proof (getDay_range 0 t0) as Hw.
  unfold available_slots.
  rewrite Hds, (parse_noon_of_date _ _ _ Hp Hl), (noon_weekday _ _ _ Hp Hl), Hlo, Hhi.
  unfold doctorSchedules in Hdoc |- *.
  destruct (String.eqb di "doc_1") eqn:E1; [|destruct (String.eqb di "doc_2") eqn:E2];
    try discriminate; apply String.eqb_eq in E1 || apply String.eqb_eq in E2; subst di;
    injection Hdoc as <-; eexists; (split; [reflexivity|]); cbn -[JsDate.getDay];
    (assert (JsDate.getDay 0 t0 = 0 \/ JsDate.getDay 0 t0 = 1 \/ JsDate.getDay 0 t0 = 2 \/
             JsDate.getDay 0 t0 = 3 \/ JsDate.getDay 0 t0 = 4 \/ JsDate.getDay 0 t0 = 5 \/
             JsDate.getDay 0 t0 = 6) as Hc by lia);
    repeat destruct Hc as [Hc | Hc]; rewrite Hc; cbn;
    solve [left; split; [reflexivity | eexists; reflexivity]
          | right; split; reflexivity].
Qed.

Lemma available_slots_day_outcome_witness :
  exists days, hardcoded_schedule_days (di_name SlotFixtures.doc1_info) = Some days /\
  ((existsb (Z.eqb (JsDate.getDay 0 (jun10 + 86400000))) days = true /\
    exists sl, available_slots (env_at jun10) (portal_at Scheduled jun10 "9:00 AM")
                 (Some "2024-06-11"%string) (Some "doc_1"%string) = SlotsOk sl) \/
   (existsb (Z.eqb (JsDate.getDay 0 (jun10 + 86400000))) days = false /\
    available_slots (env_at jun10) (portal_at Scheduled jun10 "9:00 AM")
      (Some "2024-06-11"%string) (Some "doc_1"%string)
    = SlotsOff (nth_error dayNames (Z.to_nat (JsDate.getDay 0 (jun10 + 86400000)))))).
Proof.
  apply (available_slots_day_outcome (env_at jun10) (portal_at Scheduled jun10 "9:00 AM")
           "2024-06-11" "doc_1" (jun10 + 86400000) SlotFixtures.doc1_info);
    [vm_compute; reflexivity | reflexivity | reflexivity].
Defined.

(** ** Saving and finding appointments *)

Lemma find_map_other : forall (f : appointment -> bool) a l,
  (forall b, f b = true -> a_id b <> a_id a) -> f a = false ->
  find f (map (fun b => if Nat.eqb (a_id b) (a_id a) then a else b) l) = find f l.
Proof.
  intros f a l Hf Ha. induction l as [|b l IH]; [reflexivity|]. simpl.
  destruct (Nat.eqb (a_id b) (a_id a)) eqn:E.
  - apply Nat.eqb_eq in E. rewrite Ha, IH.
    destruct (f b) eqn:Fb; [apply Hf in Fb; contradiction | reflexivity].
  - destruct (f b); [reflexivity | exact IH].
Qed.

Lemma find_app_other : forall (f : appointment -> bool) a l,
  f a = false -> find f (l ++ [a]) = find f l.
Proof.
  intros f a l Ha. induction l as [|b l IH]; simpl; [rewrite Ha; reflexivity|].
  destruct (f b); [reflexivity | exact IH].
Qed.

Lemma find_put_other : forall (f : appointment -> bool) a d,
  (forall b, f b = true -> a_id b <> a_id a) -> f a = false ->
  find f (appointments (put_appointment a d)) = find f (appointments d).
Proof.
  intros f a d Hf Ha. unfold put_appointment.
  destruct (existsb _ _); simpl; [apply find_map_other | apply find_app_other]; assumption.
Qed.

Lemma save_appointment_find : forall e a d d',
  save_appointment e a d = Some d' ->
  find_appointment (a_id a) d' = Some (appointment_schema_view a) /\
  (forall j, j <> a_id a -> find_appointment j d' = find_appointment j d) /\
  patients d' = patients d /\ patientUsers d' = patientUsers d.
Proof.
  intros e a d d' H. pose proof (save_appointment_patients e a d d' H) as Hp.
  unfold save_appointment in H. destruct (_ && _ && _); [|discriminate].
  injection H as <-. split; [|split; [|split; [exact Hp|]]].
  - unfold find_appointment. rewrite find_put_appointment.
    + simpl. rewrite Nat.eqb_refl. reflexivity.
    + intros b Hb. apply Nat.eqb_eq. exact Hb.
  - intros j Hj. unfold find_appointment. apply find_put_other.
    + intros b Hb. apply Nat.eqb_eq in Hb. simpl. congruence.
    + apply Nat.eqb_neq. simpl. congruence.
  - unfold put_appointment. destruct (existsb _ _); reflexivity.
Qed.

(** ** The patient routes change only the patient's own appointment *)

Lemma in_put_other : forall a b d,
  In b (appointments d) -> a_id b <> a_id a -> In b (appointments (put_appointment a d)).
Proof.
  intros a b d Hb Hne. unfold put_appointment.
  destruct (existsb _ _); simpl.
  - apply in_map_iff. exists b. split; [|exact Hb].
    apply Nat.eqb_neq in Hne. rewrite Hne. reflexivity.
  - apply in_or_app. left. exact Hb.
Qed.

Lemma NoDup_map_inj : forall (f : appointment -> nat) l x y,
  NoDup (map f l) -> In x l -> In y l -> f x = f y -> x = y.
Proof.
  intros f l x y Hn. induction l as [|z l IH]; [intros []|].
  simpl in Hn. inversion Hn as [|? ? Hz Hl]; subst.
  intros [<-|Hx] [<-|Hy] He; auto.
  - exfalso. apply Hz. rewrite He. apply in_map. exact Hy.
  - exfalso. apply Hz. rewrite <- He. apply in_map. exact Hx.
Qed.

Lemma owned_save_keeps_others : forall e d user a a' b d',
  NoDup (map a_id (appointments d)) -> In a (appointments d) -> owned_by user a = true ->
  a_id a' = a_id a -> In b (appointments d) -> owned_by user b = false ->
  save_appointment e a' d = Some d' ->
  In b (appointments d') /\ patients d' = patients d /\ patientUsers d' = patientUsers d.
Proof.
  intros e d user a a' b d' Hn Ha Ho Hid Hb Hob Hs.
  destruct (save_appointment_find e a' d d' Hs) as [_ [_ [Hp Hu]]].
  split; [|auto].
  unfold save_appointment in Hs. destruct (_ && _); [|discriminate]. injection Hs as <-.
  apply in_put_other; [exact Hb|]. simpl. rewrite Hid. intros He.
  rewrite (NoDup_map_inj a_id _ b a Hn Hb Ha He) in Hob. congruence.
Qed.

Lemma find_own_some : forall aid user d a,
  find_own aid user d = Some a -> In a (appointments d) /\ owned_by user a = true.
Proof.
  intros aid user d a H. apply find_some in H as [H1 H2].
  apply andb_prop in H2 as [_ H2]. auto.
Qed.

Lemma find_own_key_some : forall k user d a,
  find_own_key k user d = Some a -> In a (appointments d) /\ owned_by user a = true.
Proof.
  intros [id|aid] user d a H; [|exact (find_own_some _ _ _ _ H)].
  apply find_some in H as [H1 H2]. apply andb_prop in H2 as [_ H2]. auto.
Qed.

Lemma save_or_500_shape : forall e a d,
  snd (save_or_500 e a d) = d \/ save_appointment e a d = Some (snd (save_or_500 e a d)).
Proof.
  intros e a d. unfold save_or_500. destruct (save_appointment e a d); simpl; auto.
Qed.

Ltac own_route_shape :=
  cbv zeta;
  repeat match goal with
  | |- context [match ?x with _ => _ end] => let E := fresh "E" in destruct x eqn:E
  end;
  first
  [ left; reflexivity
  | match goal with
    | Hf : find_own _ _ _ = Some ?a |- context [save_or_500 ?e ?a' ?d] =>
        destruct (find_own_some _ _ _ _ Hf);
        destruct (save_or_500_shape e a' d) as [-> | Hs]; [left; reflexivity|];
        right; exists a, a'; auto
    | Hf : find_own_key _ _ _ = Some ?a |- context [save_or_500 ?e ?a' ?d] =>
        destruct (find_own_key_some _ _ _ _ Hf);
        destruct (save_or_500_shape e a' d) as [-> | Hs]; [left; reflexivity|];
        right; exists a, a'; auto
    end ].

Lemma request_cancellation_shape : forall e d aid user,
  snd (request_cancellation e d aid user) = d \/
  exists a a', In a (appointments d) /\ owned_by user a = true /\ a_id a' = a_id a /\
    save_appointment e a' d = Some (snd (request_cancellation e d aid user)).
Proof. intros. unfold request_cancellation. own_route_shape. Qed.

Lemma request_cancellation_v2_shape : forall e d aid user r,
  snd (request_cancellation_v2 e d aid user r) = d \/
  exists a a', In a (appointments d) /\ owned_by user a = true /\ a_id a' = a_id a /\
    save_appointment e a' d = Some (snd (request_cancellation_v2 e d aid user r)).
Proof. intros. unfold request_cancellation_v2. own_route_shape. Qed.

Lemma request_reschedule_shape : forall e d aid user pd pt,
  snd (request_reschedule e d aid user pd pt) = d \/
  exists a a', In a (appointments d) /\ owned_by user a = true /\ a_id a' = a_id a /\
    save_appointment e a' d = Some (snd (request_reschedule e d aid user pd pt)).
Proof. intros. unfold request_reschedule. own_route_shape. Qed.

Lemma request_reschedule_v2_shape : forall e d k user pd pt,
  snd (request_reschedule_v2 e d k user pd pt) = d \/
  exists a a', In a (appointments d) /\ owned_by user a = true /\ a_id a' = a_id a /\
    save_appointment e a' d = Some (snd (request_reschedule_v2 e d k user pd pt)).
Proof. intros. unfold request_reschedule_v2. own_route_shape. Qed.

Lemma accept_reschedule_shape : forall e d id user,
  snd (accept_reschedule e d id user) = d \/
  exists a a', In a (appointments d) /\ owned_by user a = true /\ a_id a' = a_id a /\
    save_appointment e a' d = Some (snd (accept_reschedule e d id user)).
Proof. intros. unfold accept_reschedule. own_route_shape. Qed.

Lemma cancel_reschedule_shape : forall e d id user,
  snd (cancel_reschedule e d id user) = d \/
  exists a a', In a (appointments d) /\ owned_by user a = true /\ a_id a' = a_id a /\
    save_appointment e a' d = Some (snd (cancel_reschedule e d id user)).
Proof. intros. unfold cancel_reschedule. own_route_shape. Qed.

(** Extra X13: in a store whose appointments have distinct ids, none of
    the patient routes (request a cancellation, in both versions; request
    a reschedule, in both versions; accept or cancel a proposed
    reschedule) removes or changes an appointment that the requesting
    account does not own, whatever it answers, and none of them changes
    the patients or the portal accounts. *)
Theorem patient_routes_keep_others : forall e d user b d',
  NoDup (map a_id (appointments d)) -> In b (appointments d) -> owned_by user b = false ->
  ((exists aid, d' = snd (request_cancellation e d aid user)) \/
   (exists aid r, d' = snd (request_cancellation_v2 e d aid user r)) \/
   (exists aid pd pt, d' = snd (request_reschedule e d aid user pd pt)) \/
   (exists k pd pt, d' = snd (request_reschedule_v2 e d k user pd pt)) \/
   (exists id, d' = snd (accept_reschedule e d id user)) \/
   (exists id, d' = snd (cancel_reschedule e d id user))) ->
  In b (appointments d') /\ patients d' = patients d /\ patientUsers d' = patientUsers d.
Proof.
  intros e d user b d' Hn Hb Hob Hr.
  assert (Hshape : d' = d \/ exists a a', In a (appointments d) /\ owned_by user a = true /\
                     a_id a' = a_id a /\ save_appointment e a' d = Some d').
  { destruct Hr as [[aid ->] | [[aid [r ->]] | [[aid [pd [pt ->]]] | [[k [pd [pt ->]]] |
                    [[id ->] | [id ->]]]]]];
    [apply request_cancellation_shape | apply request_cancellation_v2_shape
    | apply request_reschedule_shape | apply request_reschedule_v2_shape
    | apply accept_reschedule_shape | apply cancel_reschedule_shape]. }
  destruct Hshape as [-> | [a [a' [Ha [Ho [Hid Hs]]]]]]; [auto|].
  exact (owned_save_keeps_others e d user a a' b d' Hn Ha Ho Hid Hb Hob Hs).
Qed.

Lemma patient_routes_keep_others_witness :
  In (appt 2 "APT000002" None (Some 8%nat) PatientPortal Scheduled jun12 "9:00 AM")
     (appointments (snd (request_cancellation (env_at jun10)
        (store [appt 1 "APT000001" (Some 5%nat) (Some 7%nat) PatientPortal Scheduled jun12 "10:00 AM";
                appt 2 "APT000002" None (Some 8%nat) PatientPortal Scheduled jun12 "9:00 AM"]
               [patient5] [user7]) "APT000001" 7))) /\
  patients (snd (request_cancellation (env_at jun10)
        (store [appt 1 "APT000001" (Some 5%nat) (Some 7%nat) PatientPortal Scheduled jun12 "10:00 AM";
                appt 2 "APT000002" None (Some 8%nat) PatientPortal Scheduled jun12 "9:00 AM"]
               [patient5] [user7]) "APT000001" 7)) = [patient5] /\
  patientUsers (snd (request_cancellation (env_at jun10)
        (store [appt 1 "APT000001" (Some 5%nat) (Some 7%nat) PatientPortal Scheduled jun12 "10:00 AM";
                appt 2 "APT000002" None (Some 8%nat) PatientPortal Scheduled jun12 "9:00 AM"]
               [patient5] [user7]) "APT000001" 7)) = [user7].
Proof.
  apply (patient_routes_keep_others (env_at jun10)
           (store [appt 1 "APT000001" (Some 5%nat) (Some 7%nat) PatientPortal Scheduled jun12 "10:00 AM";
                   appt 2 "APT000002" None (Some 8%nat) PatientPortal Scheduled jun12 "9:00 AM"]
                  [patient5] [user7]) 7).
  - simpl. repeat constructor; simpl; intuition discriminate.
  - simpl. auto.
  - reflexivity.
  - left. exists "APT000001"%string. reflexivity.
Defined.

(** ** A portal booking occupies its slot *)

Lemma in_put_self : forall a d, In a (appointments (put_appointment a d)).
Proof.
  intros a d. unfold put_appointment.
  destruct (existsb _ _) eqn:E; simpl.
  - apply existsb_exists in E as [b [Hb Hid]]. apply in_map_iff. exists b.
    rewrite Hid. auto.
  - apply in_or_app. right. left. reflexivity.
Qed.

(** Extra X14: after [POST /book-appointment] answers 201, the slot is
    taken for both booking routes: the staff [POST /] check finds the new
    appointment, and a second portal booking of the same doctor, date and
    time, by any account, answers 404 (no such account) or 400 "This time
    slot is no longer available". *)
Theorem booked_slot_refuses_second_booking : forall sd e d user doc date time pt dn,
  fst (book_appointment sd e d user doc date time pt dn) = Created201 ->
  found (existing_filter_create doc date time)
    (snd (book_appointment sd e d user doc date time pt dn)) = true /\
  (forall e' user' pt' dn',
     let r := fst (book_appointment sd e' (snd (book_appointment sd e d user doc date time pt dn))
                     user' doc date time pt' dn') in
     r = NotFound404 \/ r = Bad400 "This time slot is no longer available"%string).
Proof.
  intros sd e d user doc date time pt dn Hc.
  destruct (book_created_saved _ _ _ _ _ _ _ _ _ Hc)
    as [d1 [pid [info [name [phone [Hne [_ [Hi Hs]]]]]]]].
  set (d2 := snd (book_appointment sd e d user doc date time pt dn)) in *.
  unfold save_appointment in Hs. destruct (_ && _ && _); [|discriminate]. injection Hs as Hs.
  pose proof (in_put_self
    (appointment_schema_view (new_portal_appointment d1 pid user info doc date time name phone))
    (bump_id d1))
    as Hin.
  rewrite Hs in Hin.
  assert (Hp : found (existing_filter_portal doc date time) d2 = true).
  { apply found_spec. eexists. split; [exact Hin|].
    unfold existing_filter_portal. simpl. rewrite !Z.eqb_refl, !String.eqb_refl. reflexivity. }
  split.
  - apply found_spec. eexists. split; [exact Hin|].
    unfold existing_filter_create. simpl. rewrite !Z.eqb_refl, !String.eqb_refl. reflexivity.
  - intros e' user' pt' dn'. cbv zeta. unfold book_appointment. rewrite Hne.
    destruct (find_patient_user user' d2); [rewrite Hp; right | left]; reflexivity.
Qed.

Lemma booked_slot_refuses_second_booking_witness :
  found (existing_filter_create manaloto jun12 "11:00 AM"%string)
    (snd (book_appointment repo_patient_schema (env_at jun10) completed_at_slot 7 manaloto
            jun12 "11:00 AM"%string SelfBooking None)) = true /\
  (forall e' user' pt' dn',
     let r := fst (book_appointment repo_patient_schema e'
                     (snd (book_appointment repo_patient_schema (env_at jun10)
                             completed_at_slot 7 manaloto jun12 "11:00 AM"%string SelfBooking None))
                     user' manaloto jun12 "11:00 AM"%string pt' dn') in
     r = NotFound404 \/ r = Bad400 "This time slot is no longer available"%string).
Proof.
  apply (booked_slot_refuses_second_booking repo_patient_schema (env_at jun10)
           completed_at_slot 7 manaloto jun12 "11:00 AM"%string SelfBooking None).
  vm_compute. reflexivity.
Defined.

Lemma create_patient_appointments : forall sd p d d1,
  create_patient sd p d = Some d1 -> appointments d1 = appointments d.
Proof.
  intros sd p d d1 H. unfold create_patient in H. destruct (_ && _); [|discriminate].
  injection H as <-. unfold save_patient, put_patient. destruct (existsb _ _); reflexivity.
Qed.

Lemma find_or_create_appointments : forall sd pu t name d p d1,
  find_or_create_patient sd pu t name d = Some (p, d1) -> appointments d1 = appointments d.
Proof.
  intros sd pu t name d p d1 H. unfold find_or_create_patient in H.
  destruct (find_patient_by_email sd (pu_email pu) d).
  - injection H as _ <-. reflexivity.
  - destruct (generate_patientId t d); [|discriminate].
    destruct (create_patient sd _ (bump_id d)) as [d2|] eqn:Hc; [|discriminate].
    injection H as _ <-. apply create_patient_appointments in Hc.
    unfold put_patient_user. destruct (existsb _ _); exact Hc.
Qed.

(** Extra X15: after [POST /book-appointment] answers 201 for an account,
    no further portal booking by that account answers 201 while the
    booked date has not passed ([now <= date]), whatever doctor, date or
    time it asks for: the new appointment is the pending appointment the
    route refuses to double. *)
Theorem one_future_portal_booking : forall sd e d user doc date time pt dn,
  fst (book_appointment sd e d user doc date time pt dn) = Created201 ->
  forall e' doc' date' time' pt' dn', now e' <= date ->
  fst (book_appointment sd e' (snd (book_appointment sd e d user doc date time pt dn))
         user doc' date' time' pt' dn') <> Created201.
Proof.
  intros sd e d user doc date time pt dn Hc e' doc' date' time' pt' dn' Hnow.
  destruct (book_created_saved _ _ _ _ _ _ _ _ _ Hc)
    as [d1 [pid [info [name [phone [_ [_ [Hi Hs]]]]]]]].
  set (d2 := snd (book_appointment sd e d user doc date time pt dn)) in *.
  unfold save_appointment in Hs. destruct (_ && _ && _); [|discriminate]. injection Hs as Hs.
  pose proof (in_put_self
    (appointment_schema_view (new_portal_appointment d1 pid user info doc date time name phone))
    (bump_id d1))
    as Hin.
  rewrite Hs in Hin.
  unfold book_appointment.
  destruct (_ || _)%bool; [discriminate|].
  destruct (find_patient_user user d2) as [pu|]; [|discriminate].
  destruct (found _ d2); [discriminate|].
  destruct (dependent_missing pt' dn'); [discriminate|].
  destruct (booking_doctor_info doc') as [info'|]; [|discriminate].
  destruct (find_or_create_patient sd pu _ _ d2) as [[p d3]|] eqn:Hf; [|discriminate].
  apply find_or_create_appointments in Hf.
  replace (found (pending_filter user (now e')) d3) with true; [discriminate|].
  symmetry. apply found_spec. eexists. split; [rewrite Hf; exact Hin|].
  unfold pending_filter, owned_by. simpl. rewrite Nat.eqb_refl.
  apply Z.leb_le in Hnow. rewrite Hnow. reflexivity.
Qed.

Lemma one_future_portal_booking_witness :
  fst (book_appointment repo_patient_schema (env_at jun10)
         (snd (book_appointment repo_patient_schema (env_at jun10) completed_at_slot 7 manaloto
                 jun12 "11:00 AM"%string SelfBooking None))
         7 "Dr. Shara Laine S. Vino" jun12 "2:00 PM" SelfBooking None) <> Created201.
Proof.
  apply (one_future_portal_booking repo_patient_schema (env_at jun10) completed_at_slot 7 manaloto
           jun12 "11:00 AM"%string SelfBooking None);
    [vm_compute; reflexivity | unfold jun10, jun12; simpl; lia].
Defined.

(** ** Request and review flows *)

Lemma save_or_500_ok : forall e a d d1,
  save_or_500 e a d = (Ok200, d1) -> save_appointment e a d = Some d1.
Proof.
  intros e a d d1. unfold save_or_500. destruct (save_appointment e a d); congruence.
Qed.

Lemma save_appointment_checks : forall e a d d1,
  save_appointment e a d = Some d1 ->
  appointment_validates a && schedule_hook_ok e a = true /\ appointmentId_free a d = true.
Proof.
  intros e a d d1. unfold save_appointment.
  destruct (appointment_validates a && schedule_hook_ok e a), (appointmentId_free a d);
    simpl; try discriminate; auto.
Qed.

Lemma save_appointment_ok : forall e a d,
  appointment_validates a && schedule_hook_ok e a = true -> appointmentId_free a d = true ->
  save_appointment e a d = Some (put_appointment (appointment_schema_view a) d).
Proof. intros e a d H1 H2. unfold save_appointment. rewrite H1, H2. reflexivity. Qed.

(** The unique-index check reads only [_id] and [appointmentId]. *)
Lemma appointmentId_free_same : forall a b d,
  a_id a = a_id b -> appointmentId a = appointmentId b ->
  appointmentId_free a d = appointmentId_free b d.
Proof. intros a b d H1 H2. unfold appointmentId_free. rewrite H1, H2. reflexivity. Qed.

(** Validation and the week-day hook read only the fields the setters of
    the review routes leave alone, and the slot. *)
Lemma save_same_slot : forall e a b d,
  appointment_validates a && schedule_hook_ok e a = true ->
  appointmentId_free b d = true ->
  appointmentId b = appointmentId a -> patient b = patient a ->
  bookingSource b = bookingSource a -> doctorType b = doctorType a ->
  doctorName b = doctorName a -> appointmentDate b = appointmentDate a ->
  appointmentTime b = appointmentTime a -> serviceType b = serviceType a ->
  primaryPhone b = primaryPhone a -> patientName b = patientName a ->
  contactNumber b = contactNumber a ->
  save_appointment e b d = Some (put_appointment (appointment_schema_view b) d).
Proof.
  intros e a b d Hok Hfr H1 H2 H3 H4 H5 H6 H7 H8 H9 H10 H11. apply save_appointment_ok; [|exact Hfr].
  rewrite <- Hok. unfold appointment_validates, schedule_hook_ok.
  rewrite H1, H2, H3, H4, H5, H6, H7, H8, H9, H10, H11. reflexivity.
Qed.

Lemma appointmentId_free_save_patient : forall sd b p d,
  appointmentId_free b (save_patient sd p d) = appointmentId_free b d.
Proof.
  intros sd b p d. unfold save_patient, put_patient. destruct (existsb _ _); reflexivity.
Qed.

Ltac free_after_put Hfr :=
  rewrite appointmentId_free_put by reflexivity; rewrite <- Hfr;
  apply appointmentId_free_same; reflexivity.

Lemma find_put_self : forall i a d,
  a_id a = i -> find_appointment i (put_appointment a d) = Some a.
Proof.
  intros i a d <-. unfold find_appointment.
  rewrite find_put_appointment by (intros b Hb; apply Nat.eqb_eq; exact Hb).
  rewrite Nat.eqb_refl. reflexivity.
Qed.

Ltac rewrite_find_put :=
  match goal with
  | |- context [find_appointment ?i (put_appointment ?b ?d)] =>
      rewrite (find_put_self i b d eq_refl)
  end.

(** The saved request of either cancellation route: the approval that
    follows answers 200 with the request approved. *)
Lemma approve_after_saved_request : forall e d a user ps d1,
  save_appointment e
    (set_cancellationRequest
       (Some {| cr_status := ReqPending; cr_requestedBy := Some user;
                cr_previousStatus := ps |}) (set_status CancellationPending a)) d
  = Some d1 ->
  exists d2 a2, approve_cancellation e d1 (a_id a) = (Ok200, d2) /\
    find_appointment (a_id a) d2 = Some a2 /\
    status a2 = Cancelled /\
    cancellationRequest a2 = Some {| cr_status := ReqApproved; cr_requestedBy := Some user;
                                     cr_previousStatus := None |} /\
    doctorName a2 = doctorName a /\ appointmentDate a2 = appointmentDate a /\
    appointmentTime a2 = appointmentTime a.
Proof.
  intros e d a user ps d1 H.
  destruct (save_appointment_checks _ _ _ _ H) as [Hok Hfr].
  rewrite (save_appointment_ok _ _ _ Hok Hfr) in H. injection H as <-.
  unfold approve_cancellation. rewrite_find_put. cbn.
  unfold save_or_500. rewrite (save_same_slot e _ _ _ Hok) by first [reflexivity | free_after_put Hfr].
  eexists. eexists. split; [reflexivity|]. split; [rewrite_find_put; reflexivity|].
  repeat split.
Qed.

(** Extra X16: when a patient's cancellation request is answered 200, by
    the [POST /request-cancellation] of [routes/patientBooking.js] or by
    the one of [unnamed/part_012], the staff's
    [PATCH /:id/approve-cancellation] of that appointment answers 200 and
    stores it [cancelled], with the request [approved] and still naming
    the account, at its doctor, date and time. *)
Theorem request_then_approve_cancellation : forall e d aid user a d1,
  find_own aid user d = Some a ->
  (request_cancellation e d aid user = (Ok200, d1) \/
   exists r, request_cancellation_v2 e d aid user r = (Ok200, d1)) ->
  exists d2 a2, approve_cancellation e d1 (a_id a) = (Ok200, d2) /\
    find_appointment (a_id a) d2 = Some a2 /\
    status a2 = Cancelled /\
    cancellationRequest a2 = Some {| cr_status := ReqApproved; cr_requestedBy := Some user;
                                     cr_previousStatus := None |} /\
    doctorName a2 = doctorName a /\ appointmentDate a2 = appointmentDate a /\
    appointmentTime a2 = appointmentTime a.
Proof.
  intros e d aid user a d1 Hf [H | [r H]].
  - unfold request_cancellation in H. rewrite Hf in H.
    destruct (status_eqb (status a) Cancelled); [discriminate|].
    destruct (status_eqb (status a) Completed); [discriminate|].
    destruct (cancellation_pending_request a); [discriminate|].
    destruct (cutoff_rejects e a) as [[|]|]; try discriminate.
    cbv zeta in H. apply save_or_500_ok in H.
    exact (approve_after_saved_request e d a user _ d1 H).
  - unfold request_cancellation_v2 in H.
    destruct r as [r|]; [|discriminate]. destruct (blank r); [discriminate|].
    rewrite Hf in H.
    destruct (status_eqb (status a) Cancelled); [discriminate|].
    destruct (status_eqb (status a) CancellationPending); [discriminate|].
    destruct (status_eqb (status a) Completed); [discriminate|].
    destruct (cutoff_rejects e a) as [[|]|]; try discriminate.
    cbv zeta in H. apply save_or_500_ok in H.
    exact (approve_after_saved_request e d a user _ d1 H).
Qed.

Lemma request_then_approve_cancellation_witness :
  exists d2 a2,
    approve_cancellation (env_at jun10)
      (snd (request_cancellation_v2 (env_at jun10) (snd (booked_at "10:00 AM"))
              "APT000001" 7 (Some "sick"%string))) 100 = (Ok200, d2) /\
    find_appointment 100 d2 = Some a2 /\
    status a2 = Cancelled /\
    cancellationRequest a2 = Some {| cr_status := ReqApproved; cr_requestedBy := Some 7%nat;
                                     cr_previousStatus := None |} /\
    doctorName a2 = manaloto /\ appointmentDate a2 = Some jun10 /\
    appointmentTime a2 = Some "10:00 AM"%string.
Proof.
  pose (a := hd (appt 0 "" None None PatientPortal Scheduled 0 "")
                (appointments (snd (booked_at "10:00 AM")))).
  apply (request_then_approve_cancellation (env_at jun10) (snd (booked_at "10:00 AM"))
           "APT000001" 7 a);
    [vm_compute; reflexivity | right; exists (Some "sick"%string); vm_compute; reflexivity].
Defined.

(** Extra X17: when the staff's [PATCH /:id/reschedule] of a portal
    appointment that is not [reschedule_pending] answers 200, and the
    appointment's original slot passes the schema checks, the owner's
    [POST /cancel-reschedule] answers 200 and puts the appointment back at
    its original date and time, [scheduled] (also when it was [confirmed]
    before), with the proposal marked [rejected]. *)
Theorem reschedule_then_cancel_restores_slot : forall e d id a u newDate newTime d1,
  find_appointment id d = Some a ->
  bookingSource a = PatientPortal -> patientUserId a = Some u ->
  status a <> ReschedulePending ->
  appointment_validates a && schedule_hook_ok e a = true ->
  reschedule e d id newDate newTime = (Ok200, d1) ->
  exists d2 a2, cancel_reschedule e d1 id u = (Ok200, d2) /\
    find_appointment id d2 = Some a2 /\
    status a2 = Scheduled /\
    appointmentDate a2 = appointmentDate a /\ appointmentTime a2 = appointmentTime a /\
    option_map rr_status (rescheduleRequest a2) = Some ReqRejected.
Proof.
  intros e d id a u newDate newTime d1 Hf Hsrc Hu Hst Hok0 H.
  pose proof (find_appointment_id _ _ _ Hf) as Hid.
  unfold reschedule in H.
  destruct (negb _); [discriminate|]. rewrite Hf in H.
  destruct (utc_noon_of newDate) as [pd|]; [|discriminate].
  rewrite Hsrc, Hu in H.
  destruct (status_eqb (status a) ReschedulePending) eqn:Es;
    [apply status_eqb_spec in Es; contradiction|].
  assert (Hrest : forall a1,
    a1 = set_status ReschedulePending
           (set_slot (Some pd) (Some newTime)
              (set_rescheduleRequest
                 (Some {| rr_status := ReqPending; rr_requestedBy := None;
                          rr_preferredDate := Some pd; rr_preferredTime := Some newTime |})
                 (set_rescheduledFrom
                    (Some {| originalDate := appointmentDate a;
                             originalTime := appointmentTime a |}) a))) ->
    save_or_500 e a1 d = (Ok200, d1) ->
    exists d2 a2, cancel_reschedule e d1 id u = (Ok200, d2) /\
      find_appointment id d2 = Some a2 /\
      status a2 = Scheduled /\
      appointmentDate a2 = appointmentDate a /\ appointmentTime a2 = appointmentTime a /\
      option_map rr_status (rescheduleRequest a2) = Some ReqRejected).
  { intros a1 Ha1 Hs. apply save_or_500_ok in Hs.
    destruct (save_appointment_checks _ _ _ _ Hs) as [Hok Hfr].
    rewrite (save_appointment_ok _ _ _ Hok Hfr) in Hs. injection Hs as <-.
    unfold cancel_reschedule, find_own_key.
    rewrite find_put_appointment
      by (intros b Hb; apply id_owner_filter in Hb; rewrite Hb, Ha1; symmetry; exact Hid).
    subst a1. unfold owned_by. cbn. rewrite Hid, Hu, Nat.eqb_refl, Nat.eqb_refl. cbn.
    unfold save_or_500.
    rewrite (save_same_slot e a _ _ Hok0) by first [reflexivity | free_after_put Hfr].
    eexists. eexists. split; [reflexivity|].
    split; [apply find_put_self; exact Hid|].
    repeat split. }
  destruct (doctor_day_enabled e (doctorName a) _) as [[]|];
    [| discriminate |];
    (destruct (found _ d); [discriminate|]);
    exact (Hrest _ eq_refl H).
Qed.

Lemma reschedule_then_cancel_restores_slot_witness :
  exists d2 a2,
    cancel_reschedule (env_at jun10)
      (snd (reschedule (env_at jun10) (portal_at Confirmed jun10 "9:00 AM") 1 "2024-06-12" "11:00 AM"))
      1 7 = (Ok200, d2) /\
    find_appointment 1 d2 = Some a2 /\
    status a2 = Scheduled /\
    appointmentDate a2 = Some jun10 /\ appointmentTime a2 = Some "9:00 AM"%string /\
    option_map rr_status (rescheduleRequest a2) = Some ReqRejected.
Proof.
  apply (reschedule_then_cancel_restores_slot (env_at jun10) (portal_at Confirmed jun10 "9:00 AM") 1
           (appt 1 "APT000001" (Some 5%nat) (Some 7%nat) PatientPortal Confirmed jun10 "9:00 AM")
           7 "2024-06-12" "11:00 AM"
           (snd (reschedule (env_at jun10) (portal_at Confirmed jun10 "9:00 AM") 1
                   "2024-06-12" "11:00 AM")));
    [vm_compute; reflexivity | reflexivity | reflexivity | discriminate
    | vm_compute; reflexivity | vm_compute; reflexivity].
Defined.

(** Extra X18: when the staff's [PATCH /:id/reschedule] of a portal
    appointment that is not [reschedule_pending] answers 200, a staff
    [PATCH /:id/status] to [confirmed] answers 200, marks the proposal
    [rejected] and keeps the appointment at the proposed date and time. *)
Theorem reschedule_then_confirm_keeps_proposal :
  forall sd e d id a u newDate newTime d1,
  find_appointment id d = Some a ->
  bookingSource a = PatientPortal -> patientUserId a = Some u ->
  status a <> ReschedulePending ->
  reschedule e d id newDate newTime = (Ok200, d1) ->
  exists pd, utc_noon_of newDate = Some pd /\
  exists d2 a2, update_status sd e d1 id Confirmed = (Ok200, d2) /\
    find_appointment id d2 = Some a2 /\
    status a2 = Confirmed /\ appointmentDate a2 = Some pd /\ appointmentTime a2 = Some newTime /\
    option_map rr_status (rescheduleRequest a2) = Some ReqRejected.
Proof.
  intros sd e d id a u newDate newTime d1 Hf Hsrc Hu Hst H.
  pose proof (find_appointment_id _ _ _ Hf) as Hid.
  unfold reschedule in H.
  destruct (negb _); [discriminate|]. rewrite Hf in H.
  destruct (utc_noon_of newDate) as [pd|]; [|discriminate].
  exists pd. split; [reflexivity|].
  rewrite Hsrc, Hu in H.
  destruct (status_eqb (status a) ReschedulePending) eqn:Es;
    [apply status_eqb_spec in Es; contradiction|].
  assert (Hrest : forall a1,
    a1 = set_status ReschedulePending
           (set_slot (Some pd) (Some newTime)
              (set_rescheduleRequest
                 (Some {| rr_status := ReqPending; rr_requestedBy := None;
                          rr_preferredDate := Some pd; rr_preferredTime := Some newTime |})
                 (set_rescheduledFrom
                    (Some {| originalDate := appointmentDate a;
                             originalTime := appointmentTime a |}) a))) ->
    save_or_500 e a1 d = (Ok200, d1) ->
    exists d2 a2, update_status sd e d1 id Confirmed = (Ok200, d2) /\
      find_appointment id d2 = Some a2 /\
      status a2 = Confirmed /\ appointmentDate a2 = Some pd /\
      appointmentTime a2 = Some newTime /\
      option_map rr_status (rescheduleRequest a2) = Some ReqRejected).
  { intros a1 Ha1 Hs. apply save_or_500_ok in Hs.
    destruct (save_appointment_checks _ _ _ _ Hs) as [Hok Hfr].
    rewrite (save_appointment_ok _ _ _ Hok Hfr) in Hs. injection Hs as <-.
    unfold update_status. cbn [negb status_update_target_ok].
    rewrite (find_put_self id (appointment_schema_view a1) d)
      by (rewrite Ha1; exact Hid).
    subst a1. cbn.
    match goal with
    | |- context [save_appointment e ?b ?d2] =>
        assert (Hfr2 : appointmentId_free b d2 = true)
          by (destruct (patient a) as [pid|];
              [destruct (find_patient sd pid _) as [p|];
                 [destruct (patient_status_eqb (p_status p) PNew)|]|];
              try rewrite appointmentId_free_save_patient; free_after_put Hfr)
    end.
    rewrite (save_same_slot e _ _ _ Hok) by first [reflexivity | exact Hfr2].
    eexists. eexists. split; [reflexivity|].
    split; [apply find_put_self; exact Hid|].
    repeat split. }
  destruct (doctor_day_enabled e (doctorName a) _) as [[]|];
    [| discriminate |];
    (destruct (found _ d); [discriminate|]);
    exact (Hrest _ eq_refl H).
Qed.

Lemma reschedule_then_confirm_keeps_proposal_witness :
  exists pd, utc_noon_of "2024-06-12" = Some pd /\
  exists d2 a2,
    update_status repo_patient_schema (env_at jun10)
      (snd (reschedule (env_at jun10) (portal_at Confirmed jun10 "9:00 AM") 1 "2024-06-12" "11:00 AM"))
      1 Confirmed = (Ok200, d2) /\
    find_appointment 1 d2 = Some a2 /\
    status a2 = Confirmed /\ appointmentDate a2 = Some pd /\
    appointmentTime a2 = Some "11:00 AM"%string /\
    option_map rr_status (rescheduleRequest a2) = Some ReqRejected.
Proof.
  apply (reschedule_then_confirm_keeps_proposal repo_patient_schema (env_at jun10)
           (portal_at Confirmed jun10 "9:00 AM") 1
           (appt 1 "APT000001" (Some 5%nat) (Some 7%nat) PatientPortal Confirmed jun10 "9:00 AM")
           7 "2024-06-12" "11:00 AM"
           (snd (reschedule (env_at jun10) (portal_at Confirmed jun10 "9:00 AM") 1
                   "2024-06-12" "11:00 AM")));
    [vm_compute; reflexivity | reflexivity | reflexivity | discriminate | vm_compute; reflexivity].
Defined.

(** ** Confirming activates a new patient *)

Lemma p_id_schema_view : forall sd p, p_id (patient_schema_view sd p) = p_id p.
Proof. intros [] p; reflexivity. Qed.

Lemma p_status_schema_view : forall sd p, p_status (patient_schema_view sd p) = p_status p.
Proof. intros [] p; reflexivity. Qed.

(** Extra X19: a staff [PATCH /:id/status] to [confirmed] of an appointment
    whose patient record has status [New] leaves that record [Active],
    whatever the route answers: the patient is saved before the
    appointment, so also when the appointment's [save()] then fails. *)
Theorem confirm_activates_new_patient : forall sd e d id a pid p,
  find_appointment id d = Some a -> patient a = Some pid ->
  find_patient sd pid d = Some p -> p_status p = PNew ->
  option_map p_status (find_patient sd pid (snd (update_status sd e d id Confirmed)))
  = Some PActive.
Proof.
  intros sd e d id a pid p Hf Hp Hfp Hnew.
  assert (Hpid : p_id p = pid).
  { unfold find_patient in Hfp.
    destruct (find _ (patients d)) as [q|] eqn:Eq; [|discriminate].
    injection Hfp as <-. apply find_some in Eq as [_ Eq]. apply Nat.eqb_eq in Eq.
    rewrite p_id_schema_view. exact Eq. }
  assert (Hfinal : forall d', patients d' = patients (save_patient sd (set_p_status PActive p) d) ->
            option_map p_status (find_patient sd pid d') = Some PActive).
  { intros d' Hd'. unfold find_patient. rewrite Hd'. unfold save_patient.
    replace pid with (p_id (patient_schema_view sd (set_p_status PActive p)))
      by (rewrite p_id_schema_view; exact Hpid).
    rewrite find_put_patient. simpl. rewrite !p_status_schema_view. reflexivity. }
  unfold update_status. cbn [negb status_update_target_ok]. rewrite Hf.
  cbn [status_eqb]. rewrite Hp, Hfp, Hnew. cbn [patient_status_eqb].
  cbn [status_eqb andb].
  destruct (save_appointment e _ _) as [d3|] eqn:Es; simpl snd; apply Hfinal;
    [exact (save_appointment_patients _ _ _ _ Es) | reflexivity].
Qed.

Lemma confirm_activates_new_patient_witness :
  option_map p_status (find_patient repo_patient_schema 5
    (snd (update_status repo_patient_schema (env_at jun10)
            (store [appt 1 "APT000001" (Some 5%nat) None BookedByStaff Scheduled jun10 "9:00 AM"]
                   [set_p_status PNew patient5] []) 1 Confirmed)))
  = Some PActive.
Proof.
  apply (confirm_activates_new_patient repo_patient_schema (env_at jun10)
           (store [appt 1 "APT000001" (Some 5%nat) None BookedByStaff Scheduled jun10 "9:00 AM"]
                  [set_p_status PNew patient5] []) 1
           (appt 1 "APT000001" (Some 5%nat) None BookedByStaff Scheduled jun10 "9:00 AM")
           5 (set_p_status PNew patient5)); reflexivity.
Defined.

(** ** Rejecting a cancellation request *)

Lemma save_or_500_stored : forall e a d d1,
  save_or_500 e a d = (Ok200, d1) ->
  find_appointment (a_id a) d1 = Some (appointment_schema_view a).
Proof.
  intros e a d d1 H. apply save_or_500_ok in H.
  destruct (save_appointment_checks _ _ _ _ H) as [Hok Hfr].
  rewrite (save_appointment_ok _ _ _ Hok Hfr) in H. injection H as <-.
  apply find_put_self. reflexivity.
Qed.

(** C6 (code_bug). The review falls back to [confirmed] whenever the
    stored request has no previous status, and no saved request has one:
    the Appointment schema has no [cancellationRequest.previousStatus]
    path, so every [save()] drops it. A reachable instance: account 7
    books a [scheduled] appointment (201), requests its cancellation
    through [unnamed/part_012], which assigns [previousStatus] (200), and
    the staff reject the request (200): the appointment ends [confirmed],
    not [scheduled], with the request [rejected]. *)
Theorem reject_cancellation_restores_confirmed :
  (forall e d id a c d',
     find_appointment id d = Some a -> cancellationRequest a = Some c ->
     cr_previousStatus c = None ->
     reject_cancellation e d id = (Ok200, d') ->
     exists a', find_appointment id d' = Some a' /\ status a' = Confirmed /\
       option_map cr_status (cancellationRequest a') = Some ReqRejected) /\
  (forall e a d d', save_appointment e a d = Some d' ->
     exists a', find_appointment (a_id a) d' = Some a' /\
       forall c, cancellationRequest a' = Some c -> cr_previousStatus c = None) /\
  fst (booked_at "10:00 AM") = Created201 /\
  option_map status (find_appointment 100 (snd (booked_at "10:00 AM"))) = Some Scheduled /\
  fst cancel_rejected = Ok200 /\
  option_map status (find_appointment 100 (snd cancel_rejected)) = Some Confirmed /\
  option_map (option_map cr_status)
    (option_map cancellationRequest (find_appointment 100 (snd cancel_rejected)))
  = Some (Some ReqRejected).
Proof.
  split; [|split; [|vm_compute; repeat split]].
  - intros e d id a c d' Hf Hc Hp H.
    pose proof (find_appointment_id _ _ _ Hf) as Hid.
    unfold reject_cancellation in H. rewrite Hf in H.
    destruct (negb _); [discriminate|]. rewrite Hc in H.
    destruct (cr_requestedBy c); [|discriminate]. cbv zeta in H. rewrite Hp in H.
    apply save_or_500_stored in H. cbn in H. rewrite Hid in H.
    eexists. split; [exact H|]. split; reflexivity.
  - intros e a d d' H.
    destruct (save_appointment_checks _ _ _ _ H) as [Hok Hfr].
    rewrite (save_appointment_ok _ _ _ Hok Hfr) in H. injection H as <-.
    eexists. split; [apply find_put_self; reflexivity|].
    intros c Hc. cbn in Hc. destruct (cancellationRequest a); [|discriminate].
    injection Hc as <-. reflexivity.
Qed.

Lemma reject_cancellation_restores_confirmed_witness :
  let d := snd (request_cancellation_v2 (env_at 0) (snd (booked_at "10:00 AM")) "APT000001" 7
                  (Some "sick"%string)) in
  exists a', find_appointment 100 (snd (reject_cancellation (env_at 0) d 100)) = Some a' /\
    status a' = Confirmed /\ option_map cr_status (cancellationRequest a') = Some ReqRejected.
Proof.
  cbv zeta.
  pose (d := snd (request_cancellation_v2 (env_at 0) (snd (booked_at "10:00 AM")) "APT000001" 7
                    (Some "sick"%string))).
  pose (a := hd (appt 0 "" None None PatientPortal Scheduled 0 "") (appointments d)).
  apply (proj1 reject_cancellation_restores_confirmed (env_at 0) d 100%nat a
           {| cr_status := ReqPending; cr_requestedBy := Some 7%nat;
              cr_previousStatus := None |});
    vm_compute; reflexivity.
Defined.

(** ** Terminal states *)







(** ** Slot checks per route *)







(** ** Staff booking never stores *)

Lemma save_without_appointmentId : forall e a d,
  appointmentId a = EmptyString -> save_appointment e a d = None.
Proof. intros e a d H. unfold save_appointment, appointment_validates. rewrite H. reflexivity. Qed.

(** X20. Staff [POST /] of [routes/appointments.js] builds its document
    without an [appointmentId], a required path; the pre-save hook that
    fills it runs after validation, so the save always throws: the route
    never answers 201 and leaves the store as it was. *)
Theorem staff_booking_never_stores : forall e d b,
  snd (create_appointment e d b) = d /\ fst (create_appointment e d b) <> Created201.
Proof.
  intros e d b. unfold create_appointment.
  destruct (negb _); [split; [reflexivity | discriminate]|].
  destruct (find _ (patients d)) as [p|]; [|split; [reflexivity | discriminate]].
  destruct (_ || _)%bool; [split; [reflexivity | discriminate]|]. cbv zeta.
  destruct (JsDate.parse _ _); [|split; [reflexivity | discriminate]].
  destruct (found _ d); [split; [reflexivity | discriminate]|].
  rewrite save_without_appointmentId by reflexivity. split; [reflexivity | discriminate].
Qed.
